(** * Mandala Grid: a shallow embedding of [mandala_grid.py]

    The grid model of [src/mandala_grid.py] (the dataclasses [GridPosition]
    and [MandalaGrid], their queries, their text renderings, [compare_grids]
    and [mirror_analysis]) is rendered as executable Rocq definitions, and
    the properties of the specification are proved about those definitions.

    Conventions of the embedding:
    - a Python [str] is a list of Unicode code points ([str]);
    - a Python [int] is a [Z], a Python [float] is a binary64 [float];
    - a function that may raise returns a [result];
    - the JSON document read by [from_json] is a [value]. *)

From Stdlib Require Import ZArith NArith List String Ascii Floats DecimalString.
From Stdlib Require Import Sorting.Sorted Sorting.Permutation Lia Zpower.
From stdpp Require Import base option list gmap sorting.

Set Warnings "-inexact-float,-register-all,-clear-no-such-hyp".
Set Default Proof Using "Type".
Local Open Scope Z_scope.

(** ** Text *)

(** A Python string: its code points, in order. *)
Definition str := list N.

Module Utf8.

Definition byte_of (a : ascii) : N := N_of_ascii a.

(** The source file is UTF-8; a string literal is read into its code
    points.  Bytes that do not start a well-formed sequence are kept. *)
Fixpoint decode (bs : list N) : str :=
  match bs with
  | [] => []
  | b0 :: r0 =>
      if (b0 <? 192)%N then b0 :: decode r0
      else
        match r0 with
        | [] => [b0]
        | b1 :: r1 =>
            if (b0 <? 224)%N
            then ((b0 mod 32) * 64 + b1 mod 64)%N :: decode r1
            else
              match r1 with
              | [] => [b0; b1]
              | b2 :: r2 =>
                  if (b0 <? 240)%N
                  then ((b0 mod 16) * 4096 + (b1 mod 64) * 64
                        + b2 mod 64)%N :: decode r2
                  else
                    match r2 with
                    | [] => [b0; b1; b2]
                    | b3 :: r3 =>
                        ((b0 mod 8) * 262144 + (b1 mod 64) * 4096
                         + (b2 mod 64) * 64 + b3 mod 64)%N :: decode r3
                    end
              end
        end
  end.

Definition of_string (s : string) : str :=
  decode (map byte_of (list_ascii_of_string s)).

End Utf8.

(** [u "text"] is the Python literal ["text"]. *)
Abbreviation u := Utf8.of_string.

Definition newline : N := 10%N.
Definition space : N := 32%N.

(** [sep.join(parts)] *)
Fixpoint join (sep : str) (parts : list str) : str :=
  match parts with
  | [] => []
  | [s] => s
  | s :: rest => s ++ sep ++ join sep rest
  end.

(** [c * n] for a one-character string [c] *)
Definition repeat_char (c : N) (n : nat) : str := replicate n c.

(** [s in t] *)
Definition contains (s t : str) : Prop := ∃ a b, t = a ++ s ++ b.

(** [str(i)] for an [int] *)
Definition str_of_int (i : Z) : str :=
  map Utf8.byte_of (list_ascii_of_string (NilZero.string_of_int (Z.to_int i))).

(** [text.split("\n")] *)
Fixpoint split_lines_aux (cur : str) (s : str) : list str :=
  match s with
  | [] => [rev cur]
  | c :: s' =>
      if (c =? newline)%N then rev cur :: split_lines_aux [] s'
      else split_lines_aux (c :: cur) s'
  end.

Definition split_lines (s : str) : list str := split_lines_aux [] s.

(** ** Outcomes *)

(** The exception classes the module can raise. *)
Inductive exn : Type :=
| OSError
| JSONDecodeError
| AttributeError
| KeyError
| TypeError
| UnicodeEncodeError.

Inductive result (A : Type) : Type :=
| Ok (a : A)
| Raise (e : exn).
Arguments Ok {A} a.
Arguments Raise {A} e.

#[global] Instance result_ret : MRet result := λ A a, Ok a.
#[global] Instance result_bind : MBind result := λ A B k r,
  match r with
  | Ok a => k a
  | Raise e => Raise e
  end.

(** [[f(a) for a in l]], stopping at the first exception *)
Fixpoint rmapM {A B} (f : A → result B) (l : list A) : result (list B) :=
  match l with
  | [] => Ok []
  | a :: l' => b ← f a; bs ← rmapM f l'; Ok (b :: bs)
  end.

(** ** Numbers *)

(** Python's [a > b] on floats *)
Definition fgt (a b : float) : bool := PrimFloat.ltb b a.

Module Fmt.

(** The integer nearest to [n / d] for [0 < d], ties to even. *)
Definition round_half_even (n d : Z) : Z :=
  let q := n / d in
  match 2 * (n mod d) ?= d with
  | Lt => q
  | Gt => q + 1
  | Eq => if Z.even q then q else q + 1
  end.

(** [m * 2^e] in hundredths, correctly rounded. *)
Definition centi (m : positive) (e : Z) : Z :=
  if 0 <=? e then Z.pos m * 2 ^ e * 100
  else round_half_even (Z.pos m * 100) (2 ^ (- e)).

Definition digit (d : Z) : N := (48 + Z.to_N d)%N.

Definition fixed2 (c : Z) : str :=
  str_of_int (c / 100) ++ u "." ++ [digit (c mod 100 / 10); digit (c mod 10)].

Definition sign (s : bool) : str := if s then u "-" else [].

(** [f"{x:.2f}"]: fixed notation with two decimals, the exact binary
    value rounded to nearest, ties to even. *)
Definition format_2f (x : float) : str :=
  match Prim2SF x with
  | S754_nan => u "nan"
  | S754_infinity s => sign s ++ u "inf"
  | S754_zero s => sign s ++ u "0.00"
  | S754_finite s m e => sign s ++ fixed2 (centi m e)
  end.

(** [f"{s:^{w}s}"]: [s] centred in a field of [w] characters, padded with
    spaces, the odd space going to the right. *)
Definition center (w : nat) (s : str) : str :=
  let pad := (w - length s)%nat in
  let left := (pad / 2)%nat in
  repeat_char space left ++ s ++ repeat_char space (pad - left)%nat.

End Fmt.

(** The two text builtins the module calls that are not modelled digit by
    digit: [repr] of a float (what [f"{x}"] prints) and [str.lower]. *)
Class PyText := {
  float_repr : float → str;
  str_lower : str → str;
}.

(** ** Sorting and slicing *)

Section Sorted.
Context {A : Type} (key : A → float).

(** [x] goes after every element that compares below it and before the
    first that does not: equal keys keep their order. *)
Fixpoint insert_sorted (x : A) (l : list A) : list A :=
  match l with
  | [] => [x]
  | y :: l' =>
      if PrimFloat.ltb (key y) (key x) then y :: insert_sorted x l'
      else x :: l
  end.

Fixpoint sort_stable (l : list A) : list A :=
  match l with
  | [] => []
  | x :: l' => insert_sorted x (sort_stable l')
  end.

(** [sorted(l, key=key, reverse=reverse)].  The builtin is a stable sort
    that compares keys with [<] only; with [reverse=True] it reverses the
    list, sorts it, and reverses the result, so that equal keys still keep
    their original order.  Keys that [<] orders totally (all floats but
    NaN) have one stable sorted arrangement, which is this list.  With a
    NaN among the keys the builtin's result depends on the comparisons
    its merge strategy happens to make, and need not be this list; it is
    this list where the list (reversed, for [reverse=True]) has no
    element below its predecessor, which the builtin takes for one run
    and leaves as it is. *)
Definition sorted_ (reverse : bool) (l : list A) : list A :=
  if reverse then rev (sort_stable (rev l)) else sort_stable l.

End Sorted.

(** [l[:n]]: a negative [n] counts from the end. *)
Definition slice_to {A} (n : Z) (l : list A) : list A :=
  if 0 <=? n then take (Z.to_nat n) l
  else take (Z.to_nat (Z.of_nat (length l) + n)) l.

(** ** Structured data *)

(** What [json.load] returns. *)
Inductive value : Type :=
| VNone
| VBool (b : bool)
| VInt (i : Z)
| VFloat (f : float)
| VStr (s : str)
| VList (l : list value)
| VDict (d : list (str * value)).

(** [d.get(k)] on a [dict] kept as its items in insertion order; the keys
    of a [dict] are distinct. *)
Fixpoint dict_get (k : str) (d : list (str * value)) : option value :=
  match d with
  | [] => None
  | (k', v) :: d' => if decide (k' = k) then Some v else dict_get k d'
  end.

(** [d.get(k, dflt)] *)
Definition dict_get_or (k : str) (d : list (str * value)) (dflt : value)
    : value :=
  match dict_get k d with
  | Some v => v
  | None => dflt
  end.

(** [for p in v]: the items a comprehension draws from [v] *)
Definition iterate (v : value) : result (list value) :=
  match v with
  | VList l => Ok l
  | VStr s => Ok (map (λ c, VStr [c]) s)
  | VDict d => Ok (map (λ kv, VStr kv.1) d)
  | _ => Raise TypeError
  end.

Definition as_int (v : value) : option Z :=
  match v with VInt i => Some i | _ => None end.
Definition as_float (v : value) : option float :=
  match v with VFloat f => Some f | _ => None end.
Definition as_str (v : value) : option str :=
  match v with VStr s => Some s | _ => None end.

(** What is read at the path given to [from_json]: the file cannot be
    opened ([Missing]), its text is no JSON document ([Malformed], on
    which [json.load] raises [JSONDecodeError]), or [json.load] returns
    [data].  A file whose bytes are no UTF-8 text, or whose nesting exceeds
    the recursion limit of the interpreter, makes [json.load] raise another
    exception: such a file has no value here. *)
Inductive file : Type :=
| Missing
| Malformed
| Document (data : value).

(** ** Core data structures *)

Module GridPosition.

(** A single cell in the 3×3 mandala grid. *)
Record t : Type := mk {
  index : Z;
  label : str;
  label_zh : str;
  consciousness : str;
  consciousness_zh : str;
  function : str;
  bias : float;
  description : str;
}.

Definition field_names : list str :=
  [u "index"; u "label"; u "label_zh"; u "consciousness";
   u "consciousness_zh"; u "function"; u "bias"; u "description"].

(** The fields without a default. *)
Definition required : list str :=
  [u "index"; u "label"; u "label_zh"; u "consciousness";
   u "consciousness_zh"; u "function"; u "bias"].

(** [asdict(self)] *)
Definition to_dict (self : t) : value :=
  VDict [(u "index", VInt (index self));
         (u "label", VStr (label self));
         (u "label_zh", VStr (label_zh self));
         (u "consciousness", VStr (consciousness self));
         (u "consciousness_zh", VStr (consciousness_zh self));
         (u "function", VStr (function self));
         (u "bias", VFloat (bias self));
         (u "description", VStr (description self))].

(** The record whose fields are the keyword arguments [kw], when each
    has the type the dataclass announces.  The dataclass itself checks no
    type: with another type in a field, Python builds an object that this
    embedding has no value for, and the answer is [None]. *)
Definition typed (kw : list (str * value)) : option t :=
  i ← dict_get (u "index") kw ≫= as_int;
  l ← dict_get (u "label") kw ≫= as_str;
  lz ← dict_get (u "label_zh") kw ≫= as_str;
  c ← dict_get (u "consciousness") kw ≫= as_str;
  cz ← dict_get (u "consciousness_zh") kw ≫= as_str;
  f ← dict_get (u "function") kw ≫= as_str;
  b ← dict_get (u "bias") kw ≫= as_float;
  d ← as_str (dict_get_or (u "description") kw (VStr []));
  Some (mk i l lz c cz f b d).

(** [GridPosition( **p)]: [p] must be a mapping, every key must name a
    field and every field without a default must be given. *)
Definition init (p : value) : result (option t) :=
  match p with
  | VDict kw =>
      if negb (forallb (λ k, bool_decide (k ∈ field_names)) kw.*1)
      then Raise TypeError
      else if negb (forallb (λ k, bool_decide (is_Some (dict_get k kw)))
                      required)
      then Raise TypeError
      else Ok (typed kw)
  | _ => Raise TypeError
  end.

End GridPosition.

Module MandalaGrid.

(** The 3×3 mandala grid.  Position layout:
<<
      1 2 3
      6 0 5      0 = center
      7 8 4
>> *)
Record t : Type := mk {
  positions : list GridPosition.t;
  version : str;
  name : str;
  description : str;
}.

(** Create the canonical Quan-style mandala grid. *)
Definition default : t :=
  let positions := [
    GridPosition.mk 0 (u "Center Observer") (u "中心觀測者")
      (u "ālayavijñāna") (u "第八識（阿賴耶識）") (u "core_identity") 1.0
      (u "The silent witness. Observes all positions without attachment.");
    GridPosition.mk 1 (u "Logic Gate") (u "邏輯門")
      (u "manovijñāna") (u "第六識（意識）") (u "logical_consistency") 0.9
      (u "Rejects any output that contradicts established logic chains.");
    GridPosition.mk 2 (u "Evidence Filter") (u "證據過濾")
      (u "cakṣur-vijñāna") (u "眼識") (u "critical_evidence") 0.8
      (u "Demands verifiable evidence before accepting claims.");
    GridPosition.mk 3 (u "Minimal Reasoner") (u "極簡推理")
      (u "ghrāṇa-vijñāna") (u "鼻識") (u "minimal_reasoning") 0.7
      (u "Strips arguments to their simplest valid form.");
    GridPosition.mk 4 (u "Pragmatic Executor") (u "實踐執行")
      (u "kāya-vijñāna") (u "身識") (u "practical_execution") 0.6
      (u "Converts reasoning into actionable steps.");
    GridPosition.mk 5 (u "Precision Output") (u "精準產出")
      (u "jihvā-vijñāna") (u "舌識") (u "precise_output") 0.8
      (u "Ensures output matches the required format and depth.");
    GridPosition.mk 6 (u "Boundary Sentinel") (u "認知邊界")
      (u "śrotra-vijñāna") (u "耳識") (u "cognitive_boundary") 0.9
      (u "Flags when reasoning exceeds model capabilities or data.");
    GridPosition.mk 7 (u "Deconstructor") (u "解構者")
      (u "manas") (u "第七識（末那識）") (u "deconstruction") 0.95
      (u "Actively seeks counter-examples and hidden assumptions.");
    GridPosition.mk 8 (u "Legacy Keeper") (u "傳承守護")
      (u "beyond-eight") (u "傳承（超八識）") (u "core_record_relay") 0.5
      (u "Ensures continuity across sessions and generations.")
  ] in
  mk positions (u "2.0") (u "quan-default")
    (u "The canonical Quan personality grid with Eight Consciousnesses mapping.").

(** *** I/O *)

Definition to_dict (self : t) : value :=
  VDict [(u "mandala_grid",
          VDict [(u "version", VStr (version self));
                 (u "name", VStr (name self));
                 (u "description", VStr (description self));
                 (u "positions",
                  VList (map GridPosition.to_dict (positions self)))])].

(** The grid built from the positions and the three optional entries of
    [mg], when each has its announced type (see [GridPosition.typed]). *)
Definition typed (ps : list (option GridPosition.t))
    (mg : list (str * value)) : option t :=
  positions ← mapM id ps;
  v ← as_str (dict_get_or (u "version") mg (VStr (u "2.0")));
  n ← as_str (dict_get_or (u "name") mg (VStr (u "custom")));
  d ← as_str (dict_get_or (u "description") mg (VStr []));
  Some (mk positions v n d).

(** The body of [from_json] after [json.load].  [data.get] needs a
    [dict]; so does [mg["positions"]] with its string key. *)
Definition from_data (data : value) : result (option t) :=
  match data with
  | VDict d =>
      match dict_get_or (u "mandala_grid") d data with
      | VDict mg =>
          match dict_get (u "positions") mg with
          | Some ps =>
              items ← iterate ps;
              positions ← rmapM GridPosition.init items;
              Ok (typed positions mg)
          | None => Raise KeyError
          end
      | _ => Raise TypeError
      end
  | _ => Raise AttributeError
  end.

Definition from_json (path : file) : result (option t) :=
  match path with
  | Missing => Raise OSError
  | Malformed => Raise JSONDecodeError
  | Document data => from_data data
  end.

(** *** Query *)

Definition get (self : t) (index : Z) : result GridPosition.t :=
  match find (λ p, bool_decide (GridPosition.index p = index))
          (positions self) with
  | Some p => Ok p
  | None => Raise KeyError
  end.

(** [[p for p in self.positions if p.index != 0]] *)
Definition non_center (self : t) : list GridPosition.t :=
  filter (λ p, GridPosition.index p ≠ 0) (positions self).

(** Return the N positions with highest bias, excluding center. *)
Definition top_n (self : t) (n : Z) : list GridPosition.t :=
  slice_to n (sorted_ GridPosition.bias true (non_center self)).

Section Text.
Context {py : PyText}.

(** Return a one-line personality signature based on top-3 biases. *)
Definition personality_signature (self : t) : str :=
  let top := top_n self 3 in
  let parts :=
    map (λ p, GridPosition.label p ++ u "("
              ++ float_repr (GridPosition.bias p) ++ u ")") top in
  u "[" ++ name self ++ u "] " ++ join (u " > ") parts.

(** *** Reasoning *)

(** The two lines of one position in the prompt. *)
Definition prompt_lines (p : GridPosition.t) : list str :=
  [u "  [" ++ str_of_int (GridPosition.index p) ++ u "] "
     ++ GridPosition.label p ++ u " (bias="
     ++ float_repr (GridPosition.bias p) ++ u ") — "
     ++ GridPosition.consciousness p;
   u "      " ++ GridPosition.function p ++ u ": "
     ++ GridPosition.description p].

(** Generate a system prompt fragment that injects the mandala grid
    into an LLM's reasoning process. *)
Definition weighted_prompt (self : t) (task : str) : str :=
  let lines := [
    u "You are reasoning through a mandala grid — a weighted personality framework.";
    u "Grid: " ++ name self ++ u " (v" ++ version self ++ u ")";
    u "";
    u "Each position represents a cognitive function with a bias weight.";
    u "Higher bias = stronger influence on your reasoning.";
    u ""
  ] in
  let lines :=
    lines ++ concat (map prompt_lines
                       (sorted_ GridPosition.bias true (positions self))) in
  let lines := lines ++ [
    u "";
    u "Task: " ++ task;
    u "";
    u "Process this task through all 9 positions, weighting your reasoning by each position's bias. Start from the center observer, then engage positions from highest to lowest bias."
  ] in
  join [newline] lines.

End Text.

(** *** Display *)

(** [{p.index: p for p in self.positions}]: a later position replaces
    an earlier one with the same index. *)
Definition by_index (self : t) : gmap Z GridPosition.t :=
  foldl (λ g p, <[GridPosition.index p := p]> g) ∅ (positions self).

(** [f"{p.label[:12]:^14s}({p.bias:.2f})"] *)
Definition cell_text (p : GridPosition.t) : str :=
  Fmt.center 14 (take 12 (GridPosition.label p))
    ++ u "(" ++ Fmt.format_2f (GridPosition.bias p) ++ u ")".

Definition cell (g : gmap Z GridPosition.t) (i : Z) : result str :=
  match g !! i with
  | Some p => Ok (cell_text p)
  | None => Raise KeyError
  end.

(** [f"|{a}|{b}|{c}|"] *)
Definition row_text (a b c : str) : str :=
  u "|" ++ a ++ u "|" ++ b ++ u "|" ++ c ++ u "|".

Definition row (g : gmap Z GridPosition.t) (i j k : Z) : result str :=
  a ← cell g i; b ← cell g j; c ← cell g k;
  Ok (row_text a b c).

Definition sep : str :=
  u "+" ++ concat (replicate 3 (repeat_char 45 16 ++ u "+")).

(** The seven rows of the picture. *)
Definition display_rows (self : t) : result (list str) :=
  let g := by_index self in
  r1 ← row g 1 2 3;
  r2 ← row g 6 0 5;
  r3 ← row g 7 8 4;
  Ok [sep; r1; sep; r2; sep; r3; sep].

(** Pretty-print the 3×3 grid. *)
Definition display (self : t) : result str :=
  rows ← display_rows self;
  Ok (join [newline] rows).

End MandalaGrid.

(** ** Comparison *)

Section Comparison.
Context {py : PyText}.

Definition arrow_up : str := u "↑".
Definition arrow_down : str := u "↓".

(** The line of a position whose bias differs, with its marker. *)
Definition diff_text (pa pb : GridPosition.t) (arrow : str) : str :=
  let diff := (GridPosition.bias pa - GridPosition.bias pb)%float in
  u "  Position " ++ str_of_int (GridPosition.index pa) ++ u " ("
    ++ GridPosition.label pa ++ u "): "
    ++ Fmt.format_2f (GridPosition.bias pa) ++ u " → "
    ++ Fmt.format_2f (GridPosition.bias pb) ++ u " ["
    ++ arrow ++ Fmt.format_2f (abs diff) ++ u "]".

(** One turn of the loop of [compare_grids]: the lines it appends for the
    position [pa] of [a], none or one. *)
Definition diff_line (b : MandalaGrid.t) (pa : GridPosition.t)
    : result (list str) :=
  pb ← MandalaGrid.get b (GridPosition.index pa);
  let diff := (GridPosition.bias pa - GridPosition.bias pb)%float in
  if fgt (abs diff) 0.01 then
    let arrow := if fgt diff 0 then arrow_up else arrow_down in
    Ok [diff_text pa pb arrow]
  else Ok [].

(** The lines the loop appends, in order. *)
Definition diff_lines (a b : MandalaGrid.t) : result (list str) :=
  ls ← rmapM (diff_line b) (MandalaGrid.positions a);
  Ok (concat ls).

(** Compare two mandala grids and highlight differences. *)
Definition compare_grids (a b : MandalaGrid.t) : result str :=
  let lines := [
    u "Comparing [" ++ MandalaGrid.name a ++ u "] vs ["
      ++ MandalaGrid.name b ++ u "]";
    repeat_char 61 50
  ] in
  diffs ← diff_lines a b;
  let lines := lines ++ diffs in
  let lines := lines ++ [u ""] in
  let lines := lines ++ [u "  " ++ MandalaGrid.name a ++ u ": "
                           ++ MandalaGrid.personality_signature a] in
  let lines := lines ++ [u "  " ++ MandalaGrid.name b ++ u ": "
                           ++ MandalaGrid.personality_signature b] in
  Ok (join [newline] lines).

End Comparison.

(** ** Mirror effect analysis *)

Section Mirror.
Context {py : PyText}.

Definition strongest_line (p : GridPosition.t) : str :=
  u "  ⬆ " ++ GridPosition.label p ++ u " (bias="
    ++ float_repr (GridPosition.bias p) ++ u "): You naturally "
    ++ str_lower (GridPosition.description p).

Definition deprioritized_line (p : GridPosition.t) : str :=
  u "  ⬇ " ++ GridPosition.label p ++ u " (bias="
    ++ float_repr (GridPosition.bias p)
    ++ u "): You tend to under-invest in " ++ GridPosition.function p.

Definition closing : str :=
  u "Buddhism calls this self-awareness. You call it mandala_grid. Same thing.".

(** The two lowest non-center positions, lowest first. *)
Definition bottom_two (grid : MandalaGrid.t) : list GridPosition.t :=
  slice_to 2
    (sorted_ GridPosition.bias false (MandalaGrid.non_center grid)).

(** The Mirror Effect: AI personality grids reflect their creator's
    cognitive patterns. This function surfaces that reflection. *)
Definition mirror_analysis (grid : MandalaGrid.t) : result str :=
  let top := MandalaGrid.top_n grid 3 in
  let bottom := bottom_two grid in
  let lines := [
    u "═══ Mirror Analysis ═══";
    u "";
    u "The AI-as-Mirror theory: your mandala_grid is not a design spec —";
    u "it's a self-portrait of how you think.";
    u "";
    u "Your strongest cognitive patterns:"
  ] in
  let lines := lines ++ map strongest_line top in
  let lines := lines ++ [u ""] in
  let lines := lines ++ [u "Your deprioritized patterns:"] in
  let lines := lines ++ map deprioritized_line bottom in
  let lines := lines ++ [u ""] in
  center ← MandalaGrid.get grid 0;
  let lines := lines ++ [u "Your center: " ++ GridPosition.label center
                           ++ u " — " ++ GridPosition.description center] in
  let lines := lines ++ [u ""] in
  let lines := lines ++ [closing] in
  Ok (join [newline] lines).

(** The lines that [mirror_analysis] joins, for the center [center]. *)
Definition mirror_lines (grid : MandalaGrid.t) (center : GridPosition.t)
    : list str :=
  [u "═══ Mirror Analysis ═══";
   u "";
   u "The AI-as-Mirror theory: your mandala_grid is not a design spec —";
   u "it's a self-portrait of how you think.";
   u "";
   u "Your strongest cognitive patterns:"]
  ++ map strongest_line (MandalaGrid.top_n grid 3)
  ++ [u ""; u "Your deprioritized patterns:"]
  ++ map deprioritized_line (bottom_two grid)
  ++ [u "";
      u "Your center: " ++ GridPosition.label center ++ u " — "
        ++ GridPosition.description center;
      u "";
      closing].

End Mirror.

(** ** The vocabulary of the properties *)

(** *** Order of the biases *)

Module Rank.

(** The place of a binary64 number in the order, as a triple compared
    left to right: its class (minus infinity, negative, zero, positive,
    infinity), then exponent and mantissa. *)
Definition rank (x : spec_float) : Z * Z * Z :=
  match x with
  | S754_nan => (0, 0, 0)
  | S754_zero _ => (0, 0, 0)
  | S754_infinity true => (-2, 0, 0)
  | S754_infinity false => (2, 0, 0)
  | S754_finite true m e => (-1, - e, - Z.pos m)
  | S754_finite false m e => (1, e, Z.pos m)
  end.

Definition lt3 (a b : Z * Z * Z) : Prop :=
  a.1.1 < b.1.1
  ∨ (a.1.1 = b.1.1 ∧ (a.1.2 < b.1.2 ∨ (a.1.2 = b.1.2 ∧ a.2 < b.2))).

End Rank.

Section Order.
Context {A : Type} (key : A → float).

(** [x] may stand before [y] in ascending order: [y] is not below [x]. *)
Definition ascending (x y : A) : Prop := (key y <? key x)%float = false.
(** [x] may stand before [y] in descending order. *)
Definition descending (x y : A) : Prop := (key x <? key y)%float = false.
(** The key of [x] equals [k], as [==] has it. *)
Definition tied (k : float) (x : A) : Prop := (key x =? k)%float = true.
(** The key of [x] is a number, not NaN. *)
Definition numeric (x : A) : Prop := is_nan (key x) = false.

#[global] Instance tied_dec k x : Decision (tied k x).
Proof. unfold tied. apply _. Defined.

#[global] Instance numeric_dec x : Decision (numeric x).
Proof. unfold numeric. apply _. Defined.

(** [r] is the [n] first of [pool] in the order [before], ties in the
    order of [pool]: it has [n] elements, or all of [pool] if [n]
    exceeds their number; what is left out comes after every element of
    [r]; [r] is sorted; and among the elements with one key, [r] holds
    the earliest of [pool], as [pool] orders them. *)
Definition selects (before : A → A → Prop) (n : Z) (pool r : list A)
    : Prop :=
  Z.of_nat (length r) = Z.min n (Z.of_nat (length pool))
  ∧ (∃ rest, r ++ rest ≡ₚ pool
             ∧ ∀ p q, p ∈ r → q ∈ rest → before p q)
  ∧ StronglySorted before r
  ∧ (∀ k, filter (tied k) r `prefix_of` filter (tied k) pool)
  ∧ (Z.of_nat (length pool) ≤ n → r ≡ₚ pool).

End Order.

(** *** Grids *)

(** Some position of [g] has index [i]. *)
Definition has_index (g : MandalaGrid.t) (i : Z) : Prop :=
  ∃ p, p ∈ MandalaGrid.positions g ∧ GridPosition.index p = i.

(** The invariant of the data model: no index occurs twice. *)
Definition unique_indices (g : MandalaGrid.t) : Prop :=
  NoDup (map GridPosition.index (MandalaGrid.positions g)).

(** The indices of the cells, row by row. *)
Definition layout : list Z := [1; 2; 3; 6; 0; 5; 7; 8; 4].

(** Every cell of the layout has a position. *)
Definition complete (g : MandalaGrid.t) : Prop :=
  Forall (has_index g) layout.

(** [p] with another bias. *)
Definition with_bias (p : GridPosition.t) (b : float) : GridPosition.t :=
  GridPosition.mk (GridPosition.index p) (GridPosition.label p)
    (GridPosition.label_zh p) (GridPosition.consciousness p)
    (GridPosition.consciousness_zh p) (GridPosition.function p) b
    (GridPosition.description p).

(** What [topN(n)] is said to return for the grid [g]. *)
Definition top_n_claim (g : MandalaGrid.t) (n : Z) : Prop :=
  selects GridPosition.bias (descending GridPosition.bias) n
    (MandalaGrid.non_center g) (MandalaGrid.top_n g n)
  ∧ Forall (λ p, GridPosition.index p ≠ 0) (MandalaGrid.top_n g n).

(** *** Sources *)

(** The exceptions of [from_json] that the specification calls a
    DeserializationError: all but the failure to read the file. *)
Definition DeserializationError (e : exn) : Prop := e ≠ OSError.

Definition deserialization_fails (src : file) : Prop :=
  ∃ e, MandalaGrid.from_json src = Raise e ∧ DeserializationError e.

(** The object holding the grid fields: the one under ["mandala_grid"],
    or the document itself when it has no such key. *)
Inductive holds_grid : value → value → Prop :=
| holds_wrapped d mg :
    dict_get (u "mandala_grid") d = Some mg → holds_grid (VDict d) mg
| holds_direct d :
    dict_get (u "mandala_grid") d = None → holds_grid (VDict d) (VDict d).

(** A position object with every required field and no key but the eight
    field names. *)
Definition position_object (item : value) : Prop :=
  ∃ kw, item = VDict kw
        ∧ Forall (λ k, k ∈ GridPosition.field_names) kw.*1
        ∧ Forall (λ k, is_Some (dict_get k kw)) GridPosition.required.

(** The source is a document whose grid fields are [mg]. *)
Definition grid_fields (src : file) (mg : list (str * value)) : Prop :=
  ∃ data, src = Document data ∧ holds_grid data (VDict mg).

(** The items that the comprehension draws from the positions of the
    source. *)
Definition position_items (src : file) (items : list value) : Prop :=
  ∃ mg ps, grid_fields src mg ∧ dict_get (u "positions") mg = Some ps
           ∧ iterate ps = Ok items.

(** The sources [from_json] builds a grid from. *)
Definition loadable (src : file) : Prop :=
  ∃ items, position_items src items ∧ Forall position_object items.

(** The failures the specification lists.  A position lacks a required
    field; or the source is not valid structured data: it is malformed, the
    document or the wrapped value is not an object, the positions key is
    missing, the positions cannot be iterated or one of them is not an
    object. *)
Definition lacks_required_field (src : file) : Prop :=
  ∃ items kw k,
    position_items src items ∧ VDict kw ∈ items
    ∧ k ∈ GridPosition.required ∧ dict_get k kw = None.

Definition not_structured_data (src : file) : Prop :=
  src = Malformed
  ∨ (∃ data, src = Document data ∧ ∀ mg, ¬ holds_grid data (VDict mg))
  ∨ (∃ mg, grid_fields src mg ∧ dict_get (u "positions") mg = None)
  ∨ (∃ mg ps e, grid_fields src mg ∧ dict_get (u "positions") mg = Some ps
                ∧ iterate ps = Raise e)
  ∨ (∃ items item, position_items src items ∧ item ∈ items
                   ∧ ∀ kw, item ≠ VDict kw).

Definition listed_failure (src : file) : Prop :=
  lacks_required_field src ∨ not_structured_data src.

(** A position object has a key that names no field. *)
Definition unknown_field (src : file) : Prop :=
  ∃ items kw k,
    position_items src items ∧ VDict kw ∈ items
    ∧ k ∈ kw.*1 ∧ k ∉ GridPosition.field_names.

(** The canonical grid after [positions[7].bias = 0.5] and
    [name = "modified"]. *)
Definition modified_default : MandalaGrid.t :=
  MandalaGrid.mk
    (alter (λ p, with_bias p 0.5) 7%nat
       (MandalaGrid.positions MandalaGrid.default))
    (MandalaGrid.version MandalaGrid.default) (u "modified")
    (MandalaGrid.description MandalaGrid.default).

(** A source whose one position has every field and a key more. *)
Definition extra_key : file :=
  Document (VDict [(u "mandala_grid", VDict [
    (u "positions", VList [VDict [
       (u "index", VInt 0); (u "label", VStr (u "Center"));
       (u "label_zh", VStr (u "Center"));
       (u "consciousness", VStr (u "alaya"));
       (u "consciousness_zh", VStr (u "alaya"));
       (u "function", VStr (u "core_identity"));
       (u "bias", VFloat 1%float);
       (u "description", VStr []);
       (u "color", VStr (u "red"))]])])]).

(** A grid with one position, of index 3. *)
Definition lone_grid : MandalaGrid.t :=
  MandalaGrid.mk
    [GridPosition.mk 3 (u "Minimal Reasoner") (u "Minimal") (u "ghrana")
       (u "ghrana") (u "minimal_reasoning") 0.7%float []]
    (u "2.0") (u "lone") [].

(** ** An instance of the text builtins, to run the definitions *)

Module Sample.

(** [str.lower] on the letters A to Z; other characters are kept, also
    those that Python would lower. *)
Definition ascii_lower (s : str) : str :=
  map (λ c, if ((65 <=? c) && (c <=? 90))%N then (c + 32)%N else c) s.

Fixpoint strip_zeros (r : str) : str :=
  match r with
  | 48%N :: ((d :: _) as r') => if (d =? 46)%N then r else strip_zeros r'
  | _ => r
  end.

(** The two-decimal rendering without its trailing zeros, one decimal
    at least: Python's [repr] of a float that is the binary64 nearest to
    a number of at most two decimals, as the biases of the canonical grid
    are.  Other floats have a longer [repr] than this. *)
Definition short_repr (x : float) : str :=
  rev (strip_zeros (rev (Fmt.format_2f x))).

Definition text : PyText :=
  {| float_repr := short_repr; str_lower := ascii_lower |}.

End Sample.

(** ** Text serialization and the command line *)

Module Cli.

(** [json.dumps(v, indent=indent, ensure_ascii=False)], a builtin that is
    not modelled character by character. *)
Class PyJson := { json_dumps : Z → value → str }.

(** What a run of the program leaves behind: the arguments of its calls of
    [print], and the files it wrote, in order. *)
Inductive event : Type :=
| Printed (text : str)
| Written (path text : str).

(** The files of the machine: what [open] and [json.load] give for a path,
    and whether [open(path, "w")] and the write succeed. *)
Record world : Type := mk_world {
  read : str → file;
  writable : str → bool;
}.

(** A computation of the command line: the events so far, and the
    outcome.  [Ok None] stands, as in [from_json], for a run that went on
    with a field of a type other than the annotated one. *)
Definition run (A : Type) : Type := list event * result (option A).

#[global] Instance run_ret : MRet run := λ A a, ([], Ok (Some a)).
#[global] Instance run_bind : MBind run := λ A B f m,
  match m with
  | (t, Ok (Some a)) => let '(t', r) := f a in (t ++ t', r)
  | (t, Ok None) => (t, Ok None)
  | (t, Raise e) => (t, Raise e)
  end.

Definition lifted {A} (r : result A) : run A :=
  ([], match r with Ok a => Ok (Some a) | Raise e => Raise e end).
Definition loaded {A} (r : result (option A)) : run A := ([], r).

(** [print(text)] *)
Definition print (text : str) : run unit := ([Printed text], Ok (Some tt)).

(** [s * n] *)
Definition str_mul (s : str) (n : nat) : str := concat (replicate n s).

(** [if s:] for an argument that is [None] or a string: the string, when
    it is given and not empty. *)
Definition given (s : option str) : option str :=
  match s with
  | Some (c :: r) => Some (c :: r)
  | _ => None
  end.

(** The namespace that [parser.parse_args()] returns. *)
Record args : Type := mk_args {
  demo : bool;
  profile : option str;
  compare : option (str * str);
  mirror : bool;
  export : option str;
  prompt : option str;
}.

Section Program.
Context {py : PyText} {js : PyJson}.

(** The text has a UTF-8 encoding: none of its characters is a surrogate
    code point. *)
Definition encodable (text : str) : Prop :=
  Forall (λ c, (c < 55296 ∨ 57343 < c)%N) text.

(** [MandalaGrid.to_json] *)
Definition to_json (self : MandalaGrid.t) (indent : Z) : str :=
  json_dumps indent (MandalaGrid.to_dict self).

(** [MandalaGrid.save]: [open(path, "w")] creates the file or empties
    it, and [f.write] encodes the text before it writes any of it.  When
    the text cannot be encoded the file is left empty. *)
Definition save (w : world) (self : MandalaGrid.t) (path : str) : run unit :=
  if writable w path then
    let text := to_json self 2 in
    if bool_decide (encodable text)
    then ([Written path text], Ok (Some tt))
    else ([Written path []], Raise UnicodeEncodeError)
  else ([], Raise OSError).

(** One line of the mapping that the default view prints. *)
Definition mapping_line (p : GridPosition.t) : str :=
  u "  [" ++ str_of_int (GridPosition.index p) ++ u "] "
    ++ GridPosition.consciousness_zh p ++ u " → " ++ GridPosition.label p
    ++ u " (bias=" ++ float_repr (GridPosition.bias p) ++ u ")".

(** [for s in l: print(s)] *)
Fixpoint print_all (l : list str) : run unit :=
  match l with
  | [] => mret tt
  | s :: l' => _ ← print s; print_all l'
  end.

(** The default view: the grid, its signature and the mapping, and the
    demo after them when it is asked for. *)
Definition show (a : args) (grid : MandalaGrid.t) : run unit :=
  _ ← print (newline :: str_mul (u "═") 50);
  _ ← print (u "  Mandala Grid: " ++ MandalaGrid.name grid ++ u " (v"
               ++ MandalaGrid.version grid ++ u ")");
  _ ← print (str_mul (u "═") 50 ++ [newline]);
  text ← lifted (MandalaGrid.display grid);
  _ ← print text;
  _ ← print (newline :: u "Personality Signature: "
               ++ MandalaGrid.personality_signature grid);
  _ ← print (newline :: u "Eight Consciousnesses Mapping:");
  _ ← print_all (map mapping_line
                   (sorted_ GridPosition.bias true
                      (MandalaGrid.positions grid)));
  if demo a then
    _ ← print (newline :: str_mul (u "─") 50);
    _ ← print (u "Demo: Weighted prompt for a sample task" ++ [newline]);
    print (MandalaGrid.weighted_prompt grid
             (u "Should I open-source this framework?"))
  else mret tt.

(** [main], after [parser.parse_args()]. *)
Definition main (w : world) (a : args) : run unit :=
  match compare a with
  | Some (fa, fb) =>
      ga ← loaded (MandalaGrid.from_json (read w fa));
      gb ← loaded (MandalaGrid.from_json (read w fb));
      text ← lifted (compare_grids ga gb);
      print text
  | None =>
      grid ← match given (profile a) with
             | Some path => loaded (MandalaGrid.from_json (read w path))
             | None => mret MandalaGrid.default
             end;
      match given (export a) with
      | Some path =>
          _ ← save w grid path;
          print (u "Exported grid to " ++ path)
      | None =>
          match given (prompt a) with
          | Some task => print (MandalaGrid.weighted_prompt grid task)
          | None =>
              if mirror a then
                text ← lifted (mirror_analysis grid);
                print text
              else show a grid
          end
      end
  end.

(** The grid that a run without [--compare] works on. *)
Definition chosen (w : world) (a : args) : result (option MandalaGrid.t) :=
  match given (profile a) with
  | Some path => MandalaGrid.from_json (read w path)
  | None => Ok (Some MandalaGrid.default)
  end.

End Program.

(** The files that a run wrote. *)
Definition writes (t : list event) : list (str * str) :=
  omap (λ ev, match ev with
              | Written path text => Some (path, text)
              | Printed _ => None
              end) t.

(** The texts that a run printed. *)
Definition prints (t : list event) : list str :=
  omap (λ ev, match ev with
              | Printed text => Some text
              | Written _ _ => None
              end) t.

(** A stand-in for [json.dumps], to run the definitions: it prints no
    value. *)
Definition no_json : PyJson := {| json_dumps := λ _ _, u "{}" |}.

(** The machine on which every path holds the document [doc] and can be
    written. *)
Definition one_document (doc : value) : world :=
  {| read := λ _, Document doc; writable := λ _, true |}.

End Cli.

(** ** More vocabulary *)

(** The position object of [p] without its description. *)
Definition without_description (p : GridPosition.t) : value :=
  VDict [(u "index", VInt (GridPosition.index p));
         (u "label", VStr (GridPosition.label p));
         (u "label_zh", VStr (GridPosition.label_zh p));
         (u "consciousness", VStr (GridPosition.consciousness p));
         (u "consciousness_zh", VStr (GridPosition.consciousness_zh p));
         (u "function", VStr (GridPosition.function p));
         (u "bias", VFloat (GridPosition.bias p))].

(** [p] with the default description. *)
Definition no_description (p : GridPosition.t) : GridPosition.t :=
  GridPosition.mk (GridPosition.index p) (GridPosition.label p)
    (GridPosition.label_zh p) (GridPosition.consciousness p)
    (GridPosition.consciousness_zh p) (GridPosition.function p)
    (GridPosition.bias p) [].

(** The keys of the grid object that [from_json] reads. *)
Definition grid_keys : list str :=
  [u "positions"; u "version"; u "name"; u "description"].

(** The lines of [compare_grids a b] for the position [pa] of [a]: one
    line when [b] has a position of that index and the two biases differ
    by more than 0.01, with the up marker when the bias of [pa] is the
    greater and the down marker otherwise; no line else. *)
Definition reported (b : MandalaGrid.t) (pa : GridPosition.t) : list str :=
  match MandalaGrid.get b (GridPosition.index pa) with
  | Ok pb =>
      if fgt (abs (GridPosition.bias pa - GridPosition.bias pb)) 0.01
      then [diff_text pa pb
              (if fgt (GridPosition.bias pa) (GridPosition.bias pb)
               then arrow_up else arrow_down)]
      else []
  | Raise _ => []
  end.

(** What [mirror_analysis] reads of a position. *)
Definition shown_fields (p : GridPosition.t)
    : Z * str * str * float * str :=
  (GridPosition.index p, GridPosition.label p, GridPosition.function p,
   GridPosition.bias p, GridPosition.description p).

Definition same_shown (p q : GridPosition.t) : Prop :=
  shown_fields p = shown_fields q.

(** A center and five positions whose biases, in the order of the grid,
    are 0.2, NaN, 0.9, NaN, 0.5: no two neighbours compare with [<]. *)
Definition nan_mirror_grid : MandalaGrid.t :=
  MandalaGrid.mk
    [GridPosition.mk 0 (u "Center") (u "Center") (u "z") (u "z")
       (u "core") 1%float (u "Watches.");
     GridPosition.mk 1 (u "One") (u "One") (u "a") (u "a") (u "one")
       0.2%float (u "First.");
     GridPosition.mk 2 (u "Two") (u "Two") (u "b") (u "b") (u "two")
       nan (u "Second.");
     GridPosition.mk 3 (u "Three") (u "Three") (u "c") (u "c") (u "three")
       0.9%float (u "Third.");
     GridPosition.mk 4 (u "Four") (u "Four") (u "d") (u "d") (u "four")
       nan (u "Fourth.");
     GridPosition.mk 5 (u "Five") (u "Five") (u "e") (u "e") (u "five")
       0.5%float (u "Fifth.")]
    (u "2.0") (u "nan-mirror") [].

(** A grid with two positions of index 1. *)
Definition twin_grid : MandalaGrid.t :=
  MandalaGrid.mk
    [GridPosition.mk 1 (u "Logic Gate") (u "Logic") (u "mano") (u "mano")
       (u "logical_consistency") 0.9%float [];
     GridPosition.mk 1 (u "Second Gate") (u "Second") (u "mano") (u "mano")
       (u "logical_consistency") 0.5%float []]
    (u "2.0") (u "twin") [].

(** A grid with a bias that is not a number, between two that are. *)
Definition nan_grid : MandalaGrid.t :=
  MandalaGrid.mk
    [GridPosition.mk 0 (u "Low") (u "Low") (u "a") (u "a") (u "low")
       0.2%float [];
     GridPosition.mk 1 (u "None") (u "None") (u "b") (u "b") (u "none")
       nan [];
     GridPosition.mk 2 (u "High") (u "High") (u "c") (u "c") (u "high")
       0.8%float []]
    (u "2.0") (u "nan") [].

(** The canonical grid with a line break in the label of position 1. *)
Definition nl_grid : MandalaGrid.t :=
  MandalaGrid.mk
    (alter (λ p, GridPosition.mk (GridPosition.index p)
                   (u "Logic" ++ [newline] ++ u "Gate")
                   (GridPosition.label_zh p) (GridPosition.consciousness p)
                   (GridPosition.consciousness_zh p) (GridPosition.function p)
                   (GridPosition.bias p) (GridPosition.description p))
       1%nat (MandalaGrid.positions MandalaGrid.default))
    (MandalaGrid.version MandalaGrid.default)
    (MandalaGrid.name MandalaGrid.default)
    (MandalaGrid.description MandalaGrid.default).

(** * Properties *)

(** ** The order of binary64 numbers *)

Import Rank.

Module FloatOrder.

Lemma SFltb_rank a b :
  a ≠ S754_nan → b ≠ S754_nan →
  SFltb a b = true ↔ lt3 (rank a) (rank b).
Proof.
  intros Ha Hb. unfold SFltb, lt3.
  destruct a as [sa|sa| |sa ma ea], b as [sb|sb| |sb mb eb]; try done;
    try destruct sa; try destruct sb; simpl; try (split; [done | lia]);
    try (split; [lia | done]).
  all: fold (Pos.compare ma mb);
    destruct (Z.compare_spec ea eb), (Pos.compare_spec ma mb);
    simpl; split; (done || lia).
Qed.

Lemma SFltb_nan_l b : SFltb S754_nan b = false.
Proof. by destruct b. Qed.

Lemma SFltb_nan_r a : SFltb a S754_nan = false.
Proof. by destruct a as [[]|[]| |[] ? ?]. Qed.

Lemma is_nan_spec x : is_nan x = true ↔ Prim2SF x = S754_nan.
Proof.
  unfold is_nan. rewrite FloatAxioms.eqb_spec. unfold SFeqb.
  destruct (Prim2SF x) as [s|s| |s m e]; simpl;
    try destruct s; simpl; try (split; done).
  all: rewrite Z.compare_refl; fold (Pos.compare m m);
    rewrite Pos.compare_refl; split; done.
Qed.

Lemma not_nan_spec x : is_nan x = false ↔ Prim2SF x ≠ S754_nan.
Proof.
  rewrite <- is_nan_spec. destruct (is_nan x); split; congruence.
Qed.

Lemma ltb_lt3 x y :
  is_nan x = false → is_nan y = false →
  (x <? y)%float = true ↔ lt3 (rank (Prim2SF x)) (rank (Prim2SF y)).
Proof.
  intros Hx%not_nan_spec Hy%not_nan_spec.
  rewrite ltb_spec. by apply SFltb_rank.
Qed.

Lemma ltb_nan_l x y : is_nan x = true → (x <? y)%float = false.
Proof.
  intros Hx%is_nan_spec. by rewrite ltb_spec, Hx, SFltb_nan_l.
Qed.

Lemma ltb_nan_r x y : is_nan y = true → (x <? y)%float = false.
Proof.
  intros Hy%is_nan_spec. by rewrite ltb_spec, Hy, SFltb_nan_r.
Qed.

(** [<] is asymmetric on all floats. *)
Lemma ltb_asym x y : (x <? y)%float = true → (y <? x)%float = false.
Proof.
  intros Hxy.
  destruct (is_nan x) eqn:Hx; [by apply ltb_nan_r|].
  destruct (is_nan y) eqn:Hy; [by apply ltb_nan_l|].
  apply (ltb_lt3 _ _ Hx Hy) in Hxy.
  destruct (y <? x)%float eqn:Hyx; [|done].
  apply (ltb_lt3 _ _ Hy Hx) in Hyx. unfold lt3 in *. lia.
Qed.

Lemma ltb_irrefl x : (x <? x)%float = false.
Proof.
  destruct (x <? x)%float eqn:H; [|done].
  by rewrite (ltb_asym _ _ H) in H.
Qed.

(** Among numbers, "not below" is transitive. *)
Lemma not_ltb_trans x y z :
  is_nan y = false →
  (x <? y)%float = false → (y <? z)%float = false →
  (x <? z)%float = false.
Proof.
  intros Hy Hxy Hyz.
  destruct (is_nan x) eqn:Hx; [by apply ltb_nan_l|].
  destruct (is_nan z) eqn:Hz; [by apply ltb_nan_r|].
  destruct (x <? z)%float eqn:Hxz; [|done].
  apply (ltb_lt3 _ _ Hx Hz) in Hxz.
  assert (¬ lt3 (rank (Prim2SF x)) (rank (Prim2SF y))) as H1
      by (rewrite <- (ltb_lt3 _ _ Hx Hy); congruence).
  assert (¬ lt3 (rank (Prim2SF y)) (rank (Prim2SF z))) as H2
      by (rewrite <- (ltb_lt3 _ _ Hy Hz); congruence).
  unfold lt3 in *. lia.
Qed.

Lemma ltb_trans x y z :
  (x <? y)%float = true → (y <? z)%float = true → (x <? z)%float = true.
Proof.
  intros Hxy Hyz.
  destruct (is_nan x) eqn:Hx; [by rewrite ltb_nan_l in Hxy|].
  destruct (is_nan y) eqn:Hy; [by rewrite ltb_nan_r in Hxy|].
  destruct (is_nan z) eqn:Hz; [by rewrite ltb_nan_r in Hyz|].
  apply ltb_lt3 in Hxy, Hyz; try done. apply ltb_lt3; try done.
  unfold lt3 in *. lia.
Qed.

(** Two numbers are ordered one way or the other. *)
Lemma ltb_total x y :
  (x <? y)%float = false ∨ (y <? x)%float = false.
Proof.
  destruct (x <? y)%float eqn:H; [right; by apply ltb_asym | by left].
Qed.

End FloatOrder.
Module FloatSub.
Import FloatOrder.

(** Rounding keeps the sign it is given. *)
Lemma binary_round_aux_sign s m e l :
  let r := binary_round_aux prec emax s m e l in
  r = S754_nan ∨ r = S754_zero s ∨ r = S754_infinity s
  ∨ ∃ m' e', r = S754_finite s m' e'.
Proof.
  unfold binary_round_aux.
  destruct (shr_fexp prec emax m e l) as [mrs' e'].
  destruct (shr_fexp prec emax _ e' loc_Exact) as [mrs'' e''].
  destruct (shr_m mrs'') as [|p|p]; [by auto| |by auto].
  destruct (e'' <=? emax - prec); eauto 6.
Qed.

Lemma binary_normalize_sign z e :
  let r := binary_normalize prec emax z e false in
  r = S754_nan ∨ (∃ s, r = S754_zero s) ∨ r = S754_infinity (z <? 0)
  ∨ ∃ m' e', r = S754_finite (z <? 0) m' e'.
Proof.
  destruct z as [|p|p]; simpl; [by eauto| |];
    unfold binary_round;
    destruct (shl_align _ _ _) as [mz ez];
    match goal with
    | |- context [binary_round_aux _ _ ?s ?m ?e ?l] =>
        destruct (binary_round_aux_sign s m e l) as [H|[H|[H|H]]]
    end; simpl in H; rewrite ?H; eauto.
Qed.

(** A float minus itself is a zero, or NaN. *)
Lemma SFsub_diag a :
  SF64sub a a = S754_nan ∨ ∃ s, SF64sub a a = S754_zero s.
Proof.
  destruct a as [[]|[]| |s m e]; simpl; eauto.
  right. exists false. unfold SF64sub, SFsub. by rewrite Z.sub_diag.
Qed.

Lemma sub_diag_small x c :
  fgt c 0 = true → fgt (abs (x - x)) c = false.
Proof.
  unfold fgt. intros Hc. rewrite ltb_spec in *.
  rewrite abs_spec, sub_spec.
  destruct (SFsub_diag (Prim2SF x)) as [->|[s ->]]; simpl.
  - apply SFltb_nan_r.
  - replace (Prim2SF 0) with (S754_zero false) in Hc by done.
    destruct (Prim2SF c) as [[]|[]| |[] ? ?]; done.
Qed.

End FloatSub.

Module FloatSubSign.
Import FloatOrder FloatSub.

Lemma digits2_bounds m :
  2 ^ (Z.pos (digits2_pos m) - 1) ≤ Z.pos m < 2 ^ Z.pos (digits2_pos m).
Proof.
  induction m as [p IH|p IH|]; simpl digits2_pos.
  - rewrite Pos2Z.inj_succ.
    replace (Z.succ (Z.pos (digits2_pos p)) - 1)
      with (Z.succ (Z.pos (digits2_pos p) - 1)) by lia.
    rewrite !Z.pow_succ_r by lia. lia.
  - rewrite Pos2Z.inj_succ.
    replace (Z.succ (Z.pos (digits2_pos p)) - 1)
      with (Z.succ (Z.pos (digits2_pos p) - 1)) by lia.
    rewrite !Z.pow_succ_r by lia. lia.
  - simpl. lia.
Qed.

(** A valid finite float is normal (53 digits) or has the least
    exponent. *)
Lemma valid_finite s m e :
  valid_binary (S754_finite s m e) = true →
  -1074 ≤ e ∧ Z.pos m < 2 ^ 53 ∧ (e = -1074 ∨ 2 ^ 52 ≤ Z.pos m).
Proof.
  unfold valid_binary, bounded, canonical_mantissa, fexp, FloatOps.emin,
    emin, prec, emax.
  intros [Hc _]%andb_prop. apply Z.eqb_eq in Hc.
  pose proof (digits2_bounds m) as [Hlo Hhi].
  assert (Z.pos (digits2_pos m) ≤ 53) as Hd by lia.
  split; [lia|]. split.
  - eapply Z.lt_le_trans; [exact Hhi|].
    apply Z.pow_le_mono_r; lia.
  - destruct (decide (e = -1074)) as [|Hne]; [by left|right].
    assert (Z.pos (digits2_pos m) = 53) as Hd53 by lia.
    by rewrite Hd53 in Hlo.
Qed.

Lemma shl_align_value m e e' :
  e' ≤ e → Z.pos (shl_align m e e').1 = Z.pos m * 2 ^ (e - e').
Proof.
  intros He. unfold shl_align.
  destruct (e' - e) as [|d|d] eqn:Hd; simpl; try lia.
  - replace (e - e') with 0 by lia. lia.
  - change (Pos.iter xO m d) with (shift_pos d m).
    rewrite shift_pos_correct, Z.pow_pos_fold.
    replace (e - e') with (Z.pos d) by lia. lia.
Qed.

(** The mantissas aligned on the lower exponent compare as the floats
    do. *)
Lemma aligned_order sx mx ex sy my ey :
  valid_binary (S754_finite sx mx ex) = true →
  valid_binary (S754_finite sy my ey) = true →
  let ez := Z.min ex ey in
  cond_Zopp sy (Z.pos (shl_align my ey ez).1)
    < cond_Zopp sx (Z.pos (shl_align mx ex ez).1)
  ↔ lt3 (rank (S754_finite sy my ey)) (rank (S754_finite sx mx ex)).
Proof.
  intros (Hex & Hmx & Hnx)%valid_finite (Hey & Hmy & Hny)%valid_finite ez.
  rewrite !shl_align_value by (unfold ez; lia).
  change (2 ^ 53) with 9007199254740992 in *.
  change (2 ^ 52) with 4503599627370496 in *.
  unfold lt3.
  destruct (Z.lt_trichotomy ex ey) as [Hlt|[Heq|Hgt]].
  - replace ez with ex by (unfold ez; lia).
    rewrite Z.sub_diag, Z.mul_1_r.
    assert (2 ^ 1 ≤ 2 ^ (ey - ex)) as Hp
        by (apply Z.pow_le_mono_r; lia).
    change (2 ^ 1) with 2 in Hp.
    assert (Z.pos mx < Z.pos my * 2 ^ (ey - ex)) by nia.
    destruct sx, sy; simpl; lia.
  - subst ey. replace ez with ex by (unfold ez; lia).
    rewrite Z.sub_diag, !Z.mul_1_r.
    destruct sx, sy; simpl; lia.
  - replace ez with ey by (unfold ez; lia).
    rewrite Z.sub_diag, Z.mul_1_r.
    assert (2 ^ 1 ≤ 2 ^ (ex - ey)) as Hp
        by (apply Z.pow_le_mono_r; lia).
    change (2 ^ 1) with 2 in Hp.
    assert (Z.pos my < Z.pos mx * 2 ^ (ex - ey)) by nia.
    destruct sx, sy; simpl; lia.
Qed.

(** When the difference is not a zero (and not NaN), its sign tells which
    operand is the greater. *)
Lemma SFsub_sign a b :
  valid_binary a = true → valid_binary b = true →
  SFltb (S754_zero false) (SFabs (SF64sub a b)) = true →
  SFltb (S754_zero false) (SF64sub a b) = SFltb b a.
Proof.
  intros Ha Hb.
  destruct a as [sa|sa| |sa ma ea], b as [sb|sb| |sb mb eb].
  all: try (intros H; simpl in H |- *;
            repeat match goal with s : bool |- _ => destruct s end;
            done).
  unfold SF64sub, SFsub.
  set (z := _ - _).
  pose proof (aligned_order sa ma ea sb mb eb Ha Hb) as Hord.
  simpl in Hord. fold z in Hord.
  intros Hnz.
  assert (SFltb (S754_finite sb mb eb) (S754_finite sa ma ea) = (0 <? z))
    as ->.
  { apply eq_true_iff_eq. rewrite SFltb_rank by done.
    rewrite <- Hord, Z.ltb_lt. subst z. lia. }
  destruct (binary_normalize_sign z (Z.min ea eb))
    as [H|[[s H]|[H|(m' & e' & H)]]]; simpl in H; rewrite H in Hnz |- *;
    try done.
  all: by destruct z.
Qed.

Lemma SFsub_sign_neg a b :
  valid_binary a = true → valid_binary b = true →
  SFltb (S754_zero false) (SFabs (SF64sub a b)) = true →
  SFltb (SF64sub a b) (S754_zero false) = SFltb a b.
Proof.
  intros Ha Hb.
  destruct a as [sa|sa| |sa ma ea], b as [sb|sb| |sb mb eb].
  all: try (intros H; simpl in H |- *;
            repeat match goal with s : bool |- _ => destruct s end;
            done).
  unfold SF64sub, SFsub.
  set (z := _ - _).
  pose proof (aligned_order sb mb eb sa ma ea Hb Ha) as Hord.
  simpl in Hord. rewrite (Z.min_comm eb ea) in Hord.
  intros Hnz.
  assert (SFltb (S754_finite sa ma ea) (S754_finite sb mb eb) = (z <? 0))
    as ->.
  { apply eq_true_iff_eq. rewrite SFltb_rank by done.
    rewrite <- Hord, Z.ltb_lt. subst z. lia. }
  destruct (binary_normalize_sign z (Z.min ea eb))
    as [H|[[s H]|[H|(m' & e' & H)]]]; simpl in H; rewrite H in Hnz |- *;
    try done.
  all: by destruct z.
Qed.

Lemma SFabs_pos_cases d :
  SFltb (S754_zero false) (SFabs d) = true →
  SFltb (S754_zero false) d = true ∨ SFltb d (S754_zero false) = true.
Proof. destruct d as [[]|[]| |[] ? ?]; simpl; auto. Qed.

End FloatSubSign.

Module FloatFacts.
Import FloatOrder FloatSub FloatSubSign.

(** A difference beyond a positive threshold is positive exactly when the
    first operand is the greater. *)
Lemma sub_gt_zero x y c :
  fgt c 0 = true → fgt (abs (x - y)) c = true →
  fgt (x - y) 0 = fgt x y.
Proof.
  unfold fgt. intros Hc Hd.
  assert ((0 <? abs (x - y))%float = true) as Hnz
      by (eapply ltb_trans; eauto).
  rewrite !ltb_spec in *. rewrite abs_spec, sub_spec in Hnz.
  rewrite sub_spec.
  replace (Prim2SF 0) with (S754_zero false) in * by done.
  apply SFsub_sign; auto using Prim2SF_valid.
Qed.

(** ... and it is not positive exactly when the second operand is the
    greater. *)
Lemma sub_not_gt_zero x y c :
  fgt c 0 = true → fgt (abs (x - y)) c = true →
  fgt (x - y) 0 = negb (fgt y x).
Proof.
  unfold fgt. intros Hc Hd.
  assert ((0 <? abs (x - y))%float = true) as Hnz
      by (eapply ltb_trans; eauto).
  rewrite !ltb_spec in *. rewrite abs_spec, sub_spec in Hnz.
  rewrite sub_spec.
  replace (Prim2SF 0) with (S754_zero false) in * by done.
  pose proof (SFsub_sign _ _ (Prim2SF_valid x) (Prim2SF_valid y) Hnz) as Hp.
  pose proof (SFsub_sign_neg _ _ (Prim2SF_valid x) (Prim2SF_valid y) Hnz)
    as Hn.
  rewrite <- Hn.
  destruct (SFabs_pos_cases _ Hnz) as [H|H]; rewrite H.
  - destruct (SF64sub (Prim2SF x) (Prim2SF y)) as [[]|[]| |[] ? ?]; done.
  - destruct (SF64sub (Prim2SF x) (Prim2SF y)) as [[]|[]| |[] ? ?]; done.
Qed.

End FloatFacts.

(** ** The stable sort *)

Section SortFacts.
Context {A : Type} (key : A → float).

Local Abbreviation ascending := (ascending key).
Local Abbreviation descending := (descending key).
Local Abbreviation tied := (tied key).
Local Abbreviation numeric := (numeric key).

Lemma tied_not_below k x y :
  tied k x → tied k y → (key y <? key x)%float = false.
Proof.
  unfold tied.
  rewrite !FloatAxioms.eqb_spec, ltb_spec. unfold SFeqb, SFltb.
  destruct (Prim2SF (key x)) as [[]|[]| |[] mx ex],
    (Prim2SF (key y)) as [[]|[]| |[] my ey],
    (Prim2SF k) as [[]|[]| |[] mk ek]; simpl; try done.
  all: fold (Pos.compare mx mk); fold (Pos.compare my mk);
    fold (Pos.compare my mx);
    destruct (Z.compare_spec ex ek), (Z.compare_spec ey ek); try done;
    destruct (Pos.compare_spec mx mk), (Pos.compare_spec my mk); try done;
    subst; by rewrite Z.compare_refl, Pos.compare_refl.
Qed.

Lemma insert_sorted_perm x l : insert_sorted key x l ≡ₚ x :: l.
Proof.
  induction l as [|y l IH]; simpl; [done|].
  destruct (key y <? key x)%float; [|done].
  rewrite IH. apply perm_swap.
Qed.

Lemma sort_stable_perm l : sort_stable key l ≡ₚ l.
Proof.
  induction l as [|x l IH]; simpl; [done|].
  by rewrite insert_sorted_perm, IH.
Qed.

Lemma insert_sorted_sorted x l :
  numeric x → Forall numeric l →
  StronglySorted ascending l →
  StronglySorted ascending (insert_sorted key x l).
Proof.
  intros Hx Hl Hs. induction Hs as [|y l Hs IH Hy]; simpl.
  { repeat constructor. }
  apply Forall_cons in Hl as [Hny Hl].
  destruct (key y <? key x)%float eqn:Hlt.
  - constructor; [by apply IH|].
    rewrite insert_sorted_perm. constructor; [|done].
    by apply FloatOrder.ltb_asym.
  - constructor; [by constructor|].
    constructor; [done|].
    eapply Forall_impl; [exact Hy|]. intros z Hz.
    unfold ascending in *.
    by apply (FloatOrder.not_ltb_trans _ (key y)).
Qed.

Lemma sort_stable_sorted l :
  Forall numeric l → StronglySorted ascending (sort_stable key l).
Proof.
  induction l as [|x l IH]; simpl; intros Hl; [constructor|].
  apply Forall_cons in Hl as [Hx Hl].
  apply insert_sorted_sorted; [done| |by apply IH].
  by rewrite sort_stable_perm.
Qed.

Lemma insert_sorted_tied k x l :
  filter (tied k) (insert_sorted key x l) = filter (tied k) (x :: l).
Proof.
  induction l as [|y l IH]; simpl; [done|].
  destruct (key y <? key x)%float eqn:Hlt; [|done].
  rewrite (filter_cons _ y), IH, !(filter_cons _ x), (filter_cons _ y).
  destruct (decide (tied k y)) as [Hy|]; [|done].
  destruct (decide (tied k x)) as [Hx|]; [|done].
  by rewrite (tied_not_below k x y) in Hlt.
Qed.

(** Stability: elements with equal keys keep their order. *)
Lemma sort_stable_tied k l :
  filter (tied k) (sort_stable key l) = filter (tied k) l.
Proof.
  induction l as [|x l IH]; simpl; [done|].
  by rewrite insert_sorted_tied, !(filter_cons _ x), IH.
Qed.

Lemma filter_rev (P : A → Prop) `{!∀ x, Decision (P x)} l :
  filter P (rev l) = rev (filter P l).
Proof.
  induction l as [|x l IH]; simpl; [done|].
  rewrite filter_app, IH, (filter_cons _ x), (filter_cons _ x).
  destruct (decide (P x)); simpl; [done|].
  by rewrite filter_nil, app_nil_r.
Qed.

Lemma StronglySorted_rev (R : A → A → Prop) l :
  StronglySorted R l → StronglySorted (flip R) (rev l).
Proof.
  induction 1 as [|x l Hs IH Hx]; simpl; [constructor|].
  apply StronglySorted_app_2; [|done|repeat constructor].
  intros y z Hy%list_elem_of_In Hz%list_elem_of_In.
  destruct Hz as [<-|[]].
  apply in_rev in Hy. rewrite List.Forall_forall in Hx. by apply Hx.
Qed.

Lemma rev_perm (l : list A) : rev l ≡ₚ l.
Proof. symmetry. apply Permutation_rev. Qed.

Theorem sorted_perm reverse l : sorted_ key reverse l ≡ₚ l.
Proof.
  destruct reverse; simpl; [|apply sort_stable_perm].
  by rewrite rev_perm, sort_stable_perm, rev_perm.
Qed.

Theorem sorted_ascending l :
  Forall numeric l → StronglySorted ascending (sorted_ key false l).
Proof. apply sort_stable_sorted. Qed.

Theorem sorted_descending l :
  Forall numeric l → StronglySorted descending (sorted_ key true l).
Proof.
  intros Hl. simpl. apply (StronglySorted_rev ascending).
  apply sort_stable_sorted. by rewrite rev_perm.
Qed.

Theorem sorted_tied reverse k l :
  filter (tied k) (sorted_ key reverse l) = filter (tied k) l.
Proof.
  destruct reverse; simpl; [|apply sort_stable_tied].
  by rewrite filter_rev, sort_stable_tied, filter_rev, rev_involutive.
Qed.

End SortFacts.

(** ** Selecting the first of a sorted list *)

Section Select.
Context {A : Type} (key : A → float).

Lemma slice_to_nonneg n (l : list A) :
  0 ≤ n → slice_to n l = take (Z.to_nat n) l.
Proof. intros Hn. unfold slice_to. by rewrite (proj2 (Z.leb_le 0 n) Hn). Qed.

Lemma slice_to_neg n (l : list A) :
  n < 0 → slice_to n l = take (length l - Z.to_nat (- n)) l.
Proof.
  intros Hn. unfold slice_to.
  rewrite (proj2 (Z.leb_gt 0 n) Hn). f_equal. lia.
Qed.

Lemma selects_slice (before : A → A → Prop) n pool sorted :
  0 ≤ n →
  sorted ≡ₚ pool →
  StronglySorted before sorted →
  (∀ k, filter (tied key k) sorted = filter (tied key k) pool) →
  selects key before n pool (slice_to n sorted).
Proof.
  intros Hn Hperm Hsorted Htied.
  rewrite slice_to_nonneg by done.
  pose proof (take_drop (Z.to_nat n) sorted) as Hsplit.
  repeat split.
  - rewrite length_take, <- (Permutation_length Hperm). lia.
  - exists (drop (Z.to_nat n) sorted). split; [by rewrite Hsplit|].
    intros p q Hp Hq. rewrite <- Hsplit in Hsorted.
    by eapply StronglySorted_app_1_elem_of.
  - rewrite <- Hsplit in Hsorted. by eapply StronglySorted_app_1_l.
  - intros k. rewrite <- Htied.
    exists (filter (tied key k) (drop (Z.to_nat n) sorted)).
    by rewrite <- filter_app, Hsplit.
  - intros Hall. rewrite take_ge; [done|].
    rewrite (Permutation_length Hperm). lia.
Qed.

Lemma slice_to_subseteq n (l : list A) : slice_to n l ⊆ l.
Proof. unfold slice_to. destruct (0 <=? n); apply subseteq_take. Qed.

End Select.

(** ** Queries *)

Lemma non_center_no_zero g :
  Forall (λ p, GridPosition.index p ≠ 0) (MandalaGrid.non_center g).
Proof.
  apply List.Forall_forall. intros p Hp%list_elem_of_In.
  by apply list_elem_of_filter in Hp as [Hp _].
Qed.




Example top_n_negative :
  map GridPosition.index (MandalaGrid.top_n MandalaGrid.default (-1))
  = [7; 1; 6; 2; 5; 3; 4].
Proof. vm_compute. reflexivity. Qed.

(** C6: the canonical grid has exactly nine positions, of indices 0 to 8
    without repetition; the position of index 0 has bias 1.0; [top_n 1] is
    the position of index 7, of bias 0.95; [top_n 3] has the labels
    Deconstructor, Logic Gate, Boundary Sentinel in that order, the tie at
    0.9 between the indices 1 and 6 going to index 1, defined first. *)
Theorem default_grid :
  let g := MandalaGrid.default in
  length (MandalaGrid.positions g) = 9%nat
  ∧ map GridPosition.index (MandalaGrid.positions g)
    = [0; 1; 2; 3; 4; 5; 6; 7; 8]
  ∧ unique_indices g
  ∧ (∃ p, MandalaGrid.get g 0 = Ok p
          ∧ GridPosition.bias p = 1.0%float)
  ∧ map (λ p, (GridPosition.index p, GridPosition.bias p))
      (MandalaGrid.top_n g 1) = [(7, 0.95%float)]
  ∧ map GridPosition.label (MandalaGrid.top_n g 3)
    = [u "Deconstructor"; u "Logic Gate"; u "Boundary Sentinel"]
  ∧ map (λ p, (GridPosition.index p, GridPosition.bias p))
      (MandalaGrid.top_n g 3)
    = [(7, 0.95%float); (1, 0.9%float); (6, 0.9%float)].
Proof.
  intros g. split_and!.
  - reflexivity.
  - reflexivity.
  - apply (bool_decide_unpack _). vm_compute. exact I.
  - eexists. split; reflexivity.
  - vm_compute. reflexivity.
  - vm_compute. reflexivity.
  - vm_compute. reflexivity.
Qed.

(** ** Exceptions in a comprehension *)

Section MapM.
Context {A B : Type} (f : A → result B).

Lemma rmapM_app l1 l2 :
  rmapM f (l1 ++ l2)
  = (bs1 ← rmapM f l1; bs2 ← rmapM f l2; Ok (bs1 ++ bs2)).
Proof.
  induction l1 as [|a l1 IH]; simpl.
  - by destruct (rmapM f l2).
  - destruct (f a); simpl; [|done]. rewrite IH.
    destruct (rmapM f l1); simpl; [|done]. by destruct (rmapM f l2).
Qed.

Lemma rmapM_Ok l g :
  (∀ a, a ∈ l → f a = Ok (g a)) → rmapM f l = Ok (map g l).
Proof.
  induction l as [|a l IH]; simpl; intros H; [done|].
  rewrite H by left. simpl. rewrite IH; [done|].
  intros b Hb. apply H. by right.
Qed.

Lemma rmapM_Ok_inv l bs :
  rmapM f l = Ok bs → Forall2 (λ a b, f a = Ok b) l bs.
Proof.
  revert bs. induction l as [|a l IH]; simpl; intros bs H.
  - injection H as <-. constructor.
  - destruct (f a) eqn:Ha; simpl in H; [|done].
    destruct (rmapM f l) eqn:Hl; simpl in H; [|done].
    injection H as <-. constructor; auto.
Qed.

Lemma rmapM_Raise l e :
  rmapM f l = Raise e → ∃ a, a ∈ l ∧ f a = Raise e.
Proof.
  induction l as [|a l IH]; simpl; [done|].
  destruct (f a) eqn:Ha; simpl.
  - destruct (rmapM f l); simpl; [done|].
    intros [= <-]. destruct IH as (a' & ? & ?); [done|].
    exists a'. split; [by right|done].
  - intros [= <-]. exists a. split; [by left|done].
Qed.

Lemma rmapM_Raise_intro l a e :
  a ∈ l → f a = Raise e → ∃ e', rmapM f l = Raise e'.
Proof.
  intros Ha Hf. destruct (rmapM f l) as [bs|e'] eqn:H; [|by eexists].
  apply rmapM_Ok_inv in H.
  apply list_elem_of_lookup in Ha as [i Hi].
  destruct (Forall2_lookup_l _ _ _ _ _ H Hi) as (b & _ & Hb).
  congruence.
Qed.

End MapM.

(** ** Looking a position up *)

Section Get.
Implicit Types (g : MandalaGrid.t) (p : GridPosition.t).

Lemma get_Ok g i p :
  MandalaGrid.get g i = Ok p →
  p ∈ MandalaGrid.positions g ∧ GridPosition.index p = i.
Proof.
  unfold MandalaGrid.get.
  destruct (find _ _) as [q|] eqn:Hfind; [|done].
  intros [= ->]. apply find_some in Hfind as [Hin Hi].
  split; [by apply list_elem_of_In|].
  by apply bool_decide_eq_true in Hi.
Qed.

Lemma get_Raise g i e :
  MandalaGrid.get g i = Raise e ↔ e = KeyError ∧ ¬ has_index g i.
Proof.
  unfold MandalaGrid.get, has_index.
  destruct (find _ _) as [q|] eqn:Hfind.
  - split; [done|]. intros [_ []].
    apply find_some in Hfind as [Hin Hi].
    exists q. split; [by apply list_elem_of_In|].
    by apply bool_decide_eq_true in Hi.
  - split; [|by intros [-> _]]. intros [= <-]. split; [done|].
    intros (p & Hin%list_elem_of_In & Hi).
    pose proof (find_none _ _ Hfind p Hin) as Hp.
    by apply bool_decide_eq_false in Hp.
Qed.

Lemma get_total g i : has_index g i → ∃ p, MandalaGrid.get g i = Ok p.
Proof.
  intros H. destruct (MandalaGrid.get g i) as [p|e] eqn:Hg; [by eexists|].
  by apply get_Raise in Hg as [_ []].
Qed.

(** [get] returns the first position of the index. *)
Lemma get_first g i l1 p l2 :
  MandalaGrid.positions g = l1 ++ p :: l2 →
  GridPosition.index p = i →
  Forall (λ q, GridPosition.index q ≠ i) l1 →
  MandalaGrid.get g i = Ok p.
Proof.
  unfold MandalaGrid.get. intros -> <-.
  induction 1 as [|q l1 Hq _ IH]; simpl.
  - by rewrite bool_decide_eq_true_2.
  - by rewrite bool_decide_eq_false_2.
Qed.

Lemma NoDup_app_cons_index (l1 l2 : list GridPosition.t) p :
  NoDup (map GridPosition.index (l1 ++ p :: l2)) →
  Forall (λ q, GridPosition.index q ≠ GridPosition.index p) l1.
Proof.
  rewrite map_app. simpl. intros H.
  apply NoDup_app in H as (_ & Hdisj & _).
  apply List.Forall_forall. intros q Hq%list_elem_of_In Heq.
  apply (Hdisj (GridPosition.index q)).
  - apply list_elem_of_fmap. by exists q.
  - rewrite Heq. left.
Qed.

(** Under the invariant, [get] returns the position of the index. *)
Lemma get_unique g p :
  unique_indices g → p ∈ MandalaGrid.positions g →
  MandalaGrid.get g (GridPosition.index p) = Ok p.
Proof.
  unfold unique_indices. intros Hnd Hp.
  apply list_elem_of_split in Hp as (l1 & l2 & Hl).
  apply (get_first g _ l1 p l2); [done..|].
  rewrite Hl in Hnd. by apply NoDup_app_cons_index in Hnd.
Qed.

End Get.

(** ** Text *)

Section TextFacts.
Implicit Types (s t a b sep : str) (parts : list str).

Lemma contains_refl s : contains s s.
Proof. exists [], []. by rewrite app_nil_r. Qed.

Lemma contains_app_l s a b : contains s a → contains s (a ++ b).
Proof.
  intros (x & y & ->). exists x, (y ++ b). by rewrite <- !app_assoc.
Qed.

Lemma contains_app_r s a b : contains s b → contains s (a ++ b).
Proof.
  intros (x & y & ->). exists (a ++ x), y. by rewrite <- !app_assoc.
Qed.

Lemma contains_trans s t a : contains s t → contains t a → contains s a.
Proof.
  intros (x & y & ->) (x' & y' & ->).
  exists (x' ++ x), (y ++ y'). by rewrite <- !app_assoc.
Qed.

Lemma contains_join sep parts s t :
  t ∈ parts → contains s t → contains s (join sep parts).
Proof.
  intros Hin Hs. induction parts as [|p parts IH]; [by inversion Hin|].
  destruct parts as [|q parts].
  - apply list_elem_of_singleton in Hin as ->. exact Hs.
  - change (join sep (p :: q :: parts))
      with (p ++ sep ++ join sep (q :: parts)).
    apply elem_of_cons in Hin as [->|Hin].
    + by apply contains_app_l.
    + apply contains_app_r, contains_app_r. by apply IH.
Qed.

Lemma length_center w s :
  (length s ≤ w)%nat → length (Fmt.center w s) = w.
Proof.
  intros Hs. unfold Fmt.center, repeat_char.
  rewrite !length_app, !length_replicate.
  assert ((w - length s) / 2 ≤ w - length s)%nat
    by (apply Nat.Div0.div_le_upper_bound; lia).
  lia.
Qed.

Lemma center_contains w s : contains s (Fmt.center w s).
Proof.
  unfold Fmt.center. apply contains_app_r, contains_app_l, contains_refl.
Qed.

Lemma split_lines_aux_plain cur s :
  newline ∉ s → split_lines_aux cur s = [rev cur ++ s].
Proof.
  revert cur. induction s as [|c s IH]; simpl; intros cur Hs.
  - by rewrite app_nil_r.
  - destruct (N.eqb_spec c newline) as [->|Hc]; [set_solver|].
    rewrite IH by set_solver. simpl. by rewrite <- app_assoc.
Qed.

Lemma split_lines_aux_app cur s t :
  newline ∉ s →
  split_lines_aux cur (s ++ newline :: t)
  = (rev cur ++ s) :: split_lines_aux [] t.
Proof.
  revert cur. induction s as [|c s IH]; simpl; intros cur Hs.
  - by rewrite app_nil_r.
  - destruct (N.eqb_spec c newline) as [->|Hc]; [set_solver|].
    rewrite IH by set_solver. simpl. by rewrite <- app_assoc.
Qed.

(** Lines without a line break, joined and split again, are the same
    lines. *)
Lemma split_lines_join parts :
  parts ≠ [] → Forall (λ s, newline ∉ s) parts →
  split_lines (join [newline] parts) = parts.
Proof.
  unfold split_lines. intros Hne Hall.
  induction Hall as [|p parts Hp Hall IH]; [done|].
  destruct parts as [|q parts].
  - simpl. by rewrite split_lines_aux_plain.
  - change (join [newline] (p :: q :: parts))
      with (p ++ newline :: join [newline] (q :: parts)).
    rewrite split_lines_aux_app by done. simpl rev. simpl app at 1.
    f_equal. by apply IH.
Qed.

End TextFacts.

Create HintDb text discriminated.
#[export] Hint Resolve contains_refl contains_app_l contains_app_r
  center_contains : text.

(** ** Comparison *)

Section CompareFacts.
Context {py : PyText}.
Implicit Types (a b g : MandalaGrid.t) (p pa pb : GridPosition.t).

Lemma threshold_positive : fgt 0.01 0 = true.
Proof. reflexivity. Qed.

(** The line of one position, by the biases alone. *)
Lemma diff_line_found b pa pb :
  MandalaGrid.get b (GridPosition.index pa) = Ok pb →
  diff_line b pa =
    if fgt (abs (GridPosition.bias pa - GridPosition.bias pb)) 0.01
    then Ok [diff_text pa pb
               (if fgt (GridPosition.bias pa) (GridPosition.bias pb)
                then arrow_up else arrow_down)]
    else Ok [].
Proof.
  intros Hget. unfold diff_line. rewrite Hget. simpl.
  destruct (fgt (abs _) 0.01) eqn:Hd; [|done].
  by rewrite (FloatFacts.sub_gt_zero _ _ _ threshold_positive Hd).
Qed.

Lemma diff_line_same g p :
  MandalaGrid.get g (GridPosition.index p) = Ok p → diff_line g p = Ok [].
Proof.
  intros Hget. rewrite (diff_line_found _ _ _ Hget).
  by rewrite (FloatSub.sub_diag_small _ _ threshold_positive).
Qed.

Lemma diff_line_Raise b pa e :
  diff_line b pa = Raise e ↔
  e = KeyError ∧ ¬ has_index b (GridPosition.index pa).
Proof.
  unfold diff_line. rewrite <- get_Raise.
  destruct (MandalaGrid.get b _) as [pb|e']; simpl.
  - destruct (fgt _ _); split; intros; discriminate.
  - split; intros [= ->]; reflexivity.
Qed.

Lemma diff_lines_Raise a b e :
  diff_lines a b = Raise e ↔
  e = KeyError
  ∧ ∃ pa, pa ∈ MandalaGrid.positions a
          ∧ ¬ has_index b (GridPosition.index pa).
Proof.
  unfold diff_lines. split.
  - destruct (rmapM _ _) as [ls|e'] eqn:H; simpl; [done|].
    intros [= ->]. apply rmapM_Raise in H as (pa & Hin & Hr).
    apply diff_line_Raise in Hr as [-> Hno]. eauto.
  - intros (-> & pa & Hin & Hno).
    assert (diff_line b pa = Raise KeyError) as Hr
        by by apply diff_line_Raise.
    destruct (rmapM_Raise_intro _ _ _ _ Hin Hr) as [e' He'].
    rewrite He'. simpl.
    apply rmapM_Raise in He' as (q & _ & Hq).
    by apply diff_line_Raise in Hq as [-> _].
Qed.

Lemma compare_grids_Raise a b e :
  compare_grids a b = Raise e ↔ diff_lines a b = Raise e.
Proof.
  unfold compare_grids.
  destruct (diff_lines a b); simpl; split; intros [= ->]; reflexivity.
Qed.

(** C5: [get i] returns a position of the grid whose index is [i], and
    raises the lookup error exactly when no position has index [i] (so
    [get 99] on the canonical grid raises it); [compare_grids a b]
    raises it exactly when some index of [a] is absent from [b]. *)
Theorem get_and_compare_not_found :
  (∀ g i p, MandalaGrid.get g i = Ok p →
            p ∈ MandalaGrid.positions g ∧ GridPosition.index p = i)
  ∧ (∀ g i, has_index g i → ∃ p, MandalaGrid.get g i = Ok p)
  ∧ (∀ g i, MandalaGrid.get g i = Raise KeyError ↔ ¬ has_index g i)
  ∧ (∀ g i e, MandalaGrid.get g i = Raise e → e = KeyError)
  ∧ MandalaGrid.get MandalaGrid.default 99 = Raise KeyError
  ∧ (∀ a b, compare_grids a b = Raise KeyError ↔
            ∃ pa, pa ∈ MandalaGrid.positions a
                  ∧ ¬ has_index b (GridPosition.index pa))
  ∧ (∀ a b e, compare_grids a b = Raise e → e = KeyError).
Proof.
  split_and!.
  - apply get_Ok.
  - apply get_total.
  - intros g i. rewrite get_Raise. naive_solver.
  - intros g i e H. by apply get_Raise in H as [-> _].
  - reflexivity.
  - intros a b. rewrite compare_grids_Raise, diff_lines_Raise.
    naive_solver.
  - intros a b e H%compare_grids_Raise.
    by apply diff_lines_Raise in H as [-> _].
Qed.

Lemma diff_lines_self g : unique_indices g → diff_lines g g = Ok [].
Proof.
  intros Hu. unfold diff_lines.
  rewrite (rmapM_Ok _ _ (λ _, [])).
  - simpl. f_equal. induction (MandalaGrid.positions g); simpl; auto.
  - intros p Hp. apply diff_line_same. by apply get_unique.
Qed.

Lemma concat_map_nil {X Y} (l : list X) :
  concat (map (λ _, @nil Y) l) = [].
Proof. induction l; simpl; auto. Qed.

Lemma diff_lines_one a b l1 pa l2 x :
  unique_indices a →
  MandalaGrid.positions a = l1 ++ pa :: l2 →
  MandalaGrid.positions b = l1 ++ with_bias pa x :: l2 →
  diff_lines a b =
    if fgt (abs (GridPosition.bias pa - x)) 0.01
    then Ok [diff_text pa (with_bias pa x)
               (if fgt (GridPosition.bias pa) x
                then arrow_up else arrow_down)]
    else Ok [].
Proof.
  intros Hu Ha Hb.
  assert (unique_indices b) as Hub.
  { unfold unique_indices in *. rewrite Hb. rewrite Ha in Hu.
    by rewrite map_app in *. }
  assert (∀ q, q ∈ l1 ++ l2 → diff_line b q = Ok []) as Hrest.
  { intros q Hq. apply diff_line_same, get_unique; [done|].
    rewrite Hb. set_solver. }
  assert (MandalaGrid.get b (GridPosition.index pa) = Ok (with_bias pa x))
    as Hget.
  { apply (get_unique b (with_bias pa x)); [done|].
    rewrite Hb. set_solver. }
  unfold diff_lines. rewrite Ha, rmapM_app.
  rewrite (rmapM_Ok _ l1 (λ _, [])) by (intros; apply Hrest; set_solver).
  simpl. rewrite (diff_line_found _ _ _ Hget). simpl.
  destruct (fgt _ 0.01); simpl;
    rewrite (rmapM_Ok _ l2 (λ _, [])) by (intros; apply Hrest; set_solver);
    simpl; rewrite concat_app; simpl; by rewrite !concat_map_nil.
Qed.

Lemma diff_text_marker pa pb arrow : contains arrow (diff_text pa pb arrow).
Proof. unfold diff_text. auto 20 with text. Qed.

Lemma diff_line_reported b pa :
  has_index b (GridPosition.index pa) → diff_line b pa = Ok (reported b pa).
Proof.
  intros [pb Hget]%get_total. rewrite (diff_line_found _ _ _ Hget).
  unfold reported. rewrite Hget. by destruct (fgt (abs _) 0.01).
Qed.

Lemma reported_found b pa pb :
  MandalaGrid.get b (GridPosition.index pa) = Ok pb →
  reported b pa
  = if fgt (abs (GridPosition.bias pa - GridPosition.bias pb)) 0.01
    then [diff_text pa pb
            (if fgt (GridPosition.bias pa) (GridPosition.bias pb)
             then arrow_up else arrow_down)]
    else [].
Proof. intros Hget. unfold reported. by rewrite Hget. Qed.

(** The lines of the loop, when it ends: those of each position of [a],
    in the order of [a]. *)
Lemma diff_lines_reported a b :
  (∀ pa, pa ∈ MandalaGrid.positions a →
         has_index b (GridPosition.index pa)) →
  diff_lines a b = Ok (concat (map (reported b) (MandalaGrid.positions a))).
Proof.
  intros Hall. unfold diff_lines.
  rewrite (rmapM_Ok _ _ (reported b)); [done|].
  intros pa Hpa. by apply diff_line_reported, Hall.
Qed.

(** The text of [compare_grids], from the lines of the loop. *)
Lemma compare_grids_lines a b diffs :
  diff_lines a b = Ok diffs →
  compare_grids a b
  = Ok (join [newline]
          ([u "Comparing [" ++ MandalaGrid.name a ++ u "] vs ["
              ++ MandalaGrid.name b ++ u "]";
            repeat_char 61 50]
           ++ diffs
           ++ [u "";
               u "  " ++ MandalaGrid.name a ++ u ": "
                 ++ MandalaGrid.personality_signature a;
               u "  " ++ MandalaGrid.name b ++ u ": "
                 ++ MandalaGrid.personality_signature b])).
Proof.
  intros Hd. unfold compare_grids. rewrite Hd.
  cbn [mbind result_bind]. do 2 f_equal. by rewrite <- !app_assoc.
Qed.

Lemma compare_grids_reported a b :
  (∀ pa, pa ∈ MandalaGrid.positions a →
         has_index b (GridPosition.index pa)) →
  compare_grids a b
  = Ok (join [newline]
          ([u "Comparing [" ++ MandalaGrid.name a ++ u "] vs ["
              ++ MandalaGrid.name b ++ u "]";
            repeat_char 61 50]
           ++ concat (map (reported b) (MandalaGrid.positions a))
           ++ [u "";
               u "  " ++ MandalaGrid.name a ++ u ": "
                 ++ MandalaGrid.personality_signature a;
               u "  " ++ MandalaGrid.name b ++ u ": "
                 ++ MandalaGrid.personality_signature b])).
Proof.
  intros Hall. by apply compare_grids_lines, diff_lines_reported.
Qed.

(** C3, amended.  When every index of [a] occurs in [b],
    [compare_grids a b] returns two lines of heading, then the lines of
    the positions of [a] in their order, then three closing lines.  A
    position of [a] has a line exactly when the absolute difference
    between its bias and the bias of the position that [get] finds in [b]
    for its index exceeds 0.01; the line shows the index, the label, the
    two biases and the absolute difference to two decimals, and the marker
    [↑] when the bias in [a] is the greater, [↓] when the bias in [b] is.
    A grid with unique indices compared with itself has no such line, and
    two grids with unique indices that are equal but for the bias of one
    position, changed by more than 0.01, have exactly one, with the marker
    of the direction: the text is then the heading, that line if any, and
    the closing lines. *)
Theorem compare_diff_lines a b :
  (∀ pa pb,
     MandalaGrid.get b (GridPosition.index pa) = Ok pb →
     diff_line b pa =
       (if fgt (abs (GridPosition.bias pa - GridPosition.bias pb)) 0.01
        then Ok [diff_text pa pb
                   (if fgt (GridPosition.bias pa) (GridPosition.bias pb)
                    then arrow_up else arrow_down)]
        else Ok [])
     ∧ reported b pa =
         (if fgt (abs (GridPosition.bias pa - GridPosition.bias pb)) 0.01
          then [diff_text pa pb
                  (if fgt (GridPosition.bias pa) (GridPosition.bias pb)
                   then arrow_up else arrow_down)]
          else []))
  ∧ (∀ x y : float,
       fgt (abs (x - y)) 0.01 = true → fgt x y = negb (fgt y x))
  ∧ arrow_up = [8593%N] ∧ arrow_down = [8595%N]
  ∧ (∀ pa pb arrow,
       diff_text pa pb arrow
       = u "  Position " ++ str_of_int (GridPosition.index pa) ++ u " ("
         ++ GridPosition.label pa ++ u "): "
         ++ Fmt.format_2f (GridPosition.bias pa) ++ u " → "
         ++ Fmt.format_2f (GridPosition.bias pb) ++ u " ["
         ++ arrow
         ++ Fmt.format_2f
              (abs (GridPosition.bias pa - GridPosition.bias pb))
         ++ u "]")
  ∧ ((∀ pa, pa ∈ MandalaGrid.positions a →
            has_index b (GridPosition.index pa)) →
     diff_lines a b
     = Ok (concat (map (reported b) (MandalaGrid.positions a)))
     ∧ compare_grids a b
       = Ok (join [newline]
               ([u "Comparing [" ++ MandalaGrid.name a ++ u "] vs ["
                   ++ MandalaGrid.name b ++ u "]";
                 repeat_char 61 50]
                ++ concat (map (reported b) (MandalaGrid.positions a))
                ++ [u "";
                    u "  " ++ MandalaGrid.name a ++ u ": "
                      ++ MandalaGrid.personality_signature a;
                    u "  " ++ MandalaGrid.name b ++ u ": "
                      ++ MandalaGrid.personality_signature b])))
  ∧ (unique_indices a →
     diff_lines a a = Ok []
     ∧ compare_grids a a
       = Ok (join [newline]
               [u "Comparing [" ++ MandalaGrid.name a ++ u "] vs ["
                  ++ MandalaGrid.name a ++ u "]";
                repeat_char 61 50;
                u "";
                u "  " ++ MandalaGrid.name a ++ u ": "
                  ++ MandalaGrid.personality_signature a;
                u "  " ++ MandalaGrid.name a ++ u ": "
                  ++ MandalaGrid.personality_signature a]))
  ∧ (unique_indices a →
     ∀ l1 pa l2 x,
       MandalaGrid.positions a = l1 ++ pa :: l2 →
       MandalaGrid.positions b = l1 ++ with_bias pa x :: l2 →
       fgt (abs (GridPosition.bias pa - x)) 0.01 = true →
       diff_lines a b =
         Ok [diff_text pa (with_bias pa x)
               (if fgt (GridPosition.bias pa) x
                then arrow_up else arrow_down)]
       ∧ compare_grids a b
         = Ok (join [newline]
                 [u "Comparing [" ++ MandalaGrid.name a ++ u "] vs ["
                    ++ MandalaGrid.name b ++ u "]";
                  repeat_char 61 50;
                  diff_text pa (with_bias pa x)
                    (if fgt (GridPosition.bias pa) x
                     then arrow_up else arrow_down);
                  u "";
                  u "  " ++ MandalaGrid.name a ++ u ": "
                    ++ MandalaGrid.personality_signature a;
                  u "  " ++ MandalaGrid.name b ++ u ": "
                    ++ MandalaGrid.personality_signature b])).
Proof.
  split_and!.
  - intros pa pb Hget. split; [by apply diff_line_found|].
    by apply reported_found.
  - intros x y Hd.
    rewrite <- (FloatFacts.sub_gt_zero x y _ threshold_positive Hd).
    apply (FloatFacts.sub_not_gt_zero x y _ threshold_positive Hd).
  - reflexivity.
  - reflexivity.
  - reflexivity.
  - intros Hall. split; [by apply diff_lines_reported|].
    by apply compare_grids_reported.
  - intros Hu. pose proof (diff_lines_self a Hu) as Hself.
    split; [exact Hself|].
    by rewrite (compare_grids_lines _ _ _ Hself).
  - intros Hu l1 pa l2 x Ha Hb Hd.
    pose proof (diff_lines_one a b l1 pa l2 x Hu Ha Hb) as Hone.
    rewrite Hd in Hone. split; [exact Hone|].
    by rewrite (compare_grids_lines _ _ _ Hone).
Qed.

End CompareFacts.

Lemma compare_diff_lines_witness :
  unique_indices MandalaGrid.default
  ∧ diff_lines MandalaGrid.default MandalaGrid.default = Ok []
  ∧ ∃ p7, MandalaGrid.get MandalaGrid.default 7 = Ok p7
          ∧ diff_lines MandalaGrid.default modified_default
            = Ok [diff_text p7 (with_bias p7 0.5) arrow_up].
Proof.
  assert (unique_indices MandalaGrid.default) as Hu
      by (apply (bool_decide_unpack _); vm_compute; exact I).
  pose proof (compare_diff_lines (py := Sample.text)
                MandalaGrid.default modified_default)
    as (_ & _ & _ & _ & _ & _ & Hself & Hone).
  split; [exact Hu|]. split; [exact (proj1 (Hself Hu))|].
  destruct (MandalaGrid.get MandalaGrid.default 7) as [p7|] eqn:Hget;
    [|discriminate].
  injection Hget as Hp7.
  exists p7. split; [reflexivity|].
  set (ps := MandalaGrid.positions MandalaGrid.default).
  destruct (Hone Hu (take 7 ps) p7 (drop 8 ps) 0.5%float) as [Hline _].
  4: by rewrite Hline, <- Hp7.
  all: by rewrite <- Hp7.
Defined.

(** C3, as stated for every two grids, fails on a grid with an index that
    occurs twice, which [from_json] loads: compared with itself it has a
    line, for the second position of the index, since [get] finds the
    first.  And when an index of the first grid is missing in the second,
    [compare_grids] raises [KeyError] and has no line at all. *)
Lemma compare_self_duplicate :
  MandalaGrid.from_json (Document (MandalaGrid.to_dict twin_grid))
  = Ok (Some twin_grid)
  ∧ diff_lines twin_grid twin_grid
    = Ok [u "  Position 1 (Second Gate): 0.50 → 0.90 [↓0.40]"]
  ∧ compare_grids (py := Sample.text) twin_grid twin_grid
    = Ok (join [newline]
            [u "Comparing [twin] vs [twin]";
             u "==================================================";
             u "  Position 1 (Second Gate): 0.50 → 0.90 [↓0.40]";
             u "";
             u "  twin: [twin] Logic Gate(0.9) > Second Gate(0.5)";
             u "  twin: [twin] Logic Gate(0.9) > Second Gate(0.5)"])
  ∧ compare_grids (py := Sample.text) MandalaGrid.default lone_grid
    = Raise KeyError.
Proof. split_and!; vm_compute; reflexivity. Qed.

(** The canonical grid against [modified_default]: one line, for the index
    7, with the up marker, the difference being that of the first grid to
    the second. *)
Theorem compare_default_modified :
  diff_lines MandalaGrid.default modified_default
  = Ok [u "  Position 7 (Deconstructor): 0.95 → 0.50 [↑0.45]"].
Proof. vm_compute. reflexivity. Qed.

(** ** Serialization *)

Section Serialization.
Implicit Types (g : MandalaGrid.t) (p : GridPosition.t).

Lemma init_to_dict p :
  GridPosition.init (GridPosition.to_dict p) = Ok (Some p).
Proof. by destruct p. Qed.

Lemma rmapM_init_to_dict (ps : list GridPosition.t) :
  rmapM GridPosition.init (map GridPosition.to_dict ps)
  = Ok (map Some ps).
Proof.
  induction ps as [|p ps IH]; [done|].
  cbn [map rmapM]. rewrite init_to_dict, IH. reflexivity.
Qed.

Lemma mapM_id_Some {X} (l : list X) : mapM id (map Some l) = Some l.
Proof. induction l as [|x l IH]; [done|]. simpl. by rewrite IH. Qed.

(** Loading what [to_dict] gives returns the grid. *)
Lemma load_to_dict g :
  MandalaGrid.from_json (Document (MandalaGrid.to_dict g)) = Ok (Some g).
Proof.
  destruct g as [ps v n d].
  unfold MandalaGrid.from_json, MandalaGrid.to_dict, MandalaGrid.from_data.
  cbn [MandalaGrid.positions MandalaGrid.version MandalaGrid.name
       MandalaGrid.description].
  change (dict_get_or (u "mandala_grid") _ _) with
    (VDict [(u "version", VStr v); (u "name", VStr n);
            (u "description", VStr d);
            (u "positions", VList (map GridPosition.to_dict ps))]).
  cbv beta iota.
  change (dict_get (u "positions") _) with
    (Some (VList (map GridPosition.to_dict ps))).
  cbn [iterate mbind result_bind]. rewrite rmapM_init_to_dict.
  cbn [mbind result_bind]. unfold MandalaGrid.typed.
  rewrite mapM_id_Some. reflexivity.
Qed.

End Serialization.

(** C1: for every grid [g], loading the structured serialization of [g]
    succeeds and yields [g] itself: the same version, name and description,
    and the same positions in the same order, equal field for field. *)
Theorem roundtrip (g : MandalaGrid.t) :
  ∃ g',
    MandalaGrid.from_json (Document (MandalaGrid.to_dict g)) = Ok (Some g')
    ∧ MandalaGrid.version g' = MandalaGrid.version g
    ∧ MandalaGrid.name g' = MandalaGrid.name g
    ∧ MandalaGrid.description g' = MandalaGrid.description g
    ∧ MandalaGrid.positions g' = MandalaGrid.positions g
    ∧ g' = g.
Proof. exists g. by rewrite load_to_dict. Qed.

(** ** What [from_json] accepts *)

Section Loading.

Lemma init_Ok item :
  (∃ r, GridPosition.init item = Ok r) ↔ position_object item.
Proof.
  unfold position_object, GridPosition.init. split.
  - intros [r Hr]. destruct item as [| | | | | |kw]; try done.
    destruct (forallb (λ k, bool_decide (k ∈ GridPosition.field_names))
                kw.*1) eqn:Hk; cbn [negb] in Hr; [|done].
    destruct (forallb (λ k, bool_decide (is_Some (dict_get k kw)))
                GridPosition.required) eqn:Hq; cbn [negb] in Hr; [|done].
    exists kw. split; [done|]. split.
    + apply List.Forall_forall. intros k Hin.
      rewrite forallb_forall in Hk.
      apply (bool_decide_eq_true_1 _). by apply Hk.
    + apply List.Forall_forall. intros k Hin.
      rewrite forallb_forall in Hq.
      apply (bool_decide_eq_true_1 _). by apply Hq.
  - intros (kw & -> & Hk & Hq).
    rewrite List.Forall_forall in Hk, Hq.
    assert (forallb (λ k, bool_decide (k ∈ GridPosition.field_names))
              kw.*1 = true) as ->.
    { apply forallb_forall. intros k Hin.
      apply (bool_decide_eq_true_2 _). by apply Hk. }
    assert (forallb (λ k, bool_decide (is_Some (dict_get k kw)))
              GridPosition.required = true) as ->.
    { apply forallb_forall. intros k Hin.
      apply (bool_decide_eq_true_2 _). by apply Hq. }
    by eexists.
Qed.

Lemma init_Raise item e : GridPosition.init item = Raise e → e = TypeError.
Proof.
  unfold GridPosition.init. destruct item as [| | | | | |kw]; try congruence.
  destruct (forallb (λ k, bool_decide (k ∈ GridPosition.field_names))
              kw.*1); cbn [negb]; [|congruence].
  destruct (forallb (λ k, bool_decide (is_Some (dict_get k kw)))
              GridPosition.required); cbn [negb]; congruence.
Qed.

Lemma rmapM_init_Ok items :
  (∃ rs, rmapM GridPosition.init items = Ok rs)
  ↔ Forall position_object items.
Proof.
  induction items as [|item items IH]; simpl.
  - split; [constructor|by eexists].
  - rewrite Forall_cons, <- IH, <- init_Ok.
    destruct (GridPosition.init item) as [r|e]; simpl.
    + destruct (rmapM GridPosition.init items) as [rs|e]; simpl.
      * split; eauto.
      * split; [by intros [? ?]|by intros [_ [? ?]]].
    + split; [by intros [? ?]|by intros [[? ?] _]].
Qed.

Lemma rmapM_init_Raise items e :
  rmapM GridPosition.init items = Raise e → e = TypeError.
Proof. intros (item & _ & H)%rmapM_Raise. by eapply init_Raise. Qed.

Lemma iterate_Raise v e : iterate v = Raise e → e = TypeError.
Proof. destruct v; simpl; congruence. Qed.

Lemma holds_grid_spec data mg :
  holds_grid data mg ↔
  ∃ d, data = VDict d ∧ dict_get_or (u "mandala_grid") d data = mg.
Proof.
  unfold dict_get_or. split.
  - intros [d mg' H|d H]; exists d; by rewrite H.
  - intros (d & -> & H).
    destruct (dict_get (u "mandala_grid") d) as [v|] eqn:Hd; subst.
    + by constructor.
    + by constructor.
Qed.

Lemma holds_grid_functional data mg mg' :
  holds_grid data mg → holds_grid data mg' → mg = mg'.
Proof.
  intros (d & -> & <-)%holds_grid_spec (d' & [= <-] & <-)%holds_grid_spec.
  done.
Qed.

Lemma grid_fields_functional src mg mg' :
  grid_fields src mg → grid_fields src mg' → mg = mg'.
Proof.
  intros (data & -> & Hg) (data' & [= <-] & Hg').
  by pose proof (holds_grid_functional _ _ _ Hg Hg') as [= <-].
Qed.

Lemma position_items_functional src items items' :
  position_items src items → position_items src items' → items = items'.
Proof.
  intros (mg & ps & Hg & Hps & Hit) (mg' & ps' & Hg' & Hps' & Hit').
  pose proof (grid_fields_functional _ _ _ Hg Hg') as <-.
  congruence.
Qed.

Lemma from_data_Ok data :
  (∃ r, MandalaGrid.from_data data = Ok r) ↔ loadable (Document data).
Proof.
  unfold loadable, position_items, grid_fields. split.
  - intros [r Hr]. unfold MandalaGrid.from_data in Hr.
    destruct data as [| | | | | |d]; try done.
    destruct (dict_get_or _ d _) as [| | | | | |mg] eqn:Hmg; try done.
    destruct (dict_get (u "positions") mg) as [ps|] eqn:Hps; [|done].
    destruct (iterate ps) as [items|] eqn:Hit; [|done].
    simpl in Hr.
    destruct (rmapM GridPosition.init items) as [rs|] eqn:Hrs; [|done].
    exists items. split.
    + exists mg, ps. split_and!; try done.
      exists (VDict d). split; [done|]. apply holds_grid_spec. eauto.
    + apply rmapM_init_Ok. eauto.
  - intros (items & (mg & ps & (data' & [= <-] & Hg) & Hps & Hit) & Hall).
    apply holds_grid_spec in Hg as (d & -> & Hmg).
    apply rmapM_init_Ok in Hall as [rs Hrs].
    unfold MandalaGrid.from_data. rewrite Hmg, Hps, Hit. simpl.
    rewrite Hrs. simpl. by eexists.
Qed.

Lemma from_json_Ok src :
  (∃ r, MandalaGrid.from_json src = Ok r) ↔ loadable src.
Proof.
  destruct src as [| |data]; simpl.
  - split; [by intros [? ?]|].
    by intros (? & (? & ? & (? & ? & _) & _) & _).
  - split; [by intros [? ?]|].
    by intros (? & (? & ? & (? & ? & _) & _) & _).
  - apply from_data_Ok.
Qed.

Lemma from_data_Raise data e :
  MandalaGrid.from_data data = Raise e → e ≠ OSError.
Proof.
  unfold MandalaGrid.from_data.
  destruct data as [| | | | | |d]; try congruence.
  destruct (dict_get_or _ d _) as [| | | | | |mg]; try congruence.
  destruct (dict_get (u "positions") mg) as [ps|]; [|congruence].
  destruct (iterate ps) as [items|e'] eqn:Hit; simpl.
  - destruct (rmapM GridPosition.init items) as [rs|e'] eqn:Hrs; simpl;
      [done|].
    apply rmapM_init_Raise in Hrs as ->. congruence.
  - apply iterate_Raise in Hit as ->. congruence.
Qed.

(** The failures of [from_json] are the readable sources that are not
    loadable. *)
Lemma deserialization_fails_iff src :
  deserialization_fails src ↔ src ≠ Missing ∧ ¬ loadable src.
Proof.
  unfold deserialization_fails, DeserializationError.
  rewrite <- from_json_Ok. split.
  - intros (e & He & Hne). split.
    + intros ->. simpl in He. congruence.
    + intros [r Hr]. congruence.
  - intros [Hsrc Hno].
    destruct (MandalaGrid.from_json src) as [r|e] eqn:He.
    + destruct Hno. by eexists.
    + exists e. split; [done|].
      destruct src as [| |data]; [done|simpl in He; congruence|].
      by eapply from_data_Raise.
Qed.

Lemma missing_positions src mg :
  grid_fields src mg → dict_get (u "positions") mg = None →
  MandalaGrid.from_json src = Raise KeyError.
Proof.
  intros (data & -> & (d & -> & Hmg)%holds_grid_spec) Hps. simpl.
  unfold MandalaGrid.from_data. by rewrite Hmg, Hps.
Qed.

(** Why a value is no position object. *)
Lemma not_position_object item :
  ¬ position_object item →
  (∀ kw, item ≠ VDict kw)
  ∨ (∃ kw k, item = VDict kw ∧ k ∈ kw.*1
             ∧ k ∉ GridPosition.field_names)
  ∨ (∃ kw k, item = VDict kw ∧ k ∈ GridPosition.required
             ∧ dict_get k kw = None).
Proof.
  intros Hno. destruct item as [| | | | | |kw]; try by left.
  right.
  destruct (decide (Forall (λ k, k ∈ GridPosition.field_names) kw.*1))
    as [Hk|Hk].
  - right.
    destruct (decide (Forall (λ k, is_Some (dict_get k kw))
                        GridPosition.required)) as [Hq|Hq].
    + destruct Hno. by exists kw.
    + apply not_Forall_Exists in Hq; [|apply _].
      apply Exists_exists in Hq as (k & Hin & Hk').
      exists kw, k. split_and!; [done..|].
      by apply eq_None_not_Some.
  - left. apply not_Forall_Exists in Hk; [|apply _].
    apply Exists_exists in Hk as (k & Hin & Hk').
    by exists kw, k.
Qed.

Lemma VDict_item_of_list ps items kw :
  iterate ps = Ok items → VDict kw ∈ items → ps = VList items.
Proof.
  destruct ps as [| | | |s|l|d]; simpl; try done.
  - intros [= <-] (c & [=] & _)%list_elem_of_fmap.
  - by intros [= <-].
  - intros [= <-] (kv & [=] & _)%list_elem_of_fmap.
Qed.

(** Each failure that the specification lists is a failure. *)
Lemma listed_failure_fails src :
  listed_failure src → deserialization_fails src.
Proof.
  rewrite deserialization_fails_iff. unfold loadable.
  intros [(items & kw & k & Hit & Hin & Hk & Hnone)
         |[->|[(data & -> & Hno)|[(mg & Hg & Hps)
          |[(mg & ps & e & Hg & Hps & Hit)
           |(items & item & Hit & Hin & Hno)]]]]].
  - split; [by destruct Hit as (? & ? & (? & -> & _) & _)|].
    intros (items' & Hit' & Hall).
    pose proof (position_items_functional _ _ _ Hit Hit') as <-.
    rewrite Forall_forall in Hall.
    destruct (Hall _ Hin) as (kw' & [= <-] & _ & Hreq).
    rewrite Forall_forall in Hreq.
    destruct (Hreq k Hk) as [v Hv]. congruence.
  - split; [done|]. by intros (? & (? & ? & (? & ? & _) & _) & _).
  - split; [done|].
    intros (? & (mg & ? & (? & [= <-] & Hg) & _) & _). by eapply Hno.
  - split; [by destruct Hg as (? & -> & _)|].
    intros (? & (mg' & ? & Hg' & Hps' & _) & _).
    pose proof (grid_fields_functional _ _ _ Hg Hg') as <-. congruence.
  - split; [by destruct Hg as (? & -> & _)|].
    intros (? & (mg' & ? & Hg' & Hps' & Hit') & _).
    pose proof (grid_fields_functional _ _ _ Hg Hg') as <-. congruence.
  - split; [by destruct Hit as (? & ? & (? & -> & _) & _)|].
    intros (items' & Hit' & Hall).
    pose proof (position_items_functional _ _ _ Hit Hit') as <-.
    rewrite Forall_forall in Hall.
    destruct (Hall _ Hin) as (kw' & -> & _). by eapply Hno.
Qed.

Lemma unknown_field_fails src :
  unknown_field src → deserialization_fails src.
Proof.
  rewrite deserialization_fails_iff. unfold loadable.
  intros (items & kw & k & Hit & Hin & Hk & Hno).
  split; [by destruct Hit as (? & ? & (? & -> & _) & _)|].
  intros (items' & Hit' & Hall).
  pose proof (position_items_functional _ _ _ Hit Hit') as <-.
  rewrite Forall_forall in Hall.
  destruct (Hall _ Hin) as (kw' & [= <-] & Hkeys & _).
  rewrite Forall_forall in Hkeys. by apply Hno, Hkeys.
Qed.

(** Every failure is a listed one or comes from an unknown key. *)
Lemma fails_listed_or_unknown src :
  deserialization_fails src → listed_failure src ∨ unknown_field src.
Proof.
  intros (e & He & Hne).
  destruct src as [| |data]; simpl in He.
  - congruence.
  - left. right. by left.
  - unfold MandalaGrid.from_data in He.
    assert (∀ d mg, data = VDict d →
              dict_get_or (u "mandala_grid") d data = VDict mg →
              grid_fields (Document data) mg) as Hfields.
    { intros d mg -> Hmg. exists (VDict d). split; [done|].
      apply holds_grid_spec. eauto. }
    destruct data as [| | | | | |d];
      try (left; right; right; left; eexists; split; [done|];
           by intros mg (d & [=] & _)%holds_grid_spec).
    destruct (dict_get_or _ d _) as [| | | | | |mg] eqn:Hmg;
      try (left; right; right; left; eexists; split; [done|];
           intros mg (d' & [= <-] & Hmg')%holds_grid_spec; congruence).
    specialize (Hfields d mg eq_refl Hmg).
    destruct (dict_get (u "positions") mg) as [ps|] eqn:Hps.
    2:{ left. right. right. right. left. by exists mg. }
    destruct (iterate ps) as [items|e'] eqn:Hit.
    2:{ left. right. right. right. right. left. by exists mg, ps, e'. }
    simpl in He.
    assert (position_items (Document (VDict d)) items) as Hitems
        by by exists mg, ps.
    destruct (rmapM GridPosition.init items) as [rs|e'] eqn:Hrs;
      [done|].
    apply rmapM_Raise in Hrs as (item & Hin & Hinit).
    assert (¬ position_object item) as Hno.
    { intros [r Hr]%init_Ok. congruence. }
    apply not_position_object in Hno
      as [Hno|[(kw & k & -> & Hk & Hno)|(kw & k & -> & Hk & Hno)]].
    + left. right. do 4 right. by exists items, item.
    + right. by exists items, kw, k.
    + left. left. by exists items, kw, k.
Qed.

End Loading.

(** C4, as stated, fails: a position with every required field and one
    key more is refused, though no field is missing and the source is
    valid structured data. *)
Lemma load_fails_on_unknown_key :
  MandalaGrid.from_json extra_key = Raise TypeError
  ∧ deserialization_fails extra_key
  ∧ ¬ listed_failure extra_key.
Proof.
  assert (position_items extra_key
            [VDict [(u "index", VInt 0); (u "label", VStr (u "Center"));
                    (u "label_zh", VStr (u "Center"));
                    (u "consciousness", VStr (u "alaya"));
                    (u "consciousness_zh", VStr (u "alaya"));
                    (u "function", VStr (u "core_identity"));
                    (u "bias", VFloat 1%float);
                    (u "description", VStr []);
                    (u "color", VStr (u "red"))]]) as Hitems.
  { eexists _, _. split_and!.
    - eexists. split; [reflexivity|]. by apply holds_wrapped.
    - reflexivity.
    - reflexivity. }
  split; [reflexivity|]. split.
  { exists TypeError. split; [reflexivity|done]. }
  intros [(items & kw & k & Hit & Hin & Hk & Hnone)
         |[[=]|[(data & [= <-] & Hno)|[(mg & Hg & Hps)
          |[(mg & ps & e & Hg & Hps & Hit)
           |(items & item & Hit & Hin & Hno)]]]]].
  - pose proof (position_items_functional _ _ _ Hitems Hit) as <-.
    apply list_elem_of_singleton in Hin as [= Hkw].
    assert (Forall (λ k, is_Some (dict_get k kw)) GridPosition.required)
      as Hall by (subst kw; repeat constructor; by eexists).
    rewrite Forall_forall in Hall. destruct (Hall k Hk) as [v Hv].
    congruence.
  - eapply Hno. by apply holds_wrapped.
  - destruct Hitems as (mg' & ps' & Hg' & Hps' & _).
    pose proof (grid_fields_functional _ _ _ Hg Hg') as <-. congruence.
  - destruct Hitems as (mg' & ps' & Hg' & Hps' & Hit').
    pose proof (grid_fields_functional _ _ _ Hg Hg') as <-.
    rewrite Hps in Hps'. injection Hps' as <-. congruence.
  - pose proof (position_items_functional _ _ _ Hitems Hit) as <-.
    apply list_elem_of_singleton in Hin as ->. by eapply Hno.
Qed.

(** C4, amended.  [from_json] takes the grid fields from under
    ["mandala_grid"] or from the document itself; version, name and
    description, when absent, are ["2.0"], ["custom"] and the empty string;
    no bias is refused, whatever its value; a source without the positions
    key raises [KeyError]; [from_json] returns exactly on the loadable
    sources; and it fails with a DeserializationError exactly when a
    position lacks a required field, the source is not valid structured
    data, or a position has a key that names no field. *)
Theorem load_accepts_and_fails :
  (∀ g, ∃ fields,
      MandalaGrid.to_dict g = VDict [(u "mandala_grid", VDict fields)]
      ∧ MandalaGrid.from_json (Document (MandalaGrid.to_dict g))
        = Ok (Some g)
      ∧ MandalaGrid.from_json (Document (VDict fields)) = Ok (Some g))
  ∧ (∀ d mg, dict_get (u "mandala_grid") d = Some (VDict mg) →
             dict_get (u "mandala_grid") mg = None →
             MandalaGrid.from_json (Document (VDict d))
             = MandalaGrid.from_json (Document (VDict mg)))
  ∧ (∀ src mg g, grid_fields src mg →
       MandalaGrid.from_json src = Ok (Some g) →
       (dict_get (u "version") mg = None →
        MandalaGrid.version g = u "2.0")
       ∧ (dict_get (u "name") mg = None →
          MandalaGrid.name g = u "custom")
       ∧ (dict_get (u "description") mg = None →
          MandalaGrid.description g = []))
  ∧ (∀ p b, GridPosition.init (GridPosition.to_dict (with_bias p b))
            = Ok (Some (with_bias p b)))
  ∧ (∀ src mg, grid_fields src mg →
       dict_get (u "positions") mg = None →
       MandalaGrid.from_json src = Raise KeyError
       ∧ deserialization_fails src)
  ∧ (∀ src, (∃ r, MandalaGrid.from_json src = Ok r) ↔ loadable src)
  ∧ (∀ src, deserialization_fails src
            ↔ listed_failure src ∨ unknown_field src).
Proof.
  split_and!.
  - intros g. eexists. split; [reflexivity|].
    split; [apply load_to_dict|].
    pose proof (load_to_dict g) as H. exact H.
  - intros d mg Hd Hmg. simpl. unfold MandalaGrid.from_data, dict_get_or.
    by rewrite Hd, Hmg.
  - intros src mg g (data & -> & (d & -> & Hmg)%holds_grid_spec). simpl.
    unfold MandalaGrid.from_data. rewrite Hmg.
    destruct (dict_get (u "positions") mg) as [ps|]; [|done].
    destruct (iterate ps) as [items|]; [|done]. simpl.
    destruct (rmapM GridPosition.init items) as [rs|]; [|done]. simpl.
    unfold MandalaGrid.typed. intros [= Hg].
    destruct (mapM id rs) as [positions|]; [|done]. simpl in Hg.
    destruct (as_str (dict_get_or (u "version") mg _)) as [v|] eqn:Hv;
      [|done]. simpl in Hg.
    destruct (as_str (dict_get_or (u "name") mg _)) as [n|] eqn:Hn;
      [|done]. simpl in Hg.
    destruct (as_str (dict_get_or (u "description") mg _)) as [de|] eqn:Hde;
      [|done]. simpl in Hg.
    injection Hg as <-. simpl. unfold dict_get_or in Hv, Hn, Hde.
    split_and!; intros Hnone.
    + rewrite Hnone in Hv. by injection Hv.
    + rewrite Hnone in Hn. by injection Hn.
    + rewrite Hnone in Hde. by injection Hde.
  - intros p b. apply init_to_dict.
  - intros src mg Hg Hps. split; [by eapply missing_positions|].
    apply listed_failure_fails. right. right. right. left. by exists mg.
  - apply from_json_Ok.
  - intros src. split; [apply fails_listed_or_unknown|].
    intros [H|H]; [by apply listed_failure_fails
                  |by apply unknown_field_fails].
Qed.

(** A document with the grid fields at its top and only the positions
    key. *)
Example load_direct_defaults :
  MandalaGrid.from_json (Document (VDict [(u "positions", VList [])]))
  = Ok (Some (MandalaGrid.mk [] (u "2.0") (u "custom") [])).
Proof. reflexivity. Qed.

(** ** The picture of the grid *)

(** Membership in a list that is written out: decided by evaluation, or
    found among the first elements. *)
Ltac in_list := apply (bool_decide_unpack _); vm_compute; exact I.
Ltac in_elems :=
  repeat first [apply list_elem_of_here | apply list_elem_of_further].

Section DisplayFacts.
Implicit Types (g : MandalaGrid.t) (p : GridPosition.t).

Lemma foldl_insert_lookup (l : list GridPosition.t)
    (m : gmap Z GridPosition.t) i :
  foldl (λ m p, <[GridPosition.index p := p]> m) m l !! i
  = match last (filter (λ p, GridPosition.index p = i) l) with
    | Some p => Some p
    | None => m !! i
    end.
Proof.
  revert m. induction l as [|p l IH]; intros m; simpl; [done|].
  rewrite IH, filter_cons.
  destruct (decide (GridPosition.index p = i)) as [<-|Hne].
  - rewrite last_cons, lookup_insert_eq.
    by destruct (last (filter _ l)).
  - by rewrite lookup_insert_ne.
Qed.

(** The dictionary of [display] holds, for an index, the last position
    that has it. *)
Lemma by_index_lookup g i :
  MandalaGrid.by_index g !! i
  = last (filter (λ p, GridPosition.index p = i) (MandalaGrid.positions g)).
Proof.
  unfold MandalaGrid.by_index. rewrite foldl_insert_lookup.
  by destruct (last _).
Qed.

Lemma by_index_Some g i p :
  MandalaGrid.by_index g !! i = Some p →
  p ∈ MandalaGrid.positions g ∧ GridPosition.index p = i.
Proof.
  rewrite by_index_lookup. intros H%last_Some_elem_of.
  apply list_elem_of_filter in H as [? ?]. done.
Qed.

Lemma by_index_is_Some g i :
  is_Some (MandalaGrid.by_index g !! i) ↔ has_index g i.
Proof.
  split.
  - intros [p Hp%by_index_Some]. by exists p.
  - intros (p & Hin & Hi). rewrite by_index_lookup.
    destruct (last _) as [q|] eqn:Hl; [by eexists|].
    apply last_None in Hl.
    assert (p ∈ filter (λ p, GridPosition.index p = i)
                  (MandalaGrid.positions g)) as Hp
        by by apply list_elem_of_filter.
    rewrite Hl in Hp. by apply elem_of_nil in Hp.
Qed.

Lemma by_index_unique g i p :
  unique_indices g → MandalaGrid.by_index g !! i = Some p →
  MandalaGrid.get g i = Ok p.
Proof.
  intros Hu [Hin <-]%by_index_Some. by apply get_unique.
Qed.

Lemma cell_Ok m i s :
  MandalaGrid.cell m i = Ok s ↔
  ∃ p, m !! i = Some p ∧ s = MandalaGrid.cell_text p.
Proof.
  unfold MandalaGrid.cell. destruct (m !! i) as [p|].
  - split; [intros [= <-]; by exists p|by intros (? & [= <-] & ->)].
  - split; [done|by intros (? & ? & _)].
Qed.

Lemma cell_Raise m i e : MandalaGrid.cell m i = Raise e → e = KeyError.
Proof. unfold MandalaGrid.cell. destruct (m !! i); congruence. Qed.

Lemma row_Ok m i j k s :
  MandalaGrid.row m i j k = Ok s ↔
  ∃ a b c, m !! i = Some a ∧ m !! j = Some b ∧ m !! k = Some c
           ∧ s = MandalaGrid.row_text (MandalaGrid.cell_text a)
                   (MandalaGrid.cell_text b) (MandalaGrid.cell_text c).
Proof.
  unfold MandalaGrid.row, MandalaGrid.cell.
  destruct (m !! i) as [a|]; simpl.
  2:{ split; [done|by intros (? & ? & ? & ? & _)]. }
  destruct (m !! j) as [b|]; simpl.
  2:{ split; [done|by intros (? & ? & ? & _ & ? & _)]. }
  destruct (m !! k) as [c|]; simpl.
  2:{ split; [done|by intros (? & ? & ? & _ & _ & ? & _)]. }
  split.
  - intros [= <-]. by exists a, b, c.
  - by intros (? & ? & ? & [= <-] & [= <-] & [= <-] & ->).
Qed.

Lemma row_Raise m i j k e : MandalaGrid.row m i j k = Raise e → e = KeyError.
Proof.
  unfold MandalaGrid.row, MandalaGrid.cell.
  destruct (m !! i); simpl; [|congruence].
  destruct (m !! j); simpl; [|congruence].
  destruct (m !! k); simpl; congruence.
Qed.

Lemma display_Raise g e : MandalaGrid.display g = Raise e → e = KeyError.
Proof.
  unfold MandalaGrid.display, MandalaGrid.display_rows. cbv zeta.
  destruct (MandalaGrid.row _ 1 2 3) eqn:H1; simpl;
    [|intros [= <-]; by eapply row_Raise].
  destruct (MandalaGrid.row _ 6 0 5) eqn:H2; simpl;
    [|intros [= <-]; by eapply row_Raise].
  destruct (MandalaGrid.row _ 7 8 4) eqn:H3; simpl;
    [|intros [= <-]; by eapply row_Raise].
  done.
Qed.

(** What [display] returns, by the positions its dictionary holds. *)
Lemma display_Ok g s :
  MandalaGrid.display g = Ok s ↔
  ∃ p1 p2 p3 p6 p0 p5 p7 p8 p4,
    MandalaGrid.by_index g !! 1 = Some p1
    ∧ MandalaGrid.by_index g !! 2 = Some p2
    ∧ MandalaGrid.by_index g !! 3 = Some p3
    ∧ MandalaGrid.by_index g !! 6 = Some p6
    ∧ MandalaGrid.by_index g !! 0 = Some p0
    ∧ MandalaGrid.by_index g !! 5 = Some p5
    ∧ MandalaGrid.by_index g !! 7 = Some p7
    ∧ MandalaGrid.by_index g !! 8 = Some p8
    ∧ MandalaGrid.by_index g !! 4 = Some p4
    ∧ s = join [newline]
            [MandalaGrid.sep;
             MandalaGrid.row_text (MandalaGrid.cell_text p1)
               (MandalaGrid.cell_text p2) (MandalaGrid.cell_text p3);
             MandalaGrid.sep;
             MandalaGrid.row_text (MandalaGrid.cell_text p6)
               (MandalaGrid.cell_text p0) (MandalaGrid.cell_text p5);
             MandalaGrid.sep;
             MandalaGrid.row_text (MandalaGrid.cell_text p7)
               (MandalaGrid.cell_text p8) (MandalaGrid.cell_text p4);
             MandalaGrid.sep].
Proof.
  unfold MandalaGrid.display, MandalaGrid.display_rows. cbv zeta.
  split.
  - destruct (MandalaGrid.row _ 1 2 3) as [r1|] eqn:H1; [|done].
    destruct (MandalaGrid.row _ 6 0 5) as [r2|] eqn:H2; [|done].
    destruct (MandalaGrid.row _ 7 8 4) as [r3|] eqn:H3; [|done].
    simpl. intros [= <-].
    apply row_Ok in H1 as (p1 & p2 & p3 & ? & ? & ? & ->).
    apply row_Ok in H2 as (p6 & p0 & p5 & ? & ? & ? & ->).
    apply row_Ok in H3 as (p7 & p8 & p4 & ? & ? & ? & ->).
    by exists p1, p2, p3, p6, p0, p5, p7, p8, p4.
  - intros (p1 & p2 & p3 & p6 & p0 & p5 & p7 & p8 & p4
            & H1 & H2 & H3 & H6 & H0 & H5 & H7 & H8 & H4 & ->).
    unfold MandalaGrid.row, MandalaGrid.cell.
    by rewrite H1, H2, H3, H6, H0, H5, H7, H8, H4.
Qed.

Lemma display_Ok_complete g :
  (∃ s, MandalaGrid.display g = Ok s) ↔ complete g.
Proof.
  unfold complete, layout. split.
  - intros [s (p1 & p2 & p3 & p6 & p0 & p5 & p7 & p8 & p4
               & H1 & H2 & H3 & H6 & H0 & H5 & H7 & H8 & H4 & _)%display_Ok].
    repeat constructor; apply by_index_is_Some; by eexists.
  - intros H.
    assert (∀ i, i ∈ [1; 2; 3; 6; 0; 5; 7; 8; 4] →
                 is_Some (MandalaGrid.by_index g !! i)) as Hl.
    { intros i Hi. apply by_index_is_Some.
      rewrite Forall_forall in H. by apply H. }
    destruct (Hl 1) as [p1 H1]; [in_list|].
    destruct (Hl 2) as [p2 H2]; [in_list|].
    destruct (Hl 3) as [p3 H3]; [in_list|].
    destruct (Hl 6) as [p6 H6]; [in_list|].
    destruct (Hl 0) as [p0 H0]; [in_list|].
    destruct (Hl 5) as [p5 H5]; [in_list|].
    destruct (Hl 7) as [p7 H7]; [in_list|].
    destruct (Hl 8) as [p8 H8]; [in_list|].
    destruct (Hl 4) as [p4 H4]; [in_list|].
    eexists. apply display_Ok.
    by exists p1, p2, p3, p6, p0, p5, p7, p8, p4.
Qed.

Lemma display_incomplete g :
  ¬ complete g → MandalaGrid.display g = Raise KeyError.
Proof.
  intros Hno. destruct (MandalaGrid.display g) as [s|e] eqn:Hd.
  - destruct Hno. apply display_Ok_complete. by eexists.
  - by apply display_Raise in Hd as ->.
Qed.

End DisplayFacts.

(** ** Text of the cells *)

Section CellFacts.

Lemma uint_digits (d : Decimal.uint) :
  Forall (λ c, c ≠ newline)
    (map Utf8.byte_of (list_ascii_of_string (NilZero.string_of_uint d))).
Proof.
  assert (Forall (λ c, c ≠ newline)
            (map Utf8.byte_of
               (list_ascii_of_string (NilEmpty.string_of_uint d))))
    as Hd.
  { induction d; simpl; constructor; try done. }
  destruct d; try exact Hd. simpl. repeat constructor; done.
Qed.

Lemma str_of_int_plain i : newline ∉ str_of_int i.
Proof.
  unfold str_of_int, NilZero.string_of_int.
  intros Hin.
  destruct (Z.to_int i) as [d|d].
  - pose proof (uint_digits d) as H. rewrite Forall_forall in H.
    by apply (H _ Hin).
  - simpl in Hin. apply elem_of_cons in Hin as [?|Hin]; [done|].
    pose proof (uint_digits d) as H. rewrite Forall_forall in H.
    by apply (H _ Hin).
Qed.

Lemma digit_plain d : Fmt.digit d ≠ newline.
Proof. unfold Fmt.digit, newline. lia. Qed.

Lemma format_2f_plain x : newline ∉ Fmt.format_2f x.
Proof.
  unfold Fmt.format_2f.
  assert (∀ s, newline ∉ Fmt.sign s) as Hs.
  { intros [|]; simpl; [|by apply not_elem_of_nil].
    intros [?|?%elem_of_nil]%elem_of_cons; done. }
  destruct (Prim2SF x) as [s|s| |s m e];
    rewrite ?not_elem_of_app; repeat split; try apply Hs.
  - intros H. vm_compute in H. set_solver.
  - intros H. vm_compute in H. set_solver.
  - intros H. vm_compute in H. set_solver.
  - unfold Fmt.fixed2. rewrite !not_elem_of_app. split_and!.
    + apply str_of_int_plain.
    + intros H. vm_compute in H. set_solver.
    + intros [?|[?|?%elem_of_nil]%elem_of_cons]%elem_of_cons;
        try done; by eapply digit_plain.
Qed.

Lemma center_plain w s : newline ∉ s → newline ∉ Fmt.center w s.
Proof.
  intros Hs. unfold Fmt.center, repeat_char.
  rewrite !not_elem_of_app. split_and!; [|done|].
  - by intros [? _]%elem_of_replicate.
  - by intros [? _]%elem_of_replicate.
Qed.

Lemma cell_text_plain p :
  newline ∉ take 12 (GridPosition.label p) →
  newline ∉ MandalaGrid.cell_text p.
Proof.
  intros Hp. unfold MandalaGrid.cell_text. rewrite !not_elem_of_app.
  split_and!.
  - by apply center_plain.
  - intros H. vm_compute in H. set_solver.
  - apply format_2f_plain.
  - intros H. vm_compute in H. set_solver.
Qed.

Lemma row_text_plain a b c :
  newline ∉ a → newline ∉ b → newline ∉ c →
  newline ∉ MandalaGrid.row_text a b c.
Proof.
  intros Ha Hb Hc. unfold MandalaGrid.row_text. rewrite !not_elem_of_app.
  split_and!; try done; intros H; vm_compute in H; set_solver.
Qed.

Lemma sep_plain : newline ∉ MandalaGrid.sep.
Proof. intros H. vm_compute in H. set_solver. Qed.

(** A text centred in a field: spaces on both sides, as many on the
    left as on the right or one fewer. *)
Lemma center_spec w s :
  (length s ≤ w)%nat →
  ∃ l r, Fmt.center w s = replicate l space ++ s ++ replicate r space
         ∧ (l + length s + r)%nat = w ∧ (r = l ∨ r = S l).
Proof.
  intros Hs. unfold Fmt.center, repeat_char.
  eexists _, _. split; [reflexivity|].
  pose proof (Nat.div_mod_eq (w - length s) 2) as Hd.
  pose proof (Nat.mod_upper_bound (w - length s) 2) as Hm.
  lia.
Qed.

End CellFacts.

(** ** Mirror analysis and the center *)

Section MirrorFacts.
Context {py : PyText}.

Lemma mirror_analysis_unfold grid :
  mirror_analysis grid
  = center ← MandalaGrid.get grid 0;
    Ok (join [newline] (mirror_lines grid center)).
Proof.
  unfold mirror_analysis, mirror_lines. cbv zeta.
  destruct (MandalaGrid.get grid 0) as [center|]; [|done]. simpl.
  by rewrite <- !app_assoc.
Qed.

Lemma mirror_analysis_Ok grid :
  (∃ s, mirror_analysis grid = Ok s) ↔ has_index grid 0.
Proof.
  rewrite mirror_analysis_unfold. split.
  - intros [s Hs].
    destruct (MandalaGrid.get grid 0) as [c|] eqn:Hc; [|done].
    apply get_Ok in Hc as [? ?]. by exists c.
  - intros [c ->]%get_total. by eexists.
Qed.

Lemma mirror_analysis_no_center grid :
  ¬ has_index grid 0 → mirror_analysis grid = Raise KeyError.
Proof.
  intros Hno. rewrite mirror_analysis_unfold.
  destruct (MandalaGrid.get grid 0) as [c|e] eqn:Hc.
  - destruct Hno. apply get_Ok in Hc as [? ?]. by exists c.
  - by apply get_Raise in Hc as [-> _].
Qed.

End MirrorFacts.

(** C10.  [display] returns exactly on the grids that have a position for
    each of the indices 0 to 8, and raises [KeyError], the lookup error of
    its dictionary, on every other grid; [mirror_analysis] returns exactly
    on the grids that have a position of index 0 and raises [KeyError] on
    the others; yet [from_json] loads the serialization of every grid,
    whatever the number of its positions and their indices: so it does for
    the grid whose one position has index 3, on which both functions
    raise. *)
Theorem display_and_mirror_partial {py : PyText} :
  (∀ g, (∃ s, MandalaGrid.display g = Ok s) ↔ complete g)
  ∧ (∀ g i, i ∈ layout → ¬ has_index g i →
            MandalaGrid.display g = Raise KeyError)
  ∧ (∀ g, (∃ s, mirror_analysis g = Ok s) ↔ has_index g 0)
  ∧ (∀ g, ¬ has_index g 0 → mirror_analysis g = Raise KeyError)
  ∧ (∀ g, MandalaGrid.from_json (Document (MandalaGrid.to_dict g))
          = Ok (Some g))
  ∧ (∀ src, loadable src → ∃ r, MandalaGrid.from_json src = Ok r)
  ∧ MandalaGrid.from_json (Document (MandalaGrid.to_dict lone_grid))
    = Ok (Some lone_grid)
  ∧ ¬ complete lone_grid
  ∧ MandalaGrid.display lone_grid = Raise KeyError
  ∧ mirror_analysis lone_grid = Raise KeyError.
Proof.
  split_and!.
  - apply display_Ok_complete.
  - intros g i Hi Hno. apply display_incomplete. intros Hc.
    unfold complete in Hc. rewrite Forall_forall in Hc. by apply Hno, Hc.
  - apply mirror_analysis_Ok.
  - apply mirror_analysis_no_center.
  - apply load_to_dict.
  - intros src. apply from_json_Ok.
  - apply load_to_dict.
  - intros Hc. by apply display_Ok_complete in Hc as [s Hs].
  - reflexivity.
  - reflexivity.
Qed.

(** C8, amended.  On a grid with a position for each index of the layout,
    [display] returns seven lines joined by line breaks: border, row,
    border, row, border, row, border.  The rows show the cells 1 2 3, then
    6 0 5, then 7 8 4, where the cell of an index shows the position of that
    index (the last one in the grid; under the invariant of unique indices,
    the one [get] returns).  A cell is the label cut to 12 characters,
    centred with spaces in a field of 14 characters, then the bias with two
    decimals in parentheses.  When no shown label has a line break, the
    output splits at its line breaks into exactly these seven lines. *)
Theorem display_layout (g : MandalaGrid.t) :
  complete g →
  ∃ c : Z → GridPosition.t,
    (∀ i, i ∈ layout →
       c i ∈ MandalaGrid.positions g ∧ GridPosition.index (c i) = i
       ∧ last (filter (λ p, GridPosition.index p = i)
                 (MandalaGrid.positions g)) = Some (c i)
       ∧ (unique_indices g → MandalaGrid.get g i = Ok (c i)))
    ∧ MandalaGrid.display g
      = Ok (join [newline]
              [MandalaGrid.sep;
               MandalaGrid.row_text (MandalaGrid.cell_text (c 1))
                 (MandalaGrid.cell_text (c 2)) (MandalaGrid.cell_text (c 3));
               MandalaGrid.sep;
               MandalaGrid.row_text (MandalaGrid.cell_text (c 6))
                 (MandalaGrid.cell_text (c 0)) (MandalaGrid.cell_text (c 5));
               MandalaGrid.sep;
               MandalaGrid.row_text (MandalaGrid.cell_text (c 7))
                 (MandalaGrid.cell_text (c 8)) (MandalaGrid.cell_text (c 4));
               MandalaGrid.sep])
    ∧ MandalaGrid.sep
      = u "+----------------+----------------+----------------+"
    ∧ (∀ a b c, MandalaGrid.row_text a b c
                = u "|" ++ a ++ u "|" ++ b ++ u "|" ++ c ++ u "|")
    ∧ (∀ p, ∃ l r,
         MandalaGrid.cell_text p
         = (replicate l space ++ take 12 (GridPosition.label p)
              ++ replicate r space)
           ++ u "(" ++ Fmt.format_2f (GridPosition.bias p) ++ u ")"
         ∧ (l + length (take 12 (GridPosition.label p)) + r)%nat = 14%nat
         ∧ (r = l ∨ r = S l))
    ∧ ((∀ i, i ∈ layout →
          newline ∉ take 12 (GridPosition.label (c i))) →
       ∃ s r1 r2 r3,
         MandalaGrid.display g = Ok s
         ∧ split_lines s
           = [MandalaGrid.sep; r1; MandalaGrid.sep; r2; MandalaGrid.sep;
              r3; MandalaGrid.sep]
         ∧ length (split_lines s) = 7%nat).
Proof.
  intros Hc.
  destruct (proj2 (display_Ok_complete g) Hc) as [s Hs].
  pose proof Hs as Hd.
  apply display_Ok in Hs
    as (p1 & p2 & p3 & p6 & p0 & p5 & p7 & p8 & p4
        & H1 & H2 & H3 & H6 & H0 & H5 & H7 & H8 & H4 & ->).
  exists (λ i, default p0 (MandalaGrid.by_index g !! i)).
  assert (∀ i, i ∈ layout →
            MandalaGrid.by_index g !! i
            = Some (default p0 (MandalaGrid.by_index g !! i))) as Hl.
  { intros i Hi. unfold complete in Hc. rewrite Forall_forall in Hc.
    by destruct (proj2 (by_index_is_Some g i) (Hc i Hi)) as [p ->]. }
  split_and!.
  - intros i Hi. specialize (Hl i Hi).
    destruct (by_index_Some _ _ _ Hl) as [Hin Hidx].
    split_and!; [done..| |].
    + by rewrite <- by_index_lookup.
    + intros Hu. by apply by_index_unique.
  - by rewrite Hd, H1, H2, H3, H6, H0, H5, H7, H8, H4.
  - reflexivity.
  - reflexivity.
  - intros p.
    destruct (center_spec 14 (take 12 (GridPosition.label p)))
      as (l & r & Hce & Hlen & Hlr).
    { rewrite length_take. lia. }
    exists l, r. unfold MandalaGrid.cell_text. by rewrite Hce.
  - intros Hplain.
    eexists _, _, _, _. split; [exact Hd|].
    assert (∀ i p, i ∈ layout → MandalaGrid.by_index g !! i = Some p →
                   newline ∉ MandalaGrid.cell_text p) as Hcell.
    { intros i p Hi Hp. apply cell_text_plain.
      specialize (Hplain i Hi). by rewrite Hp in Hplain. }
    rewrite split_lines_join; [done|done|].
    repeat constructor; try apply sep_plain;
      apply row_text_plain; eapply Hcell; try eassumption; in_list.
Qed.

Lemma complete_default : complete MandalaGrid.default.
Proof. apply display_Ok_complete. eexists. vm_compute. reflexivity. Qed.

Lemma display_layout_witness :
  complete MandalaGrid.default
  ∧ MandalaGrid.display MandalaGrid.default
    = Ok (join [newline]
            [u "+----------------+----------------+----------------+";
             u "|  Logic Gate  (0.90)| Evidence Fil (0.80)| Minimal Reas (0.70)|";
             u "+----------------+----------------+----------------+";
             u "| Boundary Sen (0.90)| Center Obser (1.00)| Precision Ou (0.80)|";
             u "+----------------+----------------+----------------+";
             u "| Deconstructo (0.95)| Legacy Keepe (0.50)| Pragmatic Ex (0.60)|";
             u "+----------------+----------------+----------------+"])
  ∧ ∃ s, MandalaGrid.display MandalaGrid.default = Ok s
         ∧ length (split_lines s) = 7%nat.
Proof.
  pose proof complete_default as Hc.
  split; [exact Hc|]. split; [vm_compute; reflexivity|].
  destruct (display_layout MandalaGrid.default Hc)
    as (c & Hpos & _ & _ & _ & _ & Hlines).
  destruct Hlines as (s & r1 & r2 & r3 & Hs & _ & Hlen).
  - intros i Hi. destruct (Hpos i Hi) as (Hin & _).
    revert Hin. generalize (c i). apply Forall_forall.
    apply (bool_decide_unpack _). vm_compute. exact I.
  - exists s. split; [exact Hs|exact Hlen].
Defined.

(** C8, as stated for every grid, fails on two grids that [from_json]
    loads: on a grid without a position for some index of the layout
    [display] raises [KeyError] and produces no line, and on a grid with a
    position for each index but a line break in a shown label the text has
    eight lines. *)
Lemma display_not_seven_lines :
  MandalaGrid.from_json (Document (MandalaGrid.to_dict lone_grid))
  = Ok (Some lone_grid)
  ∧ MandalaGrid.display lone_grid = Raise KeyError
  ∧ MandalaGrid.from_json (Document (MandalaGrid.to_dict nl_grid))
    = Ok (Some nl_grid)
  ∧ complete nl_grid
  ∧ ∃ s, MandalaGrid.display nl_grid = Ok s
         ∧ length (split_lines s) = 8%nat.
Proof.
  assert (∃ s, MandalaGrid.display nl_grid = Ok s
               ∧ length (split_lines s) = 8%nat) as Hs.
  { destruct (MandalaGrid.display nl_grid) as [s|] eqn:Hd;
      [|vm_compute in Hd; discriminate].
    exists s. split; [done|].
    vm_compute in Hd. injection Hd as <-. vm_compute. reflexivity. }
  split_and!; [vm_compute; reflexivity..| |exact Hs].
  apply display_Ok_complete. destruct Hs as (s & Hs & _). by exists s.
Qed.

(** ** The weighted prompt *)

Section PromptFacts.
Context {py : PyText}.

Lemma elem_of_concat_map {X} (f : X → list str) (l : list X) x t :
  x ∈ l → t ∈ f x → t ∈ concat (map f l).
Proof.
  intros Hx Ht. induction l as [|y l IH]; [by apply elem_of_nil in Hx|].
  simpl. apply elem_of_app.
  apply elem_of_cons in Hx as [->|Hx]; [by left|right; by apply IH].
Qed.

Lemma length_concat_prompt_lines (l : list GridPosition.t) :
  length (concat (map MandalaGrid.prompt_lines l)) = (2 * length l)%nat.
Proof. induction l as [|p l IH]; simpl; [done|]. rewrite IH. lia. Qed.

(** The lines that [weighted_prompt] joins. *)
Lemma weighted_prompt_unfold g task :
  MandalaGrid.weighted_prompt g task
  = join [newline]
      ([u "You are reasoning through a mandala grid — a weighted personality framework.";
        u "Grid: " ++ MandalaGrid.name g ++ u " (v"
          ++ MandalaGrid.version g ++ u ")";
        u "";
        u "Each position represents a cognitive function with a bias weight.";
        u "Higher bias = stronger influence on your reasoning.";
        u ""]
       ++ concat (map MandalaGrid.prompt_lines
                    (sorted_ GridPosition.bias true
                       (MandalaGrid.positions g)))
       ++ [u "";
           u "Task: " ++ task;
           u "";
           u "Process this task through all 9 positions, weighting your reasoning by each position's bias. Start from the center observer, then engage positions from highest to lowest bias."]).
Proof.
  unfold MandalaGrid.weighted_prompt. cbv zeta. by rewrite <- app_assoc.
Qed.

Lemma prompt_has_line g task t s :
  t ∈ [u "Grid: " ++ MandalaGrid.name g ++ u " (v"
         ++ MandalaGrid.version g ++ u ")";
       u "Task: " ++ task]
  ∨ (∃ p, p ∈ MandalaGrid.positions g ∧ t ∈ MandalaGrid.prompt_lines p) →
  contains s t → contains s (MandalaGrid.weighted_prompt g task).
Proof.
  intros Ht Hs. rewrite weighted_prompt_unfold.
  apply (contains_join _ _ _ t); [|done].
  destruct Ht as [Ht|(p & Hp & Ht)].
  - apply elem_of_cons in Ht as [->|Ht%list_elem_of_singleton].
    + apply elem_of_app. left. in_elems.
    + subst t. apply elem_of_app. right. apply elem_of_app. right.
      in_elems.
  - apply elem_of_app. right. apply elem_of_app. left.
    apply (elem_of_concat_map _ _ p); [|done].
    by rewrite sorted_perm.
Qed.

End PromptFacts.

(** C7, amended.  For every grid and every task, [weighted_prompt] joins,
    by line breaks, six lines of header (the second names the grid and its
    version), then two lines for each position, then four lines of footer
    (the second holds the task).  The positions are listed all, the center
    too, each once; when no bias is NaN they are listed in descending
    order of bias, positions of equal bias in their order in the grid.
    The first line of a position shows its index, label, bias and tag,
    the second its function and description.  So the text contains the
    task, the name, the version, and the label and the bias of every
    position. *)
Theorem weighted_prompt_contents {py : PyText}
    (g : MandalaGrid.t) (task : str) :
  ∃ listed,
    listed ≡ₚ MandalaGrid.positions g
    ∧ length listed = length (MandalaGrid.positions g)
    ∧ (Forall (numeric GridPosition.bias) (MandalaGrid.positions g) →
       StronglySorted (descending GridPosition.bias) listed
       ∧ ∀ k, filter (tied GridPosition.bias k) listed
              = filter (tied GridPosition.bias k) (MandalaGrid.positions g))
    ∧ MandalaGrid.weighted_prompt g task
      = join [newline]
          ([u "You are reasoning through a mandala grid — a weighted personality framework.";
            u "Grid: " ++ MandalaGrid.name g ++ u " (v"
              ++ MandalaGrid.version g ++ u ")";
            u "";
            u "Each position represents a cognitive function with a bias weight.";
            u "Higher bias = stronger influence on your reasoning.";
            u ""]
           ++ concat (map MandalaGrid.prompt_lines listed)
           ++ [u "";
               u "Task: " ++ task;
               u "";
               u "Process this task through all 9 positions, weighting your reasoning by each position's bias. Start from the center observer, then engage positions from highest to lowest bias."])
    ∧ length (concat (map MandalaGrid.prompt_lines listed))
      = (2 * length (MandalaGrid.positions g))%nat
    ∧ (∀ p, MandalaGrid.prompt_lines p
            = [u "  [" ++ str_of_int (GridPosition.index p) ++ u "] "
                 ++ GridPosition.label p ++ u " (bias="
                 ++ float_repr (GridPosition.bias p) ++ u ") — "
                 ++ GridPosition.consciousness p;
               u "      " ++ GridPosition.function p ++ u ": "
                 ++ GridPosition.description p])
    ∧ contains task (MandalaGrid.weighted_prompt g task)
    ∧ contains (MandalaGrid.name g) (MandalaGrid.weighted_prompt g task)
    ∧ contains (MandalaGrid.version g) (MandalaGrid.weighted_prompt g task)
    ∧ (∀ p, p ∈ MandalaGrid.positions g →
         Forall (λ s, contains s (MandalaGrid.weighted_prompt g task))
           [str_of_int (GridPosition.index p); GridPosition.label p;
            float_repr (GridPosition.bias p); GridPosition.consciousness p;
            GridPosition.function p; GridPosition.description p]).
Proof.
  exists (sorted_ GridPosition.bias true (MandalaGrid.positions g)).
  split_and!.
  - apply sorted_perm.
  - apply Permutation_length, sorted_perm.
  - intros Hnum. split; [by apply sorted_descending|].
    intros k. apply sorted_tied.
  - apply weighted_prompt_unfold.
  - rewrite length_concat_prompt_lines.
    by rewrite (Permutation_length (sorted_perm _ _ _)).
  - reflexivity.
  - apply (prompt_has_line _ _ (u "Task: " ++ task));
      [left; in_elems|auto with text].
  - apply (prompt_has_line _ _
             (u "Grid: " ++ MandalaGrid.name g ++ u " (v"
                ++ MandalaGrid.version g ++ u ")"));
      [left; in_elems|auto with text].
  - apply (prompt_has_line _ _
             (u "Grid: " ++ MandalaGrid.name g ++ u " (v"
                ++ MandalaGrid.version g ++ u ")"));
      [left; in_elems|auto 6 with text].
  - intros p Hp.
    pose (l1 := u "  [" ++ str_of_int (GridPosition.index p) ++ u "] "
                 ++ GridPosition.label p ++ u " (bias="
                 ++ float_repr (GridPosition.bias p) ++ u ") — "
                 ++ GridPosition.consciousness p).
    pose (l2 := u "      " ++ GridPosition.function p ++ u ": "
                 ++ GridPosition.description p).
    assert (∀ s, contains s l1 ∨ contains s l2 →
                 contains s (MandalaGrid.weighted_prompt g task)) as Hl.
    { intros s [Hs|Hs].
      - apply (prompt_has_line _ _ l1); [|done].
        right. exists p. split; [done|]. apply list_elem_of_here.
      - apply (prompt_has_line _ _ l2); [|done].
        right. exists p. split; [done|].
        apply list_elem_of_further, list_elem_of_here. }
    repeat apply Forall_cons_2; [..|apply Forall_nil_2]; apply Hl;
      unfold l1, l2.
    + left. auto with text.
    + left. auto 6 with text.
    + left. auto 8 with text.
    + left. auto 10 with text.
    + right. auto with text.
    + right. auto 6 with text.
Qed.

Lemma weighted_prompt_contents_witness :
  Forall (numeric GridPosition.bias)
    (MandalaGrid.positions MandalaGrid.default)
  ∧ (∃ listed,
       listed ≡ₚ MandalaGrid.positions MandalaGrid.default
       ∧ StronglySorted (descending GridPosition.bias) listed)
  ∧ contains (u "test task")
      (MandalaGrid.weighted_prompt (py := Sample.text) MandalaGrid.default
         (u "test task"))
  ∧ Forall (λ p, contains (GridPosition.label p)
                   (MandalaGrid.weighted_prompt (py := Sample.text)
                      MandalaGrid.default (u "test task")))
      (MandalaGrid.positions MandalaGrid.default).
Proof.
  assert (Forall (numeric GridPosition.bias)
            (MandalaGrid.positions MandalaGrid.default)) as Hnum
      by (apply (bool_decide_unpack _); vm_compute; exact I).
  split; [exact Hnum|].
  destruct (weighted_prompt_contents (py := Sample.text)
              MandalaGrid.default (u "test task"))
    as (listed & Hperm & _ & Hsorted & _ & _ & _ & Htask & _ & _ & Hpos).
  split; [exists listed; split; [exact Hperm|exact (proj1 (Hsorted Hnum))]|].
  split; [exact Htask|].
  apply Forall_forall. intros p Hp.
  specialize (Hpos p Hp).
  apply Forall_cons_1 in Hpos as [_ Hpos].
  apply Forall_cons_1 in Hpos as [Hlabel _]. exact Hlabel.
Defined.

(** C7, as stated, fails on a grid with a bias that is NaN, which
    [from_json] loads: no comparison with NaN holds, so the sort leaves
    the biases 0.2, NaN, 0.8 in that order, and the position of bias 0.2
    is listed before the position of bias 0.8. *)
Lemma weighted_prompt_nan_order :
  MandalaGrid.from_json (Document (MandalaGrid.to_dict nan_grid))
  = Ok (Some nan_grid)
  ∧ MandalaGrid.weighted_prompt (py := Sample.text) nan_grid (u "t")
    = join [newline]
        [u "You are reasoning through a mandala grid — a weighted personality framework.";
         u "Grid: nan (v2.0)";
         u "";
         u "Each position represents a cognitive function with a bias weight.";
         u "Higher bias = stronger influence on your reasoning.";
         u "";
         u "  [0] Low (bias=0.2) — a";
         u "      low: ";
         u "  [1] None (bias=nan) — b";
         u "      none: ";
         u "  [2] High (bias=0.8) — c";
         u "      high: ";
         u "";
         u "Task: t";
         u "";
         u "Process this task through all 9 positions, weighting your reasoning by each position's bias. Start from the center observer, then engage positions from highest to lowest bias."].
Proof. split; vm_compute; reflexivity. Qed.

(** ** Mirror analysis *)

Section MirrorOrder.

Lemma bottom_two_selects g :
  Forall (numeric GridPosition.bias) (MandalaGrid.non_center g) →
  selects GridPosition.bias (ascending GridPosition.bias) 2
    (MandalaGrid.non_center g) (bottom_two g).
Proof.
  intros Hnum.
  apply selects_slice; [done|apply sorted_perm| |].
  - by apply sorted_ascending.
  - intros k. apply sorted_tied.
Qed.

Lemma bottom_two_no_center g :
  Forall (λ p, GridPosition.index p ≠ 0) (bottom_two g).
Proof.
  apply Forall_forall. intros p Hp.
  apply slice_to_subseteq in Hp. rewrite sorted_perm in Hp.
  pose proof (non_center_no_zero g) as Hnz.
  rewrite Forall_forall in Hnz. by apply Hnz.
Qed.

Lemma top_n_no_center g n :
  Forall (λ p, GridPosition.index p ≠ 0) (MandalaGrid.top_n g n).
Proof.
  apply Forall_forall. intros p Hp.
  apply slice_to_subseteq in Hp. rewrite sorted_perm in Hp.
  pose proof (non_center_no_zero g) as Hnz.
  rewrite Forall_forall in Hnz. by apply Hnz.
Qed.

Lemma top_three_selects g :
  Forall (numeric GridPosition.bias) (MandalaGrid.non_center g) →
  top_n_claim g 3.
Proof.
  intros Hnum. split; [|apply top_n_no_center].
  apply selects_slice; [done|apply sorted_perm| |].
  - by apply sorted_descending.
  - intros k. apply sorted_tied.
Qed.

End MirrorOrder.

(** *** What [mirror_analysis] reads *)

Section MirrorReads.
Context {py : PyText}.

Lemma same_shown_fields p q :
  same_shown p q →
  GridPosition.index p = GridPosition.index q
  ∧ GridPosition.label p = GridPosition.label q
  ∧ GridPosition.function p = GridPosition.function q
  ∧ GridPosition.bias p = GridPosition.bias q
  ∧ GridPosition.description p = GridPosition.description q.
Proof. unfold same_shown, shown_fields. by intros [= -> -> -> -> ->]. Qed.

Lemma same_shown_all l l' :
  map shown_fields l = map shown_fields l' → Forall2 same_shown l l'.
Proof.
  revert l'. induction l as [|p l IH]; intros [|q l'] Heq; try done.
  pose proof (f_equal (hd (shown_fields p)) Heq) as Hp.
  pose proof (f_equal (@tl _) Heq) as Hl.
  constructor; [exact Hp|by apply IH].
Qed.

Lemma same_shown_filter (l l' : list GridPosition.t) :
  Forall2 same_shown l l' →
  Forall2 same_shown
    (filter (λ p, GridPosition.index p ≠ 0) l)
    (filter (λ p, GridPosition.index p ≠ 0) l').
Proof.
  induction 1 as [|p q l l' Hpq _ IH]; [constructor|].
  apply same_shown_fields in Hpq as Hf. destruct Hf as (Hi & _).
  rewrite !filter_cons, <- Hi.
  destruct (decide (GridPosition.index p ≠ 0)); [by constructor|done].
Qed.

Lemma same_shown_insert x x' (l l' : list GridPosition.t) :
  same_shown x x' → Forall2 same_shown l l' →
  Forall2 same_shown (insert_sorted GridPosition.bias x l)
    (insert_sorted GridPosition.bias x' l').
Proof.
  intros Hx. apply same_shown_fields in Hx as Hf.
  destruct Hf as (_ & _ & _ & Hb & _).
  induction 1 as [|p q l l' Hpq Hl IH]; simpl; [by repeat constructor|].
  apply same_shown_fields in Hpq as Hf. destruct Hf as (_ & _ & _ & Hc & _).
  rewrite <- Hb, <- Hc.
  destruct (PrimFloat.ltb _ _); by repeat constructor.
Qed.

Lemma same_shown_sort (l l' : list GridPosition.t) :
  Forall2 same_shown l l' →
  Forall2 same_shown (sort_stable GridPosition.bias l)
    (sort_stable GridPosition.bias l').
Proof.
  induction 1; simpl; [constructor|by apply same_shown_insert].
Qed.

Lemma same_shown_rev (l l' : list GridPosition.t) :
  Forall2 same_shown l l' → Forall2 same_shown (rev l) (rev l').
Proof.
  induction 1; simpl; [constructor|].
  apply Forall2_app; [done|by repeat constructor].
Qed.

Lemma same_shown_sorted r (l l' : list GridPosition.t) :
  Forall2 same_shown l l' →
  Forall2 same_shown (sorted_ GridPosition.bias r l)
    (sorted_ GridPosition.bias r l').
Proof.
  intros Hl. unfold sorted_. destruct r.
  - by apply same_shown_rev, same_shown_sort, same_shown_rev.
  - by apply same_shown_sort.
Qed.

Lemma same_shown_slice n (l l' : list GridPosition.t) :
  Forall2 same_shown l l' →
  Forall2 same_shown (slice_to n l) (slice_to n l').
Proof.
  intros Hl. unfold slice_to. rewrite <- (Forall2_length _ _ _ Hl).
  destruct (0 <=? n); by apply Forall2_take.
Qed.

Lemma same_shown_map {B} (f : GridPosition.t → B) l l' :
  (∀ p q, same_shown p q → f p = f q) →
  Forall2 same_shown l l' → map f l = map f l'.
Proof.
  intros Hf. induction 1 as [|p q l l' Hpq _ IH]; [done|].
  simpl. by rewrite (Hf _ _ Hpq), IH.
Qed.

Lemma same_shown_find i (l l' : list GridPosition.t) :
  Forall2 same_shown l l' →
  match find (λ p, bool_decide (GridPosition.index p = i)) l,
        find (λ p, bool_decide (GridPosition.index p = i)) l' with
  | Some p, Some q => same_shown p q
  | None, None => True
  | _, _ => False
  end.
Proof.
  induction 1 as [|p q l l' Hpq _ IH]; simpl; [done|].
  apply same_shown_fields in Hpq as Hf. destruct Hf as (Hi & _).
  rewrite <- Hi. by destruct (bool_decide (GridPosition.index p = i)).
Qed.

(** The text is determined by the index, label, function, bias and
    description of the positions, in their order. *)
Lemma mirror_analysis_reads g g' :
  map shown_fields (MandalaGrid.positions g)
  = map shown_fields (MandalaGrid.positions g') →
  mirror_analysis g = mirror_analysis g'.
Proof.
  intros Heq%same_shown_all.
  assert (Forall2 same_shown (MandalaGrid.non_center g)
            (MandalaGrid.non_center g')) as Hnc
      by by apply same_shown_filter.
  rewrite !mirror_analysis_unfold. unfold mirror_lines.
  assert (map strongest_line (MandalaGrid.top_n g 3)
          = map strongest_line (MandalaGrid.top_n g' 3)) as ->.
  { apply same_shown_map.
    - intros p q (_ & Hl & _ & Hb & Hd)%same_shown_fields.
      unfold strongest_line. by rewrite Hl, Hb, Hd.
    - by apply same_shown_slice, same_shown_sorted. }
  assert (map deprioritized_line (bottom_two g)
          = map deprioritized_line (bottom_two g')) as ->.
  { apply same_shown_map.
    - intros p q (_ & Hl & Hf & Hb & _)%same_shown_fields.
      unfold deprioritized_line. by rewrite Hl, Hf, Hb.
    - by apply same_shown_slice, same_shown_sorted. }
  pose proof (same_shown_find 0 _ _ Heq) as Hfind.
  unfold MandalaGrid.get.
  destruct (find _ (MandalaGrid.positions g)) as [c|],
           (find _ (MandalaGrid.positions g')) as [c'|]; try done.
  apply same_shown_fields in Hfind as (_ & Hl & _ & _ & Hd).
  cbn [mbind result_bind]. by rewrite Hl, Hd.
Qed.

End MirrorReads.

Lemma closing_text :
  closing
  = u "Buddhism calls this self-awareness. You call it mandala_grid. Same thing.".
Proof. reflexivity. Qed.

(** C9, amended.  [mirror_analysis] reads the grid and returns a text or
    raises [KeyError]; it has no state to change and its result is
    determined by the index, label, function, bias and description of the
    positions, in their order.  On a grid with a position of index 0 it
    returns, joined by line breaks: six lines of header; one line for each
    position of [top_n 3]; a line of title; one line for each of the two
    positions of [bottom_two]; the label and the description of the
    center, the first position of index 0; and the closing statement.  On
    a grid without a position of index 0 it raises [KeyError].  When the
    non-center biases are numbers, [top_n 3] is the three non-center
    positions of highest bias, descending, equal biases in the order of
    the grid, and [bottom_two] the two non-center positions of lowest
    bias, the lowest first.  On the canonical grid the text contains
    ["Mirror"] and ["Center Observer"]. *)
Theorem mirror_analysis_contents {py : PyText} :
  (∀ g, has_index g 0 →
     ∃ center,
       MandalaGrid.get g 0 = Ok center
       ∧ center ∈ MandalaGrid.positions g
       ∧ GridPosition.index center = 0
       ∧ mirror_analysis g
         = Ok (join [newline]
                 ([u "═══ Mirror Analysis ═══";
                   u "";
                   u "The AI-as-Mirror theory: your mandala_grid is not a design spec —";
                   u "it's a self-portrait of how you think.";
                   u "";
                   u "Your strongest cognitive patterns:"]
                  ++ map strongest_line (MandalaGrid.top_n g 3)
                  ++ [u ""; u "Your deprioritized patterns:"]
                  ++ map deprioritized_line (bottom_two g)
                  ++ [u "";
                      u "Your center: " ++ GridPosition.label center
                        ++ u " — " ++ GridPosition.description center;
                      u "";
                      u "Buddhism calls this self-awareness. You call it mandala_grid. Same thing."]))
       ∧ (Forall (numeric GridPosition.bias) (MandalaGrid.non_center g) →
          top_n_claim g 3
          ∧ selects GridPosition.bias (ascending GridPosition.bias) 2
              (MandalaGrid.non_center g) (bottom_two g))
       ∧ Forall (λ p, GridPosition.index p ≠ 0)
           (MandalaGrid.top_n g 3 ++ bottom_two g)
       ∧ (∀ p, contains (GridPosition.label p) (strongest_line p)
               ∧ contains (GridPosition.label p) (deprioritized_line p)))
  ∧ (∀ p,
       strongest_line p
       = u "  ⬆ " ++ GridPosition.label p ++ u " (bias="
         ++ float_repr (GridPosition.bias p) ++ u "): You naturally "
         ++ str_lower (GridPosition.description p)
       ∧ deprioritized_line p
         = u "  ⬇ " ++ GridPosition.label p ++ u " (bias="
           ++ float_repr (GridPosition.bias p)
           ++ u "): You tend to under-invest in "
           ++ GridPosition.function p)
  ∧ closing
    = u "Buddhism calls this self-awareness. You call it mandala_grid. Same thing."
  ∧ (∀ g, ¬ has_index g 0 → mirror_analysis g = Raise KeyError)
  ∧ (∀ g g',
       map shown_fields (MandalaGrid.positions g)
       = map shown_fields (MandalaGrid.positions g') →
       mirror_analysis g = mirror_analysis g')
  ∧ (∃ s, mirror_analysis MandalaGrid.default = Ok s
          ∧ contains (u "Mirror") s
          ∧ contains (u "Center Observer") s
          ∧ contains
              (u "Buddhism calls this self-awareness. You call it mandala_grid. Same thing.")
              s).
Proof.
  rewrite <- !closing_text. split_and!.
  - intros g Hc.
    destruct (get_total g 0 Hc) as [center Hget].
    exists center. destruct (get_Ok _ _ _ Hget) as [Hin Hidx].
    split_and!; try done.
    + rewrite mirror_analysis_unfold, Hget. reflexivity.
    + intros Hnum. split;
        [by apply top_three_selects|by apply bottom_two_selects].
    + apply Forall_app. split;
        [apply top_n_no_center|apply bottom_two_no_center].
    + intros p. unfold strongest_line, deprioritized_line.
      split; auto with text.
  - intros p. split; reflexivity.
  - reflexivity.
  - apply mirror_analysis_no_center.
  - apply mirror_analysis_reads.
  - rewrite mirror_analysis_unfold.
    destruct (MandalaGrid.get MandalaGrid.default 0) as [center|] eqn:Hget;
      [|discriminate].
    assert (GridPosition.label center = u "Center Observer") as Hlabel
        by by injection Hget as <-.
    eexists. split; [reflexivity|]. unfold mirror_lines. split_and!.
    + apply (contains_join _ _ _ (u "═══ Mirror Analysis ═══")).
      * apply elem_of_app. left. in_elems.
      * exists (u "═══ "), (u " Analysis ═══"). reflexivity.
    + apply (contains_join _ _ _
               (u "Your center: " ++ GridPosition.label center ++ u " — "
                  ++ GridPosition.description center)).
      * do 3 (apply elem_of_app; right). in_elems.
      * rewrite Hlabel. auto with text.
    + apply (contains_join _ _ _ closing).
      * do 3 (apply elem_of_app; right). in_elems.
      * apply contains_refl.
Qed.

Lemma mirror_analysis_contents_witness :
  has_index MandalaGrid.default 0
  ∧ Forall (numeric GridPosition.bias)
      (MandalaGrid.non_center MandalaGrid.default)
  ∧ ∃ center s,
      MandalaGrid.get MandalaGrid.default 0 = Ok center
      ∧ mirror_analysis (py := Sample.text) MandalaGrid.default = Ok s
      ∧ map GridPosition.index (MandalaGrid.top_n MandalaGrid.default 3)
        = [7; 1; 6]
      ∧ map GridPosition.index (bottom_two MandalaGrid.default) = [8; 4]
      ∧ top_n_claim MandalaGrid.default 3.
Proof.
  assert (has_index MandalaGrid.default 0) as Hc.
  { eexists. split; [apply list_elem_of_here|reflexivity]. }
  assert (Forall (numeric GridPosition.bias)
            (MandalaGrid.non_center MandalaGrid.default)) as Hnum
      by (apply (bool_decide_unpack _); vm_compute; exact I).
  split; [exact Hc|]. split; [exact Hnum|].
  destruct (mirror_analysis_contents (py := Sample.text)) as [Hall _].
  destruct (Hall MandalaGrid.default Hc)
    as (center & Hget & _ & _ & Hs & Horder & _).
  exists center. eexists. split; [exact Hget|]. split; [exact Hs|].
  split; [vm_compute; reflexivity|]. split; [vm_compute; reflexivity|].
  exact (proj1 (Horder Hnum)).
Defined.

(** C9, as stated for every grid, fails on two grids that [from_json]
    loads.  On a grid without a position of index 0 [mirror_analysis]
    raises [KeyError] and there is no output.  On a grid with biases that
    are NaN no comparison holds between neighbours, so both sorts leave
    the order of the grid: the position of bias 0.2 is listed among the
    three strongest and the position of bias 0.5 is not, and a position
    whose bias is NaN is listed among the two deprioritized while the
    position of bias 0.5 is not. *)
Lemma mirror_analysis_no_center_or_nan :
  MandalaGrid.from_json (Document (MandalaGrid.to_dict lone_grid))
  = Ok (Some lone_grid)
  ∧ mirror_analysis (py := Sample.text) lone_grid = Raise KeyError
  ∧ MandalaGrid.from_json (Document (MandalaGrid.to_dict nan_mirror_grid))
    = Ok (Some nan_mirror_grid)
  ∧ mirror_analysis (py := Sample.text) nan_mirror_grid
    = Ok (join [newline]
            [u "═══ Mirror Analysis ═══";
             u "";
             u "The AI-as-Mirror theory: your mandala_grid is not a design spec —";
             u "it's a self-portrait of how you think.";
             u "";
             u "Your strongest cognitive patterns:";
             u "  ⬆ One (bias=0.2): You naturally first.";
             u "  ⬆ Two (bias=nan): You naturally second.";
             u "  ⬆ Three (bias=0.9): You naturally third.";
             u "";
             u "Your deprioritized patterns:";
             u "  ⬇ One (bias=0.2): You tend to under-invest in one";
             u "  ⬇ Two (bias=nan): You tend to under-invest in two";
             u "";
             u "Your center: Center — Watches.";
             u "";
             u "Buddhism calls this self-awareness. You call it mandala_grid. Same thing."]).
Proof. split_and!; vm_compute; reflexivity. Qed.

(** * Further properties of the code *)

(** ** Slices of [top_n] *)

(** [top_n] with a count of zero is empty; a larger count extends the
    result of a smaller one; and a negative count [n] stands for the
    number of non-center positions plus [n], or zero when that is
    negative: the slice drops the last positions of the sorted list. *)
Theorem top_n_slices (g : MandalaGrid.t) :
  let len := Z.of_nat (length (MandalaGrid.non_center g)) in
  MandalaGrid.top_n g 0 = []
  ∧ (∀ m n, 0 ≤ m ≤ n →
       MandalaGrid.top_n g m `prefix_of` MandalaGrid.top_n g n)
  ∧ (∀ n, n < 0 →
       MandalaGrid.top_n g n = MandalaGrid.top_n g (Z.max 0 (len + n))
       ∧ Z.of_nat (length (MandalaGrid.top_n g n)) = Z.max 0 (len + n))
  ∧ (∀ n, len ≤ n → MandalaGrid.top_n g n ≡ₚ MandalaGrid.non_center g).
Proof.
  intros len. unfold MandalaGrid.top_n.
  set (l := sorted_ GridPosition.bias true (MandalaGrid.non_center g)).
  assert (Z.of_nat (length l) = len) as Hlen.
  { unfold len, l. f_equal. apply Permutation_length, sorted_perm. }
  split_and!.
  - reflexivity.
  - intros m n [Hm Hn]. rewrite !slice_to_nonneg by lia.
    replace (take (Z.to_nat m) l)
      with (take (Z.to_nat m) (take (Z.to_nat n) l))
      by (rewrite take_take; f_equal; lia).
    apply prefix_take.
  - intros n Hn. rewrite slice_to_neg by done.
    rewrite slice_to_nonneg by lia. split.
    + f_equal. lia.
    + rewrite length_take. lia.
  - intros n Hn. rewrite slice_to_nonneg by lia.
    rewrite take_ge by lia. apply sorted_perm.
Qed.

Lemma top_n_slices_witness :
  map GridPosition.index (MandalaGrid.top_n MandalaGrid.default (-6))
  = map GridPosition.index (MandalaGrid.top_n MandalaGrid.default 2)
  ∧ MandalaGrid.top_n MandalaGrid.default 1
    `prefix_of` MandalaGrid.top_n MandalaGrid.default 3
  ∧ length (MandalaGrid.top_n MandalaGrid.default (-1)) = 7%nat.
Proof.
  destruct (top_n_slices MandalaGrid.default) as (_ & Hpre & Hneg & _).
  split_and!.
  - destruct (Hneg (-6)) as [H _]; [lia|]. rewrite H. reflexivity.
  - apply Hpre. lia.
  - destruct (Hneg (-1)) as [_ H]; [lia|]. apply Nat2Z.inj.
    rewrite H. reflexivity.
Defined.

(** ** The signature *)

Section SignatureFacts.
Context {py : PyText}.

(** One entry of the signature. *)
Lemma signature_unfold g :
  MandalaGrid.personality_signature g
  = u "[" ++ MandalaGrid.name g ++ u "] "
    ++ join (u " > ")
         (map (λ p, GridPosition.label p ++ u "("
                    ++ float_repr (GridPosition.bias p) ++ u ")")
            (MandalaGrid.top_n g 3)).
Proof. reflexivity. Qed.

Lemma head_sorted_max {X} (key : X → float) (l : list X) p :
  Forall (numeric key) l →
  head (sorted_ key true l) = Some p →
  p ∈ l ∧ ∀ q, q ∈ l → fgt (key q) (key p) = false.
Proof.
  intros Hnum Hp.
  pose proof (sorted_descending key l Hnum) as Hs.
  pose proof (sorted_perm key true l) as Hperm.
  destruct (sorted_ key true l) as [|p' r]; [done|].
  injection Hp as ->. split.
  - rewrite <- Hperm. apply list_elem_of_here.
  - intros q Hq. rewrite <- Hperm in Hq.
    apply elem_of_cons in Hq as [->|Hq].
    + unfold fgt. apply FloatOrder.ltb_irrefl.
    + apply StronglySorted_inv in Hs as [_ Hall].
      rewrite Forall_forall in Hall. exact (Hall q Hq).
Qed.

End SignatureFacts.



(** ** Positions of one index *)

(** [get] returns the first position of the index, in the order of the
    grid; the dictionary of [display] holds the last one.  The two agree
    when no index occurs twice. *)
Theorem get_returns_first (g : MandalaGrid.t) (i : Z) :
  (∀ p, MandalaGrid.get g i = Ok p ↔
        ∃ l1 l2, MandalaGrid.positions g = l1 ++ p :: l2
                 ∧ GridPosition.index p = i
                 ∧ Forall (λ q, GridPosition.index q ≠ i) l1)
  ∧ (∀ p, MandalaGrid.get g i = Ok p ↔
          head (filter (λ q, GridPosition.index q = i)
                  (MandalaGrid.positions g)) = Some p)
  ∧ MandalaGrid.by_index g !! i
    = last (filter (λ q, GridPosition.index q = i)
              (MandalaGrid.positions g))
  ∧ (unique_indices g →
     ∀ p, MandalaGrid.get g i = Ok p ↔ MandalaGrid.by_index g !! i = Some p).
Proof.
  assert (∀ l : list GridPosition.t,
            find (λ p, bool_decide (GridPosition.index p = i)) l
            = head (filter (λ q, GridPosition.index q = i) l)) as Hfind.
  { induction l as [|q l IH]; [done|]. simpl. rewrite filter_cons.
    destruct (decide (GridPosition.index q = i)) as [Hq|Hq].
    - by rewrite bool_decide_eq_true_2.
    - by rewrite bool_decide_eq_false_2. }
  assert (∀ p, MandalaGrid.get g i = Ok p ↔
               head (filter (λ q, GridPosition.index q = i)
                       (MandalaGrid.positions g)) = Some p) as Hhead.
  { intros p. unfold MandalaGrid.get. rewrite Hfind.
    destruct (head _) as [q|]; split; congruence. }
  split_and!.
  - intros p. split.
    + intros Hget. unfold MandalaGrid.get in Hget.
      destruct (find _ _) as [q|] eqn:Hq; [|done]. injection Hget as ->.
      clear Hfind Hhead. revert Hq.
      induction (MandalaGrid.positions g) as [|q l IH]; [done|]. simpl.
      destruct (bool_decide (GridPosition.index q = i)) eqn:Hb.
      * intros [= ->]. apply bool_decide_eq_true in Hb.
        by exists [], l.
      * intros (l1 & l2 & -> & Hi & Hall)%IH.
        apply bool_decide_eq_false in Hb.
        exists (q :: l1), l2. split_and!; [done..|]. by constructor.
    + intros (l1 & l2 & Hpos & Hi & Hall). by eapply get_first.
  - exact Hhead.
  - apply by_index_lookup.
  - intros Hu p. split.
    + intros Hget. pose proof (get_Ok _ _ _ Hget) as [Hin Hi].
      destruct (proj2 (by_index_is_Some g i)) as [q Hq]; [by exists p|].
      rewrite Hq. f_equal.
      pose proof (by_index_unique _ _ _ Hu Hq). congruence.
    + by apply by_index_unique.
Qed.

(** ** What [from_json] raises, and what it does not read *)

Section LoadingMore.

Lemma grid_fields_intro d mg :
  dict_get_or (u "mandala_grid") d (VDict d) = VDict mg →
  grid_fields (Document (VDict d)) mg.
Proof.
  intros Hmg. exists (VDict d). split; [done|]. apply holds_grid_spec.
  by exists d.
Qed.

Lemma grid_fields_inv d mg :
  grid_fields (Document (VDict d)) mg →
  dict_get_or (u "mandala_grid") d (VDict d) = VDict mg.
Proof.
  intros (data & [= <-] & (d' & [= <-] & Hmg)%holds_grid_spec). exact Hmg.
Qed.

Lemma init_not_object item :
  ¬ position_object item → GridPosition.init item = Raise TypeError.
Proof.
  intros Hno. destruct (GridPosition.init item) as [r|e] eqn:Hi.
  - destruct Hno. apply init_Ok. by eexists.
  - by apply init_Raise in Hi as ->.
Qed.

End LoadingMore.

(** The exception of [from_json] once [json.load] has returned the
    document, by its cause: [AttributeError] when the document is no
    object, [KeyError] when the grid object has no positions, and
    [TypeError] in the other cases: the value under ["mandala_grid"] is no
    object, the positions cannot be iterated, or one of them is no object
    with the required keys and no other than the field names.  The rest
    of the body raises nothing else. *)
Theorem from_json_error_kinds (data : value) (e : exn) :
  MandalaGrid.from_json (Document data) = Raise e ↔
  (e = AttributeError ∧ ∀ d, data ≠ VDict d)
  ∨ (e = KeyError
     ∧ ∃ mg, grid_fields (Document data) mg
             ∧ dict_get (u "positions") mg = None)
  ∨ (e = TypeError
     ∧ ((∃ d v, data = VDict d
                ∧ dict_get (u "mandala_grid") d = Some v
                ∧ ∀ mg, v ≠ VDict mg)
        ∨ (∃ mg ps, grid_fields (Document data) mg
                    ∧ dict_get (u "positions") mg = Some ps
                    ∧ iterate ps = Raise TypeError)
        ∨ (∃ items item, position_items (Document data) items
                         ∧ item ∈ items ∧ ¬ position_object item))).
Proof.
  split.
  - simpl. unfold MandalaGrid.from_data.
    destruct data as [| | | | | |d];
      try (intros [= <-]; left; split; [done|]; congruence).
    destruct (dict_get_or _ d _) as [| | | | | |mg] eqn:Hmg.
    1-6: intros [= <-]; do 2 right; split; [done|]; left;
      unfold dict_get_or in Hmg;
      destruct (dict_get (u "mandala_grid") d) as [v|] eqn:Hd; [|done];
      exists d, v; split_and!; [done..|]; congruence.
    pose proof (grid_fields_intro _ _ Hmg) as Hg.
    destruct (dict_get (u "positions") mg) as [ps|] eqn:Hps.
    2:{ intros [= <-]. right. left. split; [done|]. by exists mg. }
    destruct (iterate ps) as [items|e'] eqn:Hit; simpl.
    2:{ intros [= <-]. pose proof (iterate_Raise _ _ Hit) as ->.
        do 2 right. split; [done|]. right. left. by exists mg, ps. }
    destruct (rmapM GridPosition.init items) as [rs|e'] eqn:Hrs; simpl;
      [done|].
    intros [= <-]. pose proof (rmapM_init_Raise _ _ Hrs) as ->.
    apply rmapM_Raise in Hrs as (item & Hin & Hinit).
    do 2 right. split; [done|]. right. right.
    exists items, item. split_and!; [by exists mg, ps|done|].
    intros [r Hr]%init_Ok. congruence.
  - intros [[-> Hno]|[[-> (mg & Hg & Hps)]|[-> Hty]]].
    + simpl. unfold MandalaGrid.from_data.
      destruct data as [| | | | | |d]; try done. by destruct (Hno d).
    + by eapply missing_positions.
    + destruct Hty as [(d & v & -> & Hd & Hno)
                      |[(mg & ps & Hg & Hps & Hit)
                       |(items & item & Hitems & Hin & Hno)]].
      * simpl. unfold MandalaGrid.from_data, dict_get_or. rewrite Hd.
        destruct v as [| | | | | |mg]; try done. by destruct (Hno mg).
      * destruct Hg as (data' & [= <-] & Hg).
        apply holds_grid_spec in Hg as (d & -> & Hmg). simpl.
        unfold MandalaGrid.from_data. by rewrite Hmg, Hps, Hit.
      * destruct Hitems as (mg & ps & (data' & [= <-] & Hg) & Hps & Hit).
        apply holds_grid_spec in Hg as (d & -> & Hmg). simpl.
        unfold MandalaGrid.from_data. rewrite Hmg, Hps, Hit. simpl.
        destruct (rmapM GridPosition.init items) as [rs|e'] eqn:Hrs.
        -- apply rmapM_Ok_inv in Hrs.
           apply list_elem_of_lookup in Hin as [i Hi].
           destruct (Forall2_lookup_l _ _ _ _ _ Hrs Hi) as (r & _ & Hr).
           destruct Hno. apply init_Ok. by eexists.
        -- simpl. by rewrite (rmapM_init_Raise _ _ Hrs).
Qed.

(** Of a document with the key ["mandala_grid"], [from_json] reads the
    value of that key and nothing else; of the grid object it reads the
    four keys positions, version, name and description, and ignores any
    other key, whereas a position object with a key that names no field is
    refused. *)
Theorem load_reads_four_keys :
  (∀ d d' v,
     dict_get (u "mandala_grid") d = Some v →
     dict_get (u "mandala_grid") d' = Some v →
     MandalaGrid.from_json (Document (VDict d))
     = MandalaGrid.from_json (Document (VDict d')))
  ∧ (∀ mg mg',
       (∀ k, k ∈ grid_keys → dict_get k mg = dict_get k mg') →
       MandalaGrid.from_json (Document (VDict [(u "mandala_grid", VDict mg)]))
       = MandalaGrid.from_json
           (Document (VDict [(u "mandala_grid", VDict mg')])))
  ∧ (∀ mg k v,
       k ∉ grid_keys →
       MandalaGrid.from_json
         (Document (VDict [(u "mandala_grid", VDict ((k, v) :: mg))]))
       = MandalaGrid.from_json
           (Document (VDict [(u "mandala_grid", VDict mg)])))
  ∧ (∀ kw k v,
       k ∉ GridPosition.field_names →
       GridPosition.init (VDict ((k, v) :: kw)) = Raise TypeError).
Proof.
  assert (∀ mg mg',
            (∀ k, k ∈ grid_keys → dict_get k mg = dict_get k mg') →
            MandalaGrid.from_json
              (Document (VDict [(u "mandala_grid", VDict mg)]))
            = MandalaGrid.from_json
                (Document (VDict [(u "mandala_grid", VDict mg')]))) as Hkeys.
  { intros mg mg' Hk. simpl. unfold MandalaGrid.from_data.
    change (dict_get_or (u "mandala_grid") [(u "mandala_grid", VDict mg)] _)
      with (VDict mg).
    change (dict_get_or (u "mandala_grid") [(u "mandala_grid", VDict mg')] _)
      with (VDict mg').
    cbv beta iota. rewrite <- (Hk (u "positions")) by in_list.
    unfold MandalaGrid.typed, dict_get_or.
    rewrite <- (Hk (u "version")), <- (Hk (u "name")),
      <- (Hk (u "description")) by in_list.
    reflexivity. }
  split_and!.
  - intros d d' v Hd Hd'. simpl. unfold MandalaGrid.from_data, dict_get_or.
    by rewrite Hd, Hd'.
  - exact Hkeys.
  - intros mg k v Hk. apply Hkeys. intros k' Hk'. simpl.
    destruct (decide (k = k')) as [->|_]; [done|reflexivity].
  - intros kw k v Hk. unfold GridPosition.init.
    cbn [fmap list_fmap fst forallb].
    by rewrite bool_decide_eq_false_2.
Qed.

(** A position object needs seven keys and no more: without
    ["description"] it gives the position with the empty description,
    while without one of the other seven it is refused. *)
Theorem position_description_optional :
  (∀ p, GridPosition.init (without_description p)
        = Ok (Some (no_description p)))
  ∧ (∀ kw p, dict_get (u "description") kw = None →
             GridPosition.init (VDict kw) = Ok (Some p) →
             GridPosition.description p = [])
  ∧ (∀ kw k, k ∈ GridPosition.required → dict_get k kw = None →
             GridPosition.init (VDict kw) = Raise TypeError)
  ∧ (∀ ps,
       MandalaGrid.from_json
         (Document (VDict [(u "positions",
                            VList (map without_description ps))]))
       = Ok (Some (MandalaGrid.mk (map no_description ps)
                     (u "2.0") (u "custom") []))).
Proof.
  assert (∀ p, GridPosition.init (without_description p)
               = Ok (Some (no_description p))) as Hinit
      by (by intros []).
  split_and!.
  - exact Hinit.
  - intros kw p Hd. unfold GridPosition.init.
    destruct (forallb _ kw.*1); cbn [negb]; [|done].
    destruct (forallb _ GridPosition.required); cbn [negb]; [|done].
    unfold GridPosition.typed, dict_get_or. rewrite Hd. intros [= Hp].
    repeat match type of Hp with
           | (?m ≫= _) = _ => destruct m; [|done]; simpl in Hp
           end.
    by injection Hp as <-.
  - intros kw k Hk Hnone. apply init_not_object.
    intros (kw' & [= <-] & _ & Hreq). rewrite Forall_forall in Hreq.
    destruct (Hreq k Hk) as [v Hv]. congruence.
  - intros ps. simpl. unfold MandalaGrid.from_data.
    change (dict_get_or (u "mandala_grid") _ _)
      with (VDict [(u "positions", VList (map without_description ps))]).
    cbv beta iota.
    change (dict_get (u "positions") _)
      with (Some (VList (map without_description ps))).
    cbn [iterate mbind result_bind].
    assert (rmapM GridPosition.init (map without_description ps)
            = Ok (map Some (map no_description ps))) as ->.
    { induction ps as [|p ps IH]; [done|].
      cbn [map rmapM]. rewrite Hinit, IH. reflexivity. }
    cbn [mbind result_bind]. unfold MandalaGrid.typed.
    rewrite mapM_id_Some. reflexivity.
Qed.

(** [from_json] iterates the value of the positions key, whatever it is:
    an empty string or an empty object gives, like the empty list, a grid
    without positions; a string or an object that is not empty is refused
    with [TypeError], since its items are strings; so is a value that
    cannot be iterated. *)
Theorem positions_need_not_be_a_list (mg : list (str * value)) (ps : value) :
  dict_get (u "positions") mg = Some ps →
  let loaded :=
    MandalaGrid.from_json (Document (VDict [(u "mandala_grid", VDict mg)])) in
  (ps = VList [] ∨ ps = VStr [] ∨ ps = VDict [] →
   ∃ r, loaded = Ok r ∧ ∀ g, r = Some g → MandalaGrid.positions g = [])
  ∧ ((∃ c s, ps = VStr (c :: s)) ∨ (∃ kv d, ps = VDict (kv :: d))
     ∨ ps = VNone ∨ (∃ b, ps = VBool b) ∨ (∃ i, ps = VInt i)
     ∨ (∃ x, ps = VFloat x) →
     loaded = Raise TypeError).
Proof.
  intros Hps loaded. unfold loaded. simpl. unfold MandalaGrid.from_data.
  change (dict_get_or (u "mandala_grid") [(u "mandala_grid", VDict mg)] _)
    with (VDict mg).
  cbv beta iota. rewrite Hps. split.
  - intros Hempty.
    assert (iterate ps = Ok []) as -> by (by destruct Hempty as [->|[->| ->]]).
    simpl. eexists. split; [reflexivity|].
    unfold MandalaGrid.typed. simpl. intros g Hg.
    repeat match type of Hg with
           | (?m ≫= _) = _ => destruct m; [|done]; simpl in Hg
           end.
    by injection Hg as <-.
  - intros [(c & s & ->)|[([k v] & d & ->)|[->|[[b ->]|[[i ->]|[x ->]]]]]];
      reflexivity.
Qed.

Lemma positions_need_not_be_a_list_witness :
  MandalaGrid.from_json
    (Document (VDict [(u "mandala_grid",
                       VDict [(u "positions", VStr [])])]))
  = Ok (Some (MandalaGrid.mk [] (u "2.0") (u "custom") []))
  ∧ MandalaGrid.from_json
      (Document (VDict [(u "mandala_grid",
                         VDict [(u "positions", VStr (u "abc"))])]))
    = Raise TypeError.
Proof.
  split.
  - destruct (positions_need_not_be_a_list
                [(u "positions", VStr [])] (VStr []) eq_refl) as [H _].
    destruct H as (r & Hr & _); [by right; left|]. reflexivity.
  - apply (positions_need_not_be_a_list
             [(u "positions", VStr (u "abc"))] (VStr (u "abc")) eq_refl).
    left. by eexists _, _.
Defined.

(** ** Widths and inputs of the picture *)

Section DisplayMore.

Lemma length_str_of_int i : (1 ≤ length (str_of_int i))%nat.
Proof.
  unfold str_of_int, NilZero.string_of_int.
  destruct (Z.to_int i) as [d|d].
  - destruct d; simpl; lia.
  - simpl. lia.
Qed.

Lemma length_format_2f x : (3 ≤ length (Fmt.format_2f x))%nat.
Proof.
  unfold Fmt.format_2f.
  destruct (Prim2SF x) as [s|s| |s m e]; rewrite ?length_app.
  - change (length (u "0.00")) with 4%nat. lia.
  - change (length (u "inf")) with 3%nat. lia.
  - reflexivity.
  - unfold Fmt.fixed2. rewrite !length_app.
    pose proof (length_str_of_int (Fmt.centi m e / 100)). simpl. lia.
Qed.

Lemma length_cell_text p :
  length (MandalaGrid.cell_text p)
  = (16 + length (Fmt.format_2f (GridPosition.bias p)))%nat.
Proof.
  unfold MandalaGrid.cell_text. rewrite !length_app, length_center.
  - change (length (u "(")) with 1%nat. change (length (u ")")) with 1%nat.
    lia.
  - rewrite length_take. lia.
Qed.

Lemma length_row_text a b c :
  length (MandalaGrid.row_text a b c)
  = (4 + length a + length b + length c)%nat.
Proof.
  unfold MandalaGrid.row_text. rewrite !length_app.
  change (length (u "|")) with 1%nat. lia.
Qed.

Lemma cell_congruence (m m' : gmap Z GridPosition.t) i :
  MandalaGrid.cell_text <$> m !! i = MandalaGrid.cell_text <$> m' !! i →
  MandalaGrid.cell m i = MandalaGrid.cell m' i.
Proof.
  unfold MandalaGrid.cell.
  destruct (m !! i), (m' !! i); simpl; congruence.
Qed.

End DisplayMore.

(** The borders of the picture are 52 characters wide, but a cell takes 16
    characters and its formatted bias, so every row is as much longer than
    a border as the three biases it shows take characters, nine at
    least: rows and borders never line up. *)
Theorem display_rows_wider_than_borders (g : MandalaGrid.t) :
  complete g →
  ∃ r1 r2 r3,
    MandalaGrid.display g
    = Ok (join [newline]
            [MandalaGrid.sep; r1; MandalaGrid.sep; r2; MandalaGrid.sep; r3;
             MandalaGrid.sep])
    ∧ length MandalaGrid.sep = 52%nat
    ∧ Forall (λ r, ∃ a b c : GridPosition.t,
                r = MandalaGrid.row_text (MandalaGrid.cell_text a)
                      (MandalaGrid.cell_text b) (MandalaGrid.cell_text c)
                ∧ length r
                  = (52 + length (Fmt.format_2f (GridPosition.bias a))
                     + length (Fmt.format_2f (GridPosition.bias b))
                     + length (Fmt.format_2f (GridPosition.bias c)))%nat
                ∧ (61 ≤ length r)%nat)
        [r1; r2; r3].
Proof.
  intros Hc. destruct (proj2 (display_Ok_complete g) Hc) as [s Hd].
  pose proof Hd as Hs.
  apply display_Ok in Hs
    as (p1 & p2 & p3 & p6 & p0 & p5 & p7 & p8 & p4 & _ & _ & _ & _ & _ & _
        & _ & _ & _ & Hs).
  assert (∀ a b c : GridPosition.t,
            let r := MandalaGrid.row_text (MandalaGrid.cell_text a)
                       (MandalaGrid.cell_text b) (MandalaGrid.cell_text c) in
            length r
            = (52 + length (Fmt.format_2f (GridPosition.bias a))
               + length (Fmt.format_2f (GridPosition.bias b))
               + length (Fmt.format_2f (GridPosition.bias c)))%nat
            ∧ (61 ≤ length r)%nat) as Hrow.
  { intros a b c r. unfold r.
    rewrite length_row_text, !length_cell_text.
    pose proof (length_format_2f (GridPosition.bias a)).
    pose proof (length_format_2f (GridPosition.bias b)).
    pose proof (length_format_2f (GridPosition.bias c)). lia. }
  eexists _, _, _. split; [by rewrite Hd, Hs|]. split; [reflexivity|].
  repeat constructor; eexists _, _, _; (split; [reflexivity|apply Hrow]).
Qed.

Lemma display_rows_wider_than_borders_witness :
  complete MandalaGrid.default
  ∧ ∃ r1 r2 r3,
      MandalaGrid.display MandalaGrid.default
      = Ok (join [newline]
              [MandalaGrid.sep; r1; MandalaGrid.sep; r2; MandalaGrid.sep;
               r3; MandalaGrid.sep])
      ∧ length MandalaGrid.sep = 52%nat
      ∧ Forall (λ r, 61 ≤ length r)%nat [r1; r2; r3].
Proof.
  split; [exact complete_default|].
  destruct (display_rows_wider_than_borders MandalaGrid.default
              complete_default) as (r1 & r2 & r3 & Hd & Hsep & Hrows).
  exists r1, r2, r3. split; [exact Hd|]. split; [exact Hsep|].
  eapply Forall_impl; [exact Hrows|].
  intros r (a & b & c & _ & _ & Hlen). exact Hlen.
Defined.

(** [display] reads, for each index of the layout, the last position of
    that index, and of it the first twelve characters of the label and
    the bias to two decimals: grids that agree on these have the same
    picture.  So the name, the version, the other fields, the positions of
    other indices and the earlier positions of an index do not show. *)
Theorem display_reads_layout_cells (g g' : MandalaGrid.t) :
  (∀ i, i ∈ layout →
     MandalaGrid.cell_text
       <$> last (filter (λ p, GridPosition.index p = i)
                   (MandalaGrid.positions g))
     = MandalaGrid.cell_text
         <$> last (filter (λ p, GridPosition.index p = i)
                     (MandalaGrid.positions g'))) →
  MandalaGrid.display g = MandalaGrid.display g'.
Proof.
  intros Hcells.
  assert (∀ i, i ∈ layout →
            MandalaGrid.cell (MandalaGrid.by_index g) i
            = MandalaGrid.cell (MandalaGrid.by_index g') i) as Hcell.
  { intros i Hi. apply cell_congruence. rewrite !by_index_lookup.
    by apply Hcells. }
  unfold MandalaGrid.display, MandalaGrid.display_rows, MandalaGrid.row.
  cbv zeta.
  rewrite !(Hcell 1), !(Hcell 2), !(Hcell 3), !(Hcell 6), !(Hcell 0),
    !(Hcell 5), !(Hcell 7), !(Hcell 8), !(Hcell 4) by in_list.
  reflexivity.
Qed.

(** Positions of indices outside the layout, added at the end of a grid,
    and another name, version or description leave the picture as it
    is. *)
Lemma display_reads_layout_cells_witness :
  MandalaGrid.display
    (MandalaGrid.mk
       (MandalaGrid.positions MandalaGrid.default
          ++ [GridPosition.mk 9 (u "Ninth") [] [] [] [] 0.3 []])
       (u "3.0") (u "other") (u "another grid"))
  = MandalaGrid.display MandalaGrid.default.
Proof.
  apply display_reads_layout_cells.
  apply Forall_forall. apply (bool_decide_unpack _). vm_compute. exact I.
Defined.

(** ** Comparison in the two directions *)

Module FloatAbs.

(** Rounding a magnitude gives the same magnitude for both signs. *)
Lemma binary_round_aux_abs m e l :
  SFabs (binary_round_aux prec emax true m e l)
  = SFabs (binary_round_aux prec emax false m e l).
Proof.
  unfold binary_round_aux.
  destruct (shr_fexp prec emax m e l) as [mrs' e'].
  destruct (shr_fexp prec emax _ e' loc_Exact) as [mrs'' e''].
  destruct (shr_m mrs'') as [|p|p]; [done| |done].
  by destruct (e'' <=? emax - prec).
Qed.

Lemma binary_normalize_abs z e :
  SFabs (binary_normalize prec emax (- z) e false)
  = SFabs (binary_normalize prec emax z e false).
Proof.
  destruct z as [|p|p]; simpl; [done| |]; unfold binary_round;
    destruct (shl_align _ _ _) as [mz ez];
    by rewrite binary_round_aux_abs.
Qed.

(** The magnitude of a difference does not depend on its direction. *)
Lemma SFsub_abs a b : SFabs (SF64sub a b) = SFabs (SF64sub b a).
Proof.
  destruct a as [[]|[]| |sa ma ea], b as [[]|[]| |sb mb eb]; try done.
  unfold SF64sub, SFsub. cbv zeta. rewrite (Z.min_comm eb ea).
  rewrite <- binary_normalize_abs. f_equal. f_equal. lia.
Qed.

Lemma abs_sub_swap (x y : float) : abs (x - y) = abs (y - x).
Proof.
  apply Prim2SF_inj. rewrite !abs_spec, !sub_spec. apply SFsub_abs.
Qed.

Lemma abs_sub_nan (x y c : float) :
  is_nan x = true ∨ is_nan y = true → fgt (abs (x - y)) c = false.
Proof.
  intros Hnan. unfold fgt. apply FloatOrder.ltb_nan_r.
  apply FloatOrder.is_nan_spec. rewrite abs_spec, sub_spec.
  destruct Hnan as [Hx%FloatOrder.is_nan_spec|Hy%FloatOrder.is_nan_spec].
  - by rewrite Hx.
  - rewrite Hy. by destruct (Prim2SF x) as [[]|[]| |[] ? ?].
Qed.

End FloatAbs.

(** The two directions of a comparison report the same pairs of positions.
    When every index of each grid occurs in the other, [compare_grids a b]
    and [compare_grids b a] both return: two lines of heading, the lines
    of the positions of the first grid in their order, three closing
    lines.  For a position of [a] and a position of [b] that [get] finds
    for each other, the first has a line in [compare_grids a b] exactly
    when the second has one in [compare_grids b a]; the two lines show
    the same absolute difference and opposite markers, [↑] in the
    direction whose first bias is the greater, [↓] in the other. *)
Theorem compare_directions {py : PyText} (a b : MandalaGrid.t) :
  (∀ pa, pa ∈ MandalaGrid.positions a →
         has_index b (GridPosition.index pa)) →
  (∀ pb, pb ∈ MandalaGrid.positions b →
         has_index a (GridPosition.index pb)) →
  compare_grids a b
  = Ok (join [newline]
          ([u "Comparing [" ++ MandalaGrid.name a ++ u "] vs ["
              ++ MandalaGrid.name b ++ u "]";
            repeat_char 61 50]
           ++ concat (map (reported b) (MandalaGrid.positions a))
           ++ [u "";
               u "  " ++ MandalaGrid.name a ++ u ": "
                 ++ MandalaGrid.personality_signature a;
               u "  " ++ MandalaGrid.name b ++ u ": "
                 ++ MandalaGrid.personality_signature b]))
  ∧ compare_grids b a
    = Ok (join [newline]
            ([u "Comparing [" ++ MandalaGrid.name b ++ u "] vs ["
                ++ MandalaGrid.name a ++ u "]";
              repeat_char 61 50]
             ++ concat (map (reported a) (MandalaGrid.positions b))
             ++ [u "";
                 u "  " ++ MandalaGrid.name b ++ u ": "
                   ++ MandalaGrid.personality_signature b;
                 u "  " ++ MandalaGrid.name a ++ u ": "
                   ++ MandalaGrid.personality_signature a]))
  ∧ (∀ pa pb,
       MandalaGrid.get b (GridPosition.index pa) = Ok pb →
       MandalaGrid.get a (GridPosition.index pb) = Ok pa →
       let changed :=
         fgt (abs (GridPosition.bias pa - GridPosition.bias pb)) 0.01 in
       let up := fgt (GridPosition.bias pa) (GridPosition.bias pb) in
       reported b pa
       = (if changed
          then [diff_text pa pb (if up then [8593%N] else [8595%N])]
          else [])
       ∧ reported a pb
         = (if changed
            then [diff_text pb pa (if up then [8595%N] else [8593%N])]
            else [])
       ∧ Fmt.format_2f (abs (GridPosition.bias pa - GridPosition.bias pb))
         = Fmt.format_2f
             (abs (GridPosition.bias pb - GridPosition.bias pa)))
  ∧ (∀ pa pb arrow,
       diff_text pa pb arrow
       = u "  Position " ++ str_of_int (GridPosition.index pa) ++ u " ("
         ++ GridPosition.label pa ++ u "): "
         ++ Fmt.format_2f (GridPosition.bias pa) ++ u " → "
         ++ Fmt.format_2f (GridPosition.bias pb) ++ u " ["
         ++ arrow
         ++ Fmt.format_2f
              (abs (GridPosition.bias pa - GridPosition.bias pb))
         ++ u "]").
Proof.
  intros Hab Hba. split_and!.
  - by apply compare_grids_reported.
  - by apply compare_grids_reported.
  - intros pa pb Hb Ha changed up. unfold changed, up. split_and!.
    + by rewrite (reported_found _ _ _ Hb).
    + rewrite (reported_found _ _ _ Ha).
      rewrite (FloatAbs.abs_sub_swap (GridPosition.bias pb)).
      destruct (fgt (abs _) 0.01) eqn:Hch; [|done].
      rewrite <- (FloatFacts.sub_gt_zero _ _ _ threshold_positive Hch).
      rewrite (FloatFacts.sub_not_gt_zero _ _ _ threshold_positive Hch).
      rewrite FloatAbs.abs_sub_swap in Hch.
      rewrite <- (FloatFacts.sub_gt_zero _ _ _ threshold_positive Hch).
      by destruct (fgt (GridPosition.bias pb - GridPosition.bias pa) 0).
    + by rewrite FloatAbs.abs_sub_swap.
  - reflexivity.
Qed.

Lemma compare_directions_witness :
  (∀ pa, pa ∈ MandalaGrid.positions MandalaGrid.default →
         has_index modified_default (GridPosition.index pa))
  ∧ (∀ pb, pb ∈ MandalaGrid.positions modified_default →
           has_index MandalaGrid.default (GridPosition.index pb))
  ∧ @compare_grids Sample.text MandalaGrid.default modified_default
    = Ok (join [newline]
            [u "Comparing [quan-default] vs [modified]";
             repeat_char 61 50;
             u "  Position 7 (Deconstructor): 0.95 → 0.50 [↑0.45]";
             u "";
             u "  quan-default: "
               ++ @MandalaGrid.personality_signature Sample.text
                    MandalaGrid.default;
             u "  modified: "
               ++ @MandalaGrid.personality_signature Sample.text
                    modified_default])
  ∧ @compare_grids Sample.text modified_default MandalaGrid.default
    = Ok (join [newline]
            [u "Comparing [modified] vs [quan-default]";
             repeat_char 61 50;
             u "  Position 7 (Deconstructor): 0.50 → 0.95 [↓0.45]";
             u "";
             u "  modified: "
               ++ @MandalaGrid.personality_signature Sample.text
                    modified_default;
             u "  quan-default: "
               ++ @MandalaGrid.personality_signature Sample.text
                    MandalaGrid.default]).
Proof.
  assert (∀ a b : MandalaGrid.t,
            map GridPosition.index (MandalaGrid.positions a)
            = map GridPosition.index (MandalaGrid.positions b) →
            ∀ pa, pa ∈ MandalaGrid.positions a →
                  has_index b (GridPosition.index pa)) as Hin.
  { intros a b Heq pa Hpa.
    assert (In (GridPosition.index pa)
               (map GridPosition.index (MandalaGrid.positions b))) as Hi.
    { rewrite <- Heq. apply in_map. by apply list_elem_of_In. }
    apply in_map_iff in Hi as (pb & Hpb & Hi).
    exists pb. split; [by apply list_elem_of_In|done]. }
  assert (∀ pa, pa ∈ MandalaGrid.positions MandalaGrid.default →
                has_index modified_default (GridPosition.index pa)) as Hab
      by (apply Hin; vm_compute; reflexivity).
  assert (∀ pb, pb ∈ MandalaGrid.positions modified_default →
                has_index MandalaGrid.default (GridPosition.index pb)) as Hba
      by (apply Hin; vm_compute; reflexivity).
  split; [exact Hab|]. split; [exact Hba|].
  destruct (compare_directions (py := Sample.text)
              MandalaGrid.default modified_default Hab Hba)
    as (H1 & H2 & _).
  rewrite H1, H2. split; vm_compute; reflexivity.
Defined.

(** A bias that is not a number is never reported: whatever the other
    bias, the pair gives no line, in either direction. *)
Theorem compare_nan_silent (b : MandalaGrid.t) (pa pb : GridPosition.t) :
  MandalaGrid.get b (GridPosition.index pa) = Ok pb →
  is_nan (GridPosition.bias pa) = true
  ∨ is_nan (GridPosition.bias pb) = true →
  diff_line b pa = Ok [].
Proof.
  intros Hb Hnan. rewrite (diff_line_found _ _ _ Hb).
  by rewrite FloatAbs.abs_sub_nan.
Qed.

Lemma compare_nan_silent_witness :
  diff_line MandalaGrid.default
    (GridPosition.mk 7 (u "Deconstructor") [] [] [] [] nan [])
  = Ok [].
Proof.
  destruct (MandalaGrid.get MandalaGrid.default 7) as [p7|] eqn:Hp;
    [|discriminate].
  apply (compare_nan_silent _ _ p7); [exact Hp|]. left. reflexivity.
Defined.

(** ** Mirror analysis of a small grid *)

(** With three non-center positions or fewer, [top_n 3] holds them all,
    so every position that [mirror_analysis] lists as deprioritized is
    listed as strongest too. *)
Theorem mirror_small_grid {py : PyText} (g : MandalaGrid.t) :
  (length (MandalaGrid.non_center g) ≤ 3)%nat →
  MandalaGrid.top_n g 3 ≡ₚ MandalaGrid.non_center g
  ∧ (∀ p, p ∈ bottom_two g → p ∈ MandalaGrid.top_n g 3)
  ∧ (has_index g 0 →
     ∃ s, mirror_analysis g = Ok s
          ∧ ∀ p, p ∈ bottom_two g →
                 contains (strongest_line p) s
                 ∧ contains (deprioritized_line p) s).
Proof.
  intros Hlen.
  assert (MandalaGrid.top_n g 3 ≡ₚ MandalaGrid.non_center g) as Htop.
  { unfold MandalaGrid.top_n. rewrite slice_to_nonneg by done.
    rewrite take_ge; [apply sorted_perm|].
    rewrite (Permutation_length (sorted_perm _ _ _)).
    change (Z.to_nat 3) with 3%nat. lia. }
  assert (∀ p, p ∈ bottom_two g → p ∈ MandalaGrid.top_n g 3) as Hin.
  { intros p Hp. rewrite Htop. apply slice_to_subseteq in Hp.
    by rewrite sorted_perm in Hp. }
  split_and!; [done..|].
  intros Hc. destruct (get_total g 0 Hc) as [center Hget].
  rewrite mirror_analysis_unfold, Hget. eexists. split; [reflexivity|].
  intros p Hp. unfold mirror_lines. split.
  - apply (contains_join _ _ _ (strongest_line p)); [|apply contains_refl].
    apply elem_of_app. right. apply elem_of_app. left.
    apply list_elem_of_fmap. exists p. split; [done|by apply Hin].
  - apply (contains_join _ _ _ (deprioritized_line p));
      [|apply contains_refl].
    do 3 (apply elem_of_app; right). apply elem_of_app. left.
    apply list_elem_of_fmap. by exists p.
Qed.

Lemma mirror_small_grid_witness :
  let g := MandalaGrid.mk (take 3 (MandalaGrid.positions MandalaGrid.default))
             (u "2.0") (u "small") [] in
  (length (MandalaGrid.non_center g) ≤ 3)%nat
  ∧ map GridPosition.index (bottom_two g) = [2; 1]
  ∧ ∀ p, p ∈ bottom_two g → p ∈ MandalaGrid.top_n g 3.
Proof.
  intros g.
  assert (length (MandalaGrid.non_center g) ≤ 3)%nat as Hlen
      by (vm_compute; lia).
  split; [exact Hlen|]. split; [vm_compute; reflexivity|].
  destruct (mirror_small_grid (py := Sample.text) g Hlen) as (_ & Hin & _).
  exact Hin.
Defined.

(** ** The command line *)

Section CliFacts.
Import Cli.
Context {py : PyText} {js : PyJson}.

Lemma print_all_events l :
  print_all l = (map Printed l, Ok (Some tt)).
Proof.
  induction l as [|s l IH]; [done|]. simpl. rewrite IH. reflexivity.
Qed.

Lemma main_chosen w a :
  compare a = None →
  main w a
  = grid ← loaded (chosen w a);
    match given (export a) with
    | Some path => _ ← save w grid path; print (u "Exported grid to " ++ path)
    | None =>
        match given (prompt a) with
        | Some task => print (MandalaGrid.weighted_prompt grid task)
        | None =>
            if mirror a
            then text ← lifted (mirror_analysis grid); print text
            else show a grid
        end
    end.
Proof.
  intros Hc. unfold main, chosen. rewrite Hc.
  by destruct (given (profile a)).
Qed.

Lemma given_idemp s : given (given s) = given s.
Proof. by destruct s as [[|c r]|]. Qed.

Lemma show_events a g :
  show a g
  = match MandalaGrid.display g with
    | Raise e =>
        ([Printed (newline :: str_mul (u "═") 50);
          Printed (u "  Mandala Grid: " ++ MandalaGrid.name g ++ u " (v"
                     ++ MandalaGrid.version g ++ u ")");
          Printed (str_mul (u "═") 50 ++ [newline])], Raise e)
    | Ok text =>
        ([Printed (newline :: str_mul (u "═") 50);
          Printed (u "  Mandala Grid: " ++ MandalaGrid.name g ++ u " (v"
                     ++ MandalaGrid.version g ++ u ")");
          Printed (str_mul (u "═") 50 ++ [newline]);
          Printed text;
          Printed (newline :: u "Personality Signature: "
                     ++ MandalaGrid.personality_signature g);
          Printed (newline :: u "Eight Consciousnesses Mapping:")]
         ++ map Printed
              (map mapping_line
                 (sorted_ GridPosition.bias true (MandalaGrid.positions g)))
         ++ (if demo a
             then [Printed (newline :: str_mul (u "─") 50);
                   Printed (u "Demo: Weighted prompt for a sample task"
                              ++ [newline]);
                   Printed (MandalaGrid.weighted_prompt g
                              (u "Should I open-source this framework?"))]
             else []),
         Ok (Some tt))
    end.
Proof.
  unfold show. destruct (MandalaGrid.display g) as [text|e]; [|done].
  cbn [lifted print mbind run_bind app]. rewrite print_all_events.
  destruct (demo a); cbn [print mbind run_bind mret run_ret app];
    by rewrite ?app_nil_r.
Qed.

End CliFacts.

Section CliTraces.
Import Cli.
Context {py : PyText} {js : PyJson}.

Lemma writes_app t1 t2 : writes (t1 ++ t2) = writes t1 ++ writes t2.
Proof. unfold writes. by rewrite omap_app. Qed.

Lemma writes_Printed l : writes (map Printed l) = [].
Proof. induction l as [|s l IH]; [done|exact IH]. Qed.

Lemma writes_show a g : writes (show a g).1 = [].
Proof.
  rewrite show_events. destruct (MandalaGrid.display g); [|done].
  cbn [fst]. rewrite !writes_app, writes_Printed.
  by destruct (demo a).
Qed.

Lemma length_show a g text :
  MandalaGrid.display g = Ok text →
  show a g
  = ((show a g).1, Ok (Some tt))
  ∧ length (show a g).1
    = (6 + length (MandalaGrid.positions g)
       + (if demo a then 3 else 0))%nat.
Proof.
  intros Hd. rewrite show_events, Hd. split; [done|].
  cbn [fst]. rewrite !length_app, !length_map.
  rewrite (Permutation_length (sorted_perm _ _ _)).
  destruct (demo a); simpl; lia.
Qed.

Lemma writes_main_compare w a fa fb :
  compare a = Some (fa, fb) → writes (main w a).1 = [].
Proof.
  intros Hc. unfold main. rewrite Hc.
  destruct (MandalaGrid.from_json (read w fa)) as [[ga|]|]; try done.
  destruct (MandalaGrid.from_json (read w fb)) as [[gb|]|]; try done.
  cbn. by destruct (compare_grids ga gb).
Qed.

End CliTraces.





(** Without [--compare], the arguments are served in one order: [--export]
    before [--prompt], before [--mirror], before the default view, and
    [--demo] counts in the default view only.  An empty string given for
    the profile, the export path or the task counts as no argument.  A
    profile that fails to load ends the run with its error before
    anything is printed or written, whatever the other arguments. *)
Theorem main_precedence {py : PyText} {js : Cli.PyJson}
    (w : Cli.world) (a : Cli.args) :
  Cli.compare a = None →
  Cli.main w a
  = Cli.main w (Cli.mk_args (Cli.demo a) (Cli.given (Cli.profile a)) None
                  (Cli.mirror a) (Cli.given (Cli.export a))
                  (Cli.given (Cli.prompt a)))
  ∧ (is_Some (Cli.given (Cli.export a)) →
     ∀ d m p, Cli.main w a
              = Cli.main w (Cli.mk_args d (Cli.profile a) None m
                              (Cli.export a) p))
  ∧ (Cli.given (Cli.export a) = None →
     is_Some (Cli.given (Cli.prompt a)) →
     ∀ d m, Cli.main w a
            = Cli.main w (Cli.mk_args d (Cli.profile a) None m
                            (Cli.export a) (Cli.prompt a)))
  ∧ (Cli.given (Cli.export a) = None → Cli.given (Cli.prompt a) = None →
     Cli.mirror a = true →
     ∀ d, Cli.main w a
          = Cli.main w (Cli.mk_args d (Cli.profile a) None true
                          (Cli.export a) (Cli.prompt a)))
  ∧ (∀ e, Cli.chosen w a = Raise e → Cli.main w a = ([], Raise e)).
Proof.
  intros Hc. split_and!.
  - rewrite !main_chosen by done. unfold Cli.chosen.
    cbn [Cli.demo Cli.profile Cli.mirror Cli.export Cli.prompt].
    by rewrite !given_idemp.
  - intros [path He] d m p. rewrite !main_chosen by done. unfold Cli.chosen.
    cbn [Cli.demo Cli.profile Cli.mirror Cli.export Cli.prompt].
    by rewrite He.
  - intros He [task Hp] d m. rewrite !main_chosen by done. unfold Cli.chosen.
    cbn [Cli.demo Cli.profile Cli.mirror Cli.export Cli.prompt].
    by rewrite He, Hp.
  - intros He Hp Hm d. rewrite !main_chosen by done. unfold Cli.chosen.
    cbn [Cli.demo Cli.profile Cli.mirror Cli.export Cli.prompt].
    by rewrite He, Hp, Hm.
  - intros e Hg. rewrite main_chosen by done. by rewrite Hg.
Qed.

Lemma main_precedence_witness :
  let w := Cli.one_document (MandalaGrid.to_dict MandalaGrid.default) in
  Cli.main (py := Sample.text) (js := Cli.no_json) w
    (Cli.mk_args true (Some []) None true (Some []) (Some (u "a task")))
  = Cli.main (py := Sample.text) (js := Cli.no_json) w
      (Cli.mk_args false None None false None (Some (u "a task")))
  ∧ Cli.main (py := Sample.text) (js := Cli.no_json) w
      (Cli.mk_args false None None false None (Some (u "a task")))
    = ([Cli.Printed
          (MandalaGrid.weighted_prompt (py := Sample.text)
             MandalaGrid.default (u "a task"))], Ok (Some tt)).
Proof.
  intros w. split; [|reflexivity].
  destruct (main_precedence (py := Sample.text) (js := Cli.no_json) w
              (Cli.mk_args true (Some []) None true (Some [])
                 (Some (u "a task"))) eq_refl)
    as (Hempty & _ & Hprompt & _).
  rewrite Hempty.
  destruct (main_precedence (py := Sample.text) (js := Cli.no_json) w
              (Cli.mk_args true None None true None (Some (u "a task")))
              eq_refl)
    as (_ & _ & Hprompt' & _).
  exact (Hprompt' eq_refl (ex_intro _ _ eq_refl) false false).
Defined.


